(** * TaskFlow: the relational schema, its row-level security policies,
      its trigger functions and the client write paths, as a shallow embedding.

    Sources embedded here:
    - [supabase/migrations/20260219002532_...sql]: enums, tables, constraints,
      policies, [has_role], [update_updated_at_column], [handle_new_user];
    - [TasksView] ([saveTask], [toggleStar], [toggleStatus]);
    - [AdminView] ([promoteToAdmin]).

    A database is a record of tables, a table is a list of rows, a statement
    maps a database to a [result]: the new database, or the error that aborts
    the statement and leaves the database as it was. *)

From Stdlib Require Import List String Ascii ZArith Bool Lia Permutation.
Import ListNotations.
Local Open Scope string_scope.
Local Open Scope list_scope.

(** ** Column types *)

(** UUID columns hold the textual form the client sends and receives. *)
Definition uuid := string.
Definition text := string.
(** TIMESTAMP WITH TIME ZONE, as microseconds since the epoch. *)
Definition timestamptz := Z.
(** DATE, as a day number. *)
Definition date := Z.

(** CREATE TYPE public.app_role AS ENUM ('admin', 'user') *)
Inductive app_role := admin | user.
(** CREATE TYPE public.task_priority AS ENUM ('low','medium','high','urgent') *)
Inductive task_priority := low | medium | high | urgent.
(** CREATE TYPE public.task_status AS ENUM (...) *)
Inductive task_status := pending | in_progress | completed | cancelled.

Definition app_role_eqb (a b : app_role) : bool :=
  match a, b with
  | admin, admin | user, user => true
  | _, _ => false
  end.

Definition task_status_eqb (a b : task_status) : bool :=
  match a, b with
  | pending, pending | in_progress, in_progress
  | completed, completed | cancelled, cancelled => true
  | _, _ => false
  end.

(** SQL comparison of a nullable uuid column with a value: NULL never matches. *)
Definition null_eqb (c : option uuid) (v : uuid) : bool :=
  match c with
  | Some x => String.eqb x v
  | None => false
  end.

(** ** JSON values of [auth.users.raw_user_meta_data]

    Only the operator [->>] is used on them.  A string member is kept as
    its content, any other non-null member by its text rendering. *)
Inductive jvalue :=
| JNull
| JString (s : text)
| JOther (rendering : text).

Inductive jsonb :=
| JObject (members : list (string * jvalue))
| JScalarOrArray.

Fixpoint member (k : string) (ms : list (string * jvalue)) : option jvalue :=
  match ms with
  | [] => None
  | (k', v) :: ms' => if String.eqb k' k then Some v else member k ms'
  end.

(** [j ->> k]: the member as text; NULL when [j] is NULL or not an object,
    when the key is absent, or when the member is JSON null. *)
Definition json_get_text (j : option jsonb) (k : string) : option text :=
  match j with
  | Some (JObject ms) =>
      match member k ms with
      | Some (JString s) => Some s
      | Some (JOther s) => Some s
      | Some JNull => None
      | None => None
      end
  | Some JScalarOrArray => None
  | None => None
  end.

(** COALESCE: the first argument that is not NULL. *)
Fixpoint COALESCE {A : Type} (args : list (option A)) : option A :=
  match args with
  | [] => None
  | Some v :: _ => Some v
  | None :: rest => COALESCE rest
  end.

(** The fields of [s] separated by the character [c]. *)
Fixpoint split_on (c : ascii) (s : string) : list string :=
  match s with
  | EmptyString => [EmptyString]
  | String a s' =>
      if Ascii.eqb a c then EmptyString :: split_on c s'
      else match split_on c s' with
           | [] => [String a EmptyString]
           | f :: fs => String a f :: fs
           end
  end.

(** split_part(s, c, n) for a one-character delimiter and [n >= 1]:
    the n-th field, or the empty string when there are fewer fields. *)
Definition split_part (s : string) (c : ascii) (n : nat) : string :=
  nth (n - 1) (split_on c s) EmptyString.

(** ** Tables *)

(** The rows of [auth.users] as far as the schema reads them. *)
Module AuthUser.
Record row := mk {
    id : uuid;
    email : option text;
    raw_user_meta_data : option jsonb
  }.
End AuthUser.

Module Profile.
Record row := mk {
    id : uuid;
    display_name : option text;
    avatar_url : option text;
    bio : option text;
    created_at : timestamptz;
    updated_at : timestamptz
  }.
Definition set_updated_at (v : timestamptz) (r : row) : row :=
    mk (id r) (display_name r) (avatar_url r) (bio r) (created_at r) v.
End Profile.

Module UserRole.
Record row := mk {
    id : uuid;
    user_id : uuid;
    role : app_role;
    created_at : timestamptz
  }.
End UserRole.

Module Category.
Record row := mk {
    id : uuid;
    user_id : uuid;
    name : text;
    color : text;
    icon : option text;
    created_at : timestamptz;
    updated_at : timestamptz
  }.
Definition set_updated_at (v : timestamptz) (r : row) : row :=
    mk (id r) (user_id r) (name r) (color r) (icon r) (created_at r) v.
End Category.

Module Task.
Record row := mk {
    id : uuid;
    user_id : uuid;
    category_id : option uuid;
    title : text;
    description : option text;
    status : task_status;
    priority : task_priority;
    due_date : option timestamptz;
    completed_at : option timestamptz;
    tags : option (list text);
    is_starred : option bool;
    sort_order : option Z;
    created_at : timestamptz;
    updated_at : timestamptz
  }.
Definition set_updated_at (v : timestamptz) (r : row) : row :=
    mk (id r) (user_id r) (category_id r) (title r) (description r) (status r)
       (priority r) (due_date r) (completed_at r) (tags r) (is_starred r)
       (sort_order r) (created_at r) v.
Definition set_category_id (v : option uuid) (r : row) : row :=
    mk (id r) (user_id r) v (title r) (description r) (status r)
       (priority r) (due_date r) (completed_at r) (tags r) (is_starred r)
       (sort_order r) (created_at r) (updated_at r).
End Task.

Module Subtask.
Record row := mk {
    id : uuid;
    task_id : uuid;
    user_id : uuid;
    title : text;
    is_completed : option bool;
    sort_order : option Z;
    created_at : timestamptz;
    updated_at : timestamptz
  }.
Definition set_updated_at (v : timestamptz) (r : row) : row :=
    mk (id r) (task_id r) (user_id r) (title r) (is_completed r)
       (sort_order r) (created_at r) v.
End Subtask.

Module Reminder.
Record row := mk {
    id : uuid;
    task_id : uuid;
    user_id : uuid;
    remind_at : timestamptz;
    is_sent : option bool;
    message : option text;
    created_at : timestamptz
  }.
End Reminder.

Module Notification.
Record row := mk {
    id : uuid;
    user_id : uuid;
    title : text;
    body : option text;
    type : option text;
    is_read : option bool;
    task_id : option uuid;
    created_at : timestamptz
  }.
Definition set_task_id (v : option uuid) (r : row) : row :=
    mk (id r) (user_id r) (title r) (body r) (type r) (is_read r) v
       (created_at r).
End Notification.

Module Analytics.
Record row := mk {
    id : uuid;
    user_id : uuid;
    date : date;
    tasks_created : option Z;
    tasks_completed : option Z;
    tasks_cancelled : option Z;
    focus_minutes : option Z;
    streak_days : option Z;
    created_at : timestamptz
  }.
End Analytics.

(** The database: [auth.users] and the eight tables of schema [public]. *)
Record db := mkdb {
  auth_users : list AuthUser.row;
  profiles : list Profile.row;
  user_roles : list UserRole.row;
  categories : list Category.row;
  tasks : list Task.row;
  subtasks : list Subtask.row;
  reminders : list Reminder.row;
  notifications : list Notification.row;
  analytics : list Analytics.row
}.

(** The tables that have row-level security enabled. *)
Inductive table :=
| public_profiles
| public_user_roles
| public_categories
| public_tasks
| public_subtasks
| public_reminders
| public_notifications
| public_analytics.

Definition row (t : table) : Type :=
  match t with
  | public_profiles => Profile.row
  | public_user_roles => UserRole.row
  | public_categories => Category.row
  | public_tasks => Task.row
  | public_subtasks => Subtask.row
  | public_reminders => Reminder.row
  | public_notifications => Notification.row
  | public_analytics => Analytics.row
  end.

Definition rows (t : table) (d : db) : list (row t) :=
  match t with
  | public_profiles => profiles d
  | public_user_roles => user_roles d
  | public_categories => categories d
  | public_tasks => tasks d
  | public_subtasks => subtasks d
  | public_reminders => reminders d
  | public_notifications => notifications d
  | public_analytics => analytics d
  end.

Definition set_rows (t : table) : list (row t) -> db -> db :=
  match t with
  | public_profiles => fun l d =>
      mkdb (auth_users d) l (user_roles d) (categories d) (tasks d)
           (subtasks d) (reminders d) (notifications d) (analytics d)
  | public_user_roles => fun l d =>
      mkdb (auth_users d) (profiles d) l (categories d) (tasks d)
           (subtasks d) (reminders d) (notifications d) (analytics d)
  | public_categories => fun l d =>
      mkdb (auth_users d) (profiles d) (user_roles d) l (tasks d)
           (subtasks d) (reminders d) (notifications d) (analytics d)
  | public_tasks => fun l d =>
      mkdb (auth_users d) (profiles d) (user_roles d) (categories d) l
           (subtasks d) (reminders d) (notifications d) (analytics d)
  | public_subtasks => fun l d =>
      mkdb (auth_users d) (profiles d) (user_roles d) (categories d) (tasks d)
           l (reminders d) (notifications d) (analytics d)
  | public_reminders => fun l d =>
      mkdb (auth_users d) (profiles d) (user_roles d) (categories d) (tasks d)
           (subtasks d) l (notifications d) (analytics d)
  | public_notifications => fun l d =>
      mkdb (auth_users d) (profiles d) (user_roles d) (categories d) (tasks d)
           (subtasks d) (reminders d) l (analytics d)
  | public_analytics => fun l d =>
      mkdb (auth_users d) (profiles d) (user_roles d) (categories d) (tasks d)
           (subtasks d) (reminders d) (notifications d) l
  end.

Definition set_auth_users (l : list AuthUser.row) (d : db) : db :=
  mkdb l (profiles d) (user_roles d) (categories d) (tasks d)
       (subtasks d) (reminders d) (notifications d) (analytics d).

(** The primary key column [id] of each table. *)
Definition pkey (t : table) : row t -> uuid :=
  match t with
  | public_profiles => Profile.id
  | public_user_roles => UserRole.id
  | public_categories => Category.id
  | public_tasks => Task.id
  | public_subtasks => Subtask.id
  | public_reminders => Reminder.id
  | public_notifications => Notification.id
  | public_analytics => Analytics.id
  end.

(** The column that references the owning identity: [id] for profiles,
    [user_id] everywhere else. *)
Definition owner (t : table) : row t -> uuid :=
  match t with
  | public_profiles => Profile.id
  | public_user_roles => UserRole.user_id
  | public_categories => Category.user_id
  | public_tasks => Task.user_id
  | public_subtasks => Subtask.user_id
  | public_reminders => Reminder.user_id
  | public_notifications => Notification.user_id
  | public_analytics => Analytics.user_id
  end.

(** ** The role check

    [has_role] is a SQL function, STABLE and SECURITY DEFINER: its body is one
    SELECT EXISTS over [public.user_roles], run with the rights of the owner
    of the table, so the scan is over the stored rows, whoever calls. *)
Definition has_role (d : db) (_user_id : uuid) (_role : app_role) : bool :=
  existsb (fun r => String.eqb (UserRole.user_id r) _user_id
                    && app_role_eqb (UserRole.role r) _role)
          (user_roles d).

(** ** Row-level security policies

    A policy is for one command or for all of them, and has a USING
    expression, a WITH CHECK expression, or both.  The migration uses two
    shapes of expression only. *)
Inductive command := SELECT | INSERT | UPDATE | DELETE.

Inductive policy_for := FOR_ALL | FOR_SELECT | FOR_INSERT | FOR_UPDATE | FOR_DELETE.

Inductive expr (t : table) :=
| auth_uid_eq (col : row t -> uuid)          (* auth.uid() = col *)
| has_role_auth_uid (r : app_role).          (* public.has_role(auth.uid(), r) *)

Arguments auth_uid_eq {t} col.
Arguments has_role_auth_uid {t} r.

Record policy (t : table) := mkpolicy {
  polname : string;
  polcmd : policy_for;
  polqual : option (expr t);        (* USING *)
  polwithcheck : option (expr t)    (* WITH CHECK *)
}.

Arguments mkpolicy {t}.
Arguments polname {t}.
Arguments polcmd {t}.
Arguments polqual {t}.
Arguments polwithcheck {t}.

(** Every CREATE POLICY of the migration, table by table. *)
Definition policies (t : table) : list (policy t) :=
  match t return list (policy t) with
  | public_profiles =>
      [ mkpolicy "Users can view their own profile" FOR_SELECT
          (Some (auth_uid_eq (t:=public_profiles) Profile.id)) None;
        mkpolicy "Users can update their own profile" FOR_UPDATE
          (Some (auth_uid_eq (t:=public_profiles) Profile.id)) None;
        mkpolicy "Users can insert their own profile" FOR_INSERT
          None (Some (auth_uid_eq (t:=public_profiles) Profile.id)) ]
  | public_user_roles =>
      [ mkpolicy "Users can view their own roles" FOR_SELECT
          (Some (auth_uid_eq (t:=public_user_roles) UserRole.user_id)) None;
        mkpolicy "Admins can manage all roles" FOR_ALL
          (Some (has_role_auth_uid admin)) None ]
  | public_categories =>
      [ mkpolicy "Users can CRUD their own categories" FOR_ALL
          (Some (auth_uid_eq (t:=public_categories) Category.user_id)) None;
        mkpolicy "Admins can view all categories" FOR_SELECT
          (Some (has_role_auth_uid admin)) None ]
  | public_tasks =>
      [ mkpolicy "Users can CRUD their own tasks" FOR_ALL
          (Some (auth_uid_eq (t:=public_tasks) Task.user_id)) None;
        mkpolicy "Admins can view all tasks" FOR_SELECT
          (Some (has_role_auth_uid admin)) None ]
  | public_subtasks =>
      [ mkpolicy "Users can CRUD their own subtasks" FOR_ALL
          (Some (auth_uid_eq (t:=public_subtasks) Subtask.user_id)) None ]
  | public_reminders =>
      [ mkpolicy "Users can CRUD their own reminders" FOR_ALL
          (Some (auth_uid_eq (t:=public_reminders) Reminder.user_id)) None ]
  | public_notifications =>
      [ mkpolicy "Users can view their own notifications" FOR_SELECT
          (Some (auth_uid_eq (t:=public_notifications) Notification.user_id)) None;
        mkpolicy "Users can update their own notifications" FOR_UPDATE
          (Some (auth_uid_eq (t:=public_notifications) Notification.user_id)) None;
        mkpolicy "Users can delete their own notifications" FOR_DELETE
          (Some (auth_uid_eq (t:=public_notifications) Notification.user_id)) None;
        mkpolicy "System can insert notifications" FOR_INSERT
          None (Some (auth_uid_eq (t:=public_notifications) Notification.user_id)) ]
  | public_analytics =>
      [ mkpolicy "Users can CRUD their own analytics" FOR_ALL
          (Some (auth_uid_eq (t:=public_analytics) Analytics.user_id)) None;
        mkpolicy "Admins can view all analytics" FOR_SELECT
          (Some (has_role_auth_uid admin)) None ]
  end.

Definition applies (f : policy_for) (c : command) : bool :=
  match f, c with
  | FOR_ALL, _ => true
  | FOR_SELECT, SELECT | FOR_INSERT, INSERT
  | FOR_UPDATE, UPDATE | FOR_DELETE, DELETE => true
  | _, _ => false
  end.

(** An expression, for the requesting identity [uid] (the value of
    auth.uid()) and a row. *)
Definition eval (d : db) (uid : uuid) {t : table} (e : expr t) (r : row t) : bool :=
  match e with
  | auth_uid_eq col => String.eqb uid (col r)
  | has_role_auth_uid ro => has_role d uid ro
  end.

Definition eval_opt (d : db) (uid : uuid) {t : table} (e : option (expr t))
    (r : row t) : bool :=
  match e with
  | Some e' => eval d uid e' r
  | None => false
  end.

(** The policies are permissive: an existing row passes for command [c] when
    the USING expression of some policy for [c] holds.  With row-level
    security enabled and no such policy, no row passes. *)
Definition passes_using (d : db) (uid : uuid) (t : table) (c : command)
    (r : row t) : bool :=
  existsb (fun p => applies (polcmd p) c && eval_opt d uid (polqual p) r)
          (policies t).

(** The expression a policy checks a new row with: its WITH CHECK, or its
    USING when it has no WITH CHECK. *)
Definition check_expr {t : table} (p : policy t) : option (expr t) :=
  match polwithcheck p with
  | Some e => Some e
  | None => polqual p
  end.

Definition passes_check (d : db) (uid : uuid) (t : table) (c : command)
    (r : row t) : bool :=
  existsb (fun p => applies (polcmd p) c && eval_opt d uid (check_expr p) r)
          (policies t).

(** A table grants admin read access when it has a policy for SELECT whose
    USING expression is has_role(auth.uid(), 'admin'). *)
Definition is_admin_read {t : table} (p : policy t) : bool :=
  match polcmd p, polqual p with
  | FOR_SELECT, Some (has_role_auth_uid admin) => true
  | _, _ => false
  end.

Definition grants_admin_read (t : table) : bool :=
  existsb is_admin_read (policies t).

(** ** Statements *)

Inductive pg_error :=
| insufficient_privilege                     (* 42501, row-level security *)
| unique_violation (constraint : string)     (* 23505 *)
| foreign_key_violation (constraint : string) (* 23503 *)
| invalid_datetime_format.                   (* 22007 *)

Inductive result (A : Type) :=
| Ok (a : A)
| Error (e : pg_error).

Arguments Ok {A} a.
Arguments Error {A} e.

Definition bind {A B : Type} (m : result A) (k : A -> result B) : result B :=
  match m with
  | Ok a => k a
  | Error e => Error e
  end.

Notation "x <- m ;; k" := (bind m (fun x => k))
  (at level 61, m at next level, right associativity).

(** What the client is left with after a statement: the new database, or the
    old one when the statement was aborted. *)
Definition after (d : db) (r : result db) : db :=
  match r with
  | Ok d' => d'
  | Error _ => d
  end.

(** SELECT ... FROM t WHERE wh, as [uid]: the policies filter the rows, and
    the statement does not fail. *)
Definition select_as (d : db) (uid : uuid) (t : table) (wh : row t -> bool)
    : result (list (row t)) :=
  Ok (filter (fun r => passes_using d uid t SELECT r && wh r) (rows t d)).

(** ** Triggers on update

    [update_updated_at_column] sets NEW.updated_at to now() and returns NEW.
    It is attached BEFORE UPDATE, FOR EACH ROW, to profiles, categories,
    tasks and subtasks; the other tables have no trigger. *)
Definition update_updated_at_column (now : timestamptz) (t : table)
    : row t -> row t :=
  match t return row t -> row t with
  | public_profiles => Profile.set_updated_at now
  | public_categories => Category.set_updated_at now
  | public_tasks => Task.set_updated_at now
  | public_subtasks => Subtask.set_updated_at now
  | public_user_roles => fun NEW => NEW
  | public_reminders => fun NEW => NEW
  | public_notifications => fun NEW => NEW
  | public_analytics => fun NEW => NEW
  end.

(** ** Constraints *)

Definition table_name (t : table) : string :=
  match t with
  | public_profiles => "profiles"
  | public_user_roles => "user_roles"
  | public_categories => "categories"
  | public_tasks => "tasks"
  | public_subtasks => "subtasks"
  | public_reminders => "reminders"
  | public_notifications => "notifications"
  | public_analytics => "analytics"
  end.

Definition has_key {R : Type} (key : R -> uuid) (l : list R) (k : uuid) : bool :=
  existsb (fun x => String.eqb (key x) k) l.

(** UNIQUE (user_id, role) on user_roles, UNIQUE (user_id, date) on
    analytics: does a row of [l] agree with [r] on the constrained columns? *)
Definition unique_key_taken (t : table) : row t -> list (row t) -> option string :=
  match t return row t -> list (row t) -> option string with
  | public_user_roles => fun r l =>
      if existsb (fun x => String.eqb (UserRole.user_id x) (UserRole.user_id r)
                           && app_role_eqb (UserRole.role x) (UserRole.role r)) l
      then Some "user_roles_user_id_role_key" else None
  | public_analytics => fun r l =>
      if existsb (fun x => String.eqb (Analytics.user_id x) (Analytics.user_id r)
                           && Z.eqb (Analytics.date x) (Analytics.date r)) l
      then Some "analytics_user_id_date_key" else None
  | _ => fun _ _ => None
  end.

(** The unique constraint that [r] would violate next to the rows [l]:
    the primary key first, then the UNIQUE constraint of the table. *)
Definition unique_conflict (t : table) (r : row t) (l : list (row t))
    : option string :=
  if has_key (pkey t) l (pkey t r) then Some (String.append (table_name t) "_pkey")
  else unique_key_taken t r l.

Fixpoint first_conflict (t : table) (l : list (row t)) : option string :=
  match l with
  | [] => None
  | r :: l' =>
      match unique_conflict t r l' with
      | Some c => Some c
      | None => first_conflict t l'
      end
  end.

Definition references_user (d : db) (k : uuid) (constraint : string)
    : option string :=
  if has_key AuthUser.id (auth_users d) k then None else Some constraint.

Definition references_task (d : db) (k : uuid) (constraint : string)
    : option string :=
  if has_key Task.id (tasks d) k then None else Some constraint.

(** The foreign key that row [r] of table [t] violates in [d], if any. *)
Definition fk_violation (t : table) : row t -> db -> option string :=
  match t return row t -> db -> option string with
  | public_profiles => fun r d =>
      references_user d (Profile.id r) "profiles_id_fkey"
  | public_user_roles => fun r d =>
      references_user d (UserRole.user_id r) "user_roles_user_id_fkey"
  | public_categories => fun r d =>
      references_user d (Category.user_id r) "categories_user_id_fkey"
  | public_tasks => fun r d =>
      COALESCE
        [ references_user d (Task.user_id r) "tasks_user_id_fkey";
          match Task.category_id r with
          | Some c => if has_key Category.id (categories d) c then None
                      else Some "tasks_category_id_fkey"
          | None => None
          end ]
  | public_subtasks => fun r d =>
      COALESCE
        [ references_task d (Subtask.task_id r) "subtasks_task_id_fkey";
          references_user d (Subtask.user_id r) "subtasks_user_id_fkey" ]
  | public_reminders => fun r d =>
      COALESCE
        [ references_task d (Reminder.task_id r) "reminders_task_id_fkey";
          references_user d (Reminder.user_id r) "reminders_user_id_fkey" ]
  | public_notifications => fun r d =>
      COALESCE
        [ references_user d (Notification.user_id r) "notifications_user_id_fkey";
          match Notification.task_id r with
          | Some k => references_task d k "notifications_task_id_fkey"
          | None => None
          end ]
  | public_analytics => fun r d =>
      references_user d (Analytics.user_id r) "analytics_user_id_fkey"
  end.

(** The foreign key of another table that still references key [k] of
    table [t] in [d], if any: tasks are referenced by subtasks, reminders and
    notifications, categories by tasks. *)
Definition still_referenced (t : table) (k : uuid) (d : db) : option string :=
  match t with
  | public_tasks =>
      if existsb (fun s => String.eqb (Subtask.task_id s) k) (subtasks d)
      then Some "subtasks_task_id_fkey"
      else if existsb (fun r => String.eqb (Reminder.task_id r) k) (reminders d)
      then Some "reminders_task_id_fkey"
      else if existsb (fun n => null_eqb (Notification.task_id n) k) (notifications d)
      then Some "notifications_task_id_fkey"
      else None
  | public_categories =>
      if existsb (fun x => null_eqb (Task.category_id x) k) (tasks d)
      then Some "tasks_category_id_fkey"
      else None
  | _ => None
  end.

(** ** INSERT *)

(** The insert of one row with the policies out of the way (the table owner,
    or a SECURITY DEFINER function): unique constraints, then foreign keys. *)
Definition insert_row (t : table) (r : row t) (d : db) : result db :=
  match unique_conflict t r (rows t d) with
  | Some c => Error (unique_violation c)
  | None =>
      match fk_violation t r d with
      | Some c => Error (foreign_key_violation c)
      | None => Ok (set_rows t (rows t d ++ [r]) d)
      end
  end.

(** INSERT INTO t VALUES r, as [uid]: the new row is checked against the
    policies for INSERT before the constraints are. *)
Definition insert_as (uid : uuid) (t : table) (r : row t) (d : db) : result db :=
  if passes_check d uid t INSERT r then insert_row t r d
  else Error insufficient_privilege.

(** ** UPDATE *)

(** The rows a statement of [uid] with condition [wh] and command [c]
    (UPDATE or DELETE) works on: reading the row for the condition needs the
    SELECT policies, changing it the policies of [c]. *)
Definition targets (d : db) (uid : uuid) (t : table) (c : command)
    (wh : row t -> bool) (r : row t) : bool :=
  wh r && passes_using d uid t SELECT r && passes_using d uid t c r.

(** The row that replaces [r]: the SET list applied, then the BEFORE UPDATE
    trigger. *)
Definition updated_row (now : timestamptz) (t : table) (set : row t -> row t)
    (r : row t) : row t :=
  update_updated_at_column now t (set r).

(** The foreign keys after an update of [r] into [r']: those of [r'] itself,
    and those of other tables on the key of [r] when the update changed it
    (no ON UPDATE action is declared, so the change is refused). *)
Definition update_fk_violation (t : table) (r r' : row t) (d' : db)
    : option string :=
  COALESCE
    [ fk_violation t r' d';
      if String.eqb (pkey t r) (pkey t r') then None
      else still_referenced t (pkey t r) d' ].

(** UPDATE t SET ... WHERE wh, as [uid], at time [now]. *)
Definition update_as (uid : uuid) (now : timestamptz) (t : table)
    (wh : row t -> bool) (set : row t -> row t) (d : db) : result db :=
  let hit := targets d uid t UPDATE wh in
  let l' := map (fun r => if hit r then updated_row now t set r else r) (rows t d) in
  let d' := set_rows t l' d in
  if forallb (fun r => negb (hit r)
                       || passes_check d uid t UPDATE (updated_row now t set r))
             (rows t d)
  then
    match first_conflict t l' with
    | Some c => Error (unique_violation c)
    | None =>
        match COALESCE (map (fun r => if hit r
                                      then update_fk_violation t r
                                             (updated_row now t set r) d'
                                      else None) (rows t d)) with
        | Some c => Error (foreign_key_violation c)
        | None => Ok d'
        end
    end
  else Error insufficient_privilege.

(** ** DELETE *)

(** The referential actions for the deleted keys [ks] of table [t].
    - subtasks.task_id and reminders.task_id: ON DELETE CASCADE;
    - notifications.task_id: ON DELETE SET NULL;
    - tasks.category_id: ON DELETE SET NULL, an update of the task, so its
      BEFORE UPDATE trigger fires.
    They run with the rights of the owner of the tables, not of [uid]. *)
Definition on_delete (now : timestamptz) (t : table) (ks : list uuid) (d : db)
    : db :=
  match t with
  | public_tasks =>
      let d1 := set_rows public_subtasks
                  (filter (fun s => negb (existsb (String.eqb (Subtask.task_id s)) ks))
                          (subtasks d)) d in
      let d2 := set_rows public_reminders
                  (filter (fun r => negb (existsb (String.eqb (Reminder.task_id r)) ks))
                          (reminders d1)) d1 in
      set_rows public_notifications
        (map (fun n => if existsb (null_eqb (Notification.task_id n)) ks
                       then Notification.set_task_id None n else n)
             (notifications d2)) d2
  | public_categories =>
      set_rows public_tasks
        (map (fun x => if existsb (null_eqb (Task.category_id x)) ks
                       then update_updated_at_column now public_tasks
                              (Task.set_category_id None x)
                       else x)
             (tasks d)) d
  | _ => d
  end.

(** DELETE FROM t WHERE wh, as [uid], at time [now]. *)
Definition delete_as (uid : uuid) (now : timestamptz) (t : table)
    (wh : row t -> bool) (d : db) : result db :=
  let hit := targets d uid t DELETE wh in
  let ks := map (pkey t) (filter hit (rows t d)) in
  Ok (on_delete now t ks
        (set_rows t (filter (fun r => negb (hit r)) (rows t d)) d)).

(** ** The bootstrap of a new identity

    [handle_new_user] is SECURITY DEFINER: its two inserts are not subject to
    the policies.  [gen] is the value gen_random_uuid() yields for
    user_roles.id, [now] the value of now() in the transaction. *)
Definition handle_new_user (NEW : AuthUser.row) (now : timestamptz) (gen : uuid)
    (d : db) : result db :=
  d1 <- insert_row public_profiles
          (Profile.mk
             (AuthUser.id NEW)
             (COALESCE
                [ json_get_text (AuthUser.raw_user_meta_data NEW) "display_name";
                  json_get_text (AuthUser.raw_user_meta_data NEW) "full_name";
                  option_map (fun e => split_part e "@" 1) (AuthUser.email NEW) ])
             (json_get_text (AuthUser.raw_user_meta_data NEW) "avatar_url")
             None now now) d ;;
  insert_row public_user_roles
    (UserRole.mk gen (AuthUser.id NEW) user now) d1.

(** The insert into auth.users and its trigger [on_auth_user_created]
    (AFTER INSERT, FOR EACH ROW), as one transaction. *)
Definition create_identity (NEW : AuthUser.row) (now : timestamptz) (gen : uuid)
    (d : db) : result db :=
  if has_key AuthUser.id (auth_users d) (AuthUser.id NEW)
  then Error (unique_violation "users_pkey")
  else handle_new_user NEW now gen (set_auth_users (auth_users d ++ [NEW]) d).

(** ** The client

    The write paths of [TasksView] and [AdminView].  Each one issues at most
    one statement; on an error the component shows a toast and the database
    is as before. *)

(** The form state of [TasksView]: [status] and [priority] are cast to the
    unions of the enum literals before they are used. *)
Module Form.
Record t := mk {
  title : string;
  description : string;
  status : task_status;
  priority : task_priority;
  due_date : string;
  category_id : string;
  tags : string;
  is_starred : bool
}.
End Form.

(** The object [saveTask] sends. *)
Module Payload.
Record t := mk {
  title : text;
  description : option text;
  status : task_status;
  priority : task_priority;
  due_date : option string;
  category_id : option uuid;
  tags : list text;
  is_starred : bool;
  completed_at : option timestamptz
}.
End Payload.

(** [s || null]: the empty string is falsy. *)
Definition or_null (s : string) : option string :=
  if String.eqb s "" then None else Some s.

(** [!b] for a nullable boolean column: null is falsy. *)
Definition js_not (b : option bool) : bool :=
  match b with
  | Some true => false
  | _ => true
  end.

Definition non_empty (s : string) : bool := negb (String.eqb s "").

Section Client.

(** String.prototype.trim. *)
Variable trim : string -> string.
(** The input conversion of TIMESTAMP WITH TIME ZONE: NULL result for a text
    that is no date. *)
Variable timestamptz_in : string -> option timestamptz.

Definition payload_of (form : Form.t) (client_now : timestamptz) : Payload.t :=
  Payload.mk
    (trim (Form.title form))
    (or_null (Form.description form))
    (Form.status form)
    (Form.priority form)
    (or_null (Form.due_date form))
    (or_null (Form.category_id form))
    (if non_empty (Form.tags form)
     then filter non_empty (map trim (split_on "," (Form.tags form)))
     else [])
    (Form.is_starred form)
    (if task_status_eqb (Form.status form) completed
     then Some client_now else None).

(** The due date of a payload as the column stores it. *)
Definition due_date_in (p : Payload.t) : result (option timestamptz) :=
  match Payload.due_date p with
  | None => Ok None
  | Some s =>
      match timestamptz_in s with
      | Some v => Ok (Some v)
      | None => Error invalid_datetime_format
      end
  end.

(** UPDATE tasks SET <the columns of the payload>. *)
Definition set_payload (p : Payload.t) (due : option timestamptz)
    (r : Task.row) : Task.row :=
  Task.mk (Task.id r) (Task.user_id r) (Payload.category_id p)
    (Payload.title p) (Payload.description p) (Payload.status p)
    (Payload.priority p) due (Payload.completed_at p)
    (Some (Payload.tags p)) (Some (Payload.is_starred p))
    (Task.sort_order r) (Task.created_at r) (Task.updated_at r).

(** The row of INSERT INTO tasks for the payload and [user_id]; the columns
    the client leaves out take their defaults. *)
Definition new_task (p : Payload.t) (due : option timestamptz) (user_id : uuid)
    (gen : uuid) (now : timestamptz) : Task.row :=
  Task.mk gen user_id (Payload.category_id p)
    (Payload.title p) (Payload.description p) (Payload.status p)
    (Payload.priority p) due (Payload.completed_at p)
    (Some (Payload.tags p)) (Some (Payload.is_starred p))
    (Some 0%Z) now now.

(** [saveTask]: [user] is the signed-in identity, [editingTask] the task the
    dialog was opened on, [client_now] the value of new Date(). *)
Definition saveTask (user : option uuid) (editingTask : option Task.row)
    (form : Form.t) (client_now now : timestamptz) (gen : uuid) (d : db)
    : result db :=
  match user with
  | None => Ok d
  | Some uid =>
      if negb (non_empty (trim (Form.title form))) then Ok d
      else
        let payload := payload_of form client_now in
        due <- due_date_in payload ;;
        match editingTask with
        | Some et =>
            update_as uid now public_tasks
              (fun r => String.eqb (Task.id r) (Task.id et))
              (set_payload payload due) d
        | None =>
            insert_as uid public_tasks (new_task payload due uid gen now) d
        end
  end.

End Client.

Definition set_is_starred (v : bool) (r : Task.row) : Task.row :=
  Task.mk (Task.id r) (Task.user_id r) (Task.category_id r) (Task.title r)
    (Task.description r) (Task.status r) (Task.priority r) (Task.due_date r)
    (Task.completed_at r) (Task.tags r) (Some v) (Task.sort_order r)
    (Task.created_at r) (Task.updated_at r).

Definition set_status (st : task_status) (done : option timestamptz)
    (r : Task.row) : Task.row :=
  Task.mk (Task.id r) (Task.user_id r) (Task.category_id r) (Task.title r)
    (Task.description r) st (Task.priority r) (Task.due_date r)
    done (Task.tags r) (Task.is_starred r) (Task.sort_order r)
    (Task.created_at r) (Task.updated_at r).

(** [toggleStar]: [task] is the copy of the row the component holds. *)
Definition toggleStar (uid : uuid) (task : Task.row) (now : timestamptz)
    (d : db) : result db :=
  update_as uid now public_tasks
    (fun r => String.eqb (Task.id r) (Task.id task))
    (set_is_starred (js_not (Task.is_starred task))) d.

(** [toggleStatus]. *)
Definition toggleStatus (uid : uuid) (task : Task.row)
    (client_now now : timestamptz) (d : db) : result db :=
  let newStatus :=
    if task_status_eqb (Task.status task) completed then pending else completed in
  update_as uid now public_tasks
    (fun r => String.eqb (Task.id r) (Task.id task))
    (set_status newStatus
       (if task_status_eqb newStatus completed then Some client_now else None))
    d.

(** [deleteTask], the same statement in [TasksView] and [AdminView]. *)
Definition deleteTask (uid : uuid) (id : uuid) (now : timestamptz) (d : db)
    : result db :=
  delete_as uid now public_tasks (fun r => String.eqb (Task.id r) id) d.

(** The task writes of the client. *)
Inductive task_write :=
| SaveTask (user : option uuid) (editingTask : option Task.row)
           (form : Form.t) (client_now : timestamptz) (gen : uuid)
| ToggleStar (uid : uuid) (task : Task.row)
| ToggleStatus (uid : uuid) (task : Task.row) (client_now : timestamptz).

Definition run_task_write (trim : string -> string)
    (timestamptz_in : string -> option timestamptz)
    (w : task_write) (now : timestamptz) (d : db) : result db :=
  match w with
  | SaveTask u e f c g => saveTask trim timestamptz_in u e f c now g d
  | ToggleStar u k => toggleStar u k now d
  | ToggleStatus u k c => toggleStatus u k c now d
  end.

(** The client time a write stamps completed rows with, if it sets a status. *)
Definition write_time (w : task_write) : option timestamptz :=
  match w with
  | SaveTask _ _ _ c _ => Some c
  | ToggleStar _ _ => None
  | ToggleStatus _ _ c => Some c
  end.

(** upsert of one row into user_roles with the columns [user_id] and [role]:
    INSERT ... ON CONFLICT (id) DO UPDATE SET user_id = EXCLUDED.user_id,
    role = EXCLUDED.role.  The primary key is the conflict target, as no
    other one is named; [excluded] is the row proposed for insertion. *)
Definition upsert_user_role (uid : uuid) (excluded : UserRole.row) (d : db)
    : result db :=
  if passes_check d uid public_user_roles INSERT excluded then
    if has_key UserRole.id (user_roles d) (UserRole.id excluded) then
      let hit := fun r : UserRole.row =>
        String.eqb (UserRole.id r) (UserRole.id excluded) in
      let upd := fun r : UserRole.row =>
        UserRole.mk (UserRole.id r) (UserRole.user_id excluded)
          (UserRole.role excluded) (UserRole.created_at r) in
      if forallb (fun r => negb (hit r)
                    || (passes_using d uid public_user_roles SELECT r
                        && passes_using d uid public_user_roles UPDATE r
                        && passes_check d uid public_user_roles UPDATE (upd r)))
                 (user_roles d)
      then
        let l' := map (fun r => if hit r then upd r else r) (user_roles d) in
        match first_conflict public_user_roles l' with
        | Some c => Error (unique_violation c)
        | None =>
            match fk_violation public_user_roles excluded d with
            | Some c => Error (foreign_key_violation c)
            | None => Ok (set_rows public_user_roles l' d)
            end
        end
      else Error insufficient_privilege
    else insert_row public_user_roles excluded d
  else Error insufficient_privilege.

(** [promoteToAdmin]: [uid] is the signed-in identity, [gen] and [now] the
    defaults of the columns [id] and [created_at]. *)
Definition promoteToAdmin (uid : uuid) (userId : uuid) (gen : uuid)
    (now : timestamptz) (d : db) : result db :=
  upsert_user_role uid (UserRole.mk gen userId admin now) d.

Local Open Scope Z_scope.

(** ** Predicates and columns the statements below speak of *)

(** completed_at is set exactly on the completed tasks. *)
Definition completed_at_consistent (x : Task.row) : Prop :=
  Task.status x = completed <-> Task.completed_at x <> None.

(** The column updated_at of the tables that have one. *)
Definition updated_at (t : table) : row t -> option timestamptz :=
  match t return row t -> option timestamptz with
  | public_profiles => fun r => Some (Profile.updated_at r)
  | public_categories => fun r => Some (Category.updated_at r)
  | public_tasks => fun r => Some (Task.updated_at r)
  | public_subtasks => fun r => Some (Subtask.updated_at r)
  | _ => fun _ => None
  end.

Definition has_updated_at_trigger (t : table) : bool :=
  match t with
  | public_profiles | public_categories | public_tasks | public_subtasks => true
  | _ => false
  end.

(** Every profile and every role row references a stored identity (the
    foreign keys profiles.id and user_roles.user_id). *)
Definition refers_to_users (d : db) : Prop :=
  (forall p, In p (profiles d) ->
     has_key AuthUser.id (auth_users d) (Profile.id p) = true)
  /\ (forall r, In r (user_roles d) ->
        has_key AuthUser.id (auth_users d) (UserRole.user_id r) = true).

Definition no_at_sign (s : string) : Prop :=
  forall a, In a (list_ascii_of_string s) -> a <> "@"%char.

Definition tasks_consistent (d : db) : Prop :=
  forall x, In x (tasks d) -> completed_at_consistent x.

(** ** Databases the statements below are run on *)

(** A database with an admin [a] and a user [u], each with the role row of
    the bootstrap, and the admin's extra role row. *)
Definition two_identities : db :=
  mkdb [ AuthUser.mk "a" (Some "a@example.org") None;
         AuthUser.mk "u" (Some "u@example.org") None ]
       [ Profile.mk "a" (Some "a") None None 1 1;
         Profile.mk "u" (Some "u") None None 2 2 ]
       [ UserRole.mk "r1" "a" user 1;
         UserRole.mk "r2" "u" user 2;
         UserRole.mk "r3" "a" admin 3 ]
       [] [] [] [] [] [].

(** [u1] has created the category "Work"; [u2] has none. *)
Definition work_category : Category.row :=
  Category.mk "c1" "u1" "Work" "#f9a8d4" (Some "folder") 10 10.

Definition one_category : db :=
  mkdb [ AuthUser.mk "u1" (Some "u1@example.org") None;
         AuthUser.mk "u2" (Some "u2@example.org") None ]
       [ Profile.mk "u1" (Some "u1") None None 1 1;
         Profile.mk "u2" (Some "u2") None None 2 2 ]
       [ UserRole.mk "r1" "u1" user 1; UserRole.mk "r2" "u2" user 2 ]
       [ work_category ] [] [] [] [] [].

Definition one_day : db :=
  set_rows public_analytics
    [ Analytics.mk "a1" "u1" 20500 (Some 1) (Some 0) (Some 0) (Some 0) (Some 0) 5 ]
    one_category.

Definition task1 : Task.row :=
  Task.mk "t1" "u1" (Some "c1") "Write report" None pending medium None None
    (Some []) (Some false) (Some 0) 20 20.

Definition task2 : Task.row :=
  Task.mk "t2" "u1" None "Call Ann" None pending low None None
    (Some []) (Some false) (Some 0) 21 21.

Definition with_children : db :=
  mkdb (auth_users one_category) (profiles one_category)
       (user_roles one_category) (categories one_category)
       [ task1; task2 ]
       [ Subtask.mk "s1" "t1" "u1" "Outline" (Some false) (Some 0) 22 22;
         Subtask.mk "s2" "t2" "u1" "Find number" (Some false) (Some 0) 23 23 ]
       [ Reminder.mk "m1" "t1" "u1" 90 (Some false) None 24 ]
       [ Notification.mk "n1" "u1" "Due soon" None (Some "reminder") (Some false)
           (Some "t1") 25;
         Notification.mk "n2" "u1" "Welcome" None (Some "info") (Some true)
           None 26 ]
       [].

(** The owner of [task1] inserts a task whose updated_at lies ahead (the
    column default applies only when the column is left out, and no trigger
    fires on insert), and updates it at time 30. *)
Definition task_from_the_future : Task.row :=
  Task.mk "t3" "u1" None "Plan" None pending medium None None
    (Some []) (Some false) (Some 0) 20 1000.

Definition task_of_u : Task.row :=
  Task.mk "t9" "u" None "Buy milk" None pending medium None None
    (Some []) (Some false) (Some 0) 8 8.

Definition nina : AuthUser.row :=
  AuthUser.mk "n" (Some "nina@example.org")
    (Some (JObject [ ("avatar_url", JNull); ("full_name", JString "Nina R") ])).

(** ** Statements as data

    What a session can send: the three writing commands on a table with
    row-level security, the upsert of a role row, and the creation of an
    identity (with its trigger). *)
Inductive statement :=
| InsertAs (uid : uuid) (t : table) (r : row t)
| UpdateAs (uid : uuid) (now : timestamptz) (t : table)
           (wh : row t -> bool) (set : row t -> row t)
| DeleteAs (uid : uuid) (now : timestamptz) (t : table) (wh : row t -> bool)
| UpsertUserRole (uid : uuid) (excluded : UserRole.row)
| CreateIdentity (NEW : AuthUser.row) (now : timestamptz) (gen : uuid).

Definition run (s : statement) (d : db) : result db :=
  match s with
  | InsertAs uid t r => insert_as uid t r d
  | UpdateAs uid now t wh set => update_as uid now t wh set d
  | DeleteAs uid now t wh => delete_as uid now t wh d
  | UpsertUserRole uid excluded => upsert_user_role uid excluded d
  | CreateIdentity NEW now gen => create_identity NEW now gen d
  end.

(** A sequence of statements, each one on the database the one before left. *)
Definition run_all (ss : list statement) (d : db) : db :=
  fold_left (fun d' s => after d' (run s d')) ss d.

(** No role row grants admin. *)
Definition no_admin (d : db) : Prop :=
  forall r, In r (user_roles d) -> UserRole.role r <> admin.

(** [two_identities] with a task of [u]. *)
Definition with_task_of_u : db :=
  set_rows public_tasks [ task_of_u ] two_identities.



(** ** The admin panel

    [AdminView.fetchData] and what the panel renders from it. *)

(** A JavaScript object used as a map from strings: an assignment adds or
    overwrites a key, a read of a missing key gives undefined. *)
Definition js_object (V : Type) : Type := list (string * V).

Definition obj_set {V : Type} (k : string) (v : V) (o : js_object V)
    : js_object V :=
  (k, v) :: o.

Fixpoint obj_get {V : Type} (k : string) (o : js_object V) : option V :=
  match o with
  | [] => None
  | (k', v) :: o' => if String.eqb k' k then Some v else obj_get k o'
  end.

(** [data || []]: the rows of a response, none when it carries an error. *)
Definition data_or_empty {A : Type} (r : result (list A)) : list A :=
  match r with
  | Ok l => l
  | Error _ => []
  end.

(** [x || dflt] for a value read from an object. *)
Definition or_default {V : Type} (x : option V) (dflt : V) : V :=
  match x with
  | Some v => v
  | None => dflt
  end.

(** interface UserWithRole extends Profile. *)
Module UserWithRole.
Record t := mk {
  profile : Profile.row;
  role : app_role;
  task_count : nat
}.
End UserWithRole.

Section AdminView.

(** The order in which the rows of a response arrive: by created_at,
    descending, for profiles and tasks; unspecified for the role rows.  Each
    is some rearrangement of the rows that were selected. *)
Variable order_profiles : list Profile.row -> list Profile.row.
Variable arrival_roles : list UserRole.row -> list UserRole.row.
Variable order_tasks : list Task.row -> list Task.row.

(** [fetchData], as the signed-in identity [uid]: the users and the tasks it
    puts into the state of the component. *)
Definition fetchData (uid : uuid) (d : db) : list UserWithRole.t * list Task.row :=
  let profiles :=
    order_profiles
      (data_or_empty (select_as d uid public_profiles (fun _ => true))) in
  let roles :=
    arrival_roles
      (data_or_empty (select_as d uid public_user_roles (fun _ => true))) in
  let allTasks :=
    firstn 50
      (order_tasks
         (data_or_empty (select_as d uid public_tasks (fun _ => true)))) in
  let roleMap :=
    fold_left (fun m r => obj_set (UserRole.user_id r) (UserRole.role r) m)
              roles [] in
  let taskCountMap :=
    fold_left (fun m x =>
                 obj_set (Task.user_id x)
                         (or_default (obj_get (Task.user_id x) m) 0 + 1)%nat m)
              allTasks [] in
  (map (fun p => UserWithRole.mk p
                   (or_default (obj_get (Profile.id p) roleMap) user)
                   (or_default (obj_get (Profile.id p) taskCountMap) 0%nat))
       profiles,
   allTasks).

End AdminView.

(** The condition under which the panel renders the Promote button for a
    listed user: u.role !== "admin" && u.id !== user?.id. *)
Definition promote_button_shown (uid : uuid) (u : UserWithRole.t) : bool :=
  negb (app_role_eqb (UserWithRole.role u) admin)
  && negb (String.eqb (Profile.id (UserWithRole.profile u)) uid).

(** The counters of the panel. *)
Definition totalUsers (users : list UserWithRole.t) : nat := List.length users.

Definition adminCount (users : list UserWithRole.t) : nat :=
  List.length (filter (fun u => app_role_eqb (UserWithRole.role u) admin) users).



(** ** Well-formed tables *)

Definition no_violation (o : option string) : bool :=
  match o with
  | None => true
  | Some _ => false
  end.

(** The constraints of table [t] hold in [d]: no two rows share a unique
    key, and every row references stored rows. *)
Definition table_ok (t : table) (d : db) : bool :=
  no_violation (first_conflict t (rows t d))
  && forallb (fun r => no_violation (fk_violation t r d)) (rows t d).

(** ** Further write paths of the client *)

(** [CategoriesView.deleteCategory]. *)
Definition deleteCategory (uid : uuid) (id : uuid) (now : timestamptz) (d : db)
    : result db :=
  delete_as uid now public_categories
    (fun r => String.eqb (Category.id r) id) d.

(** [SettingsView.saveProfile]: [user] is the signed-in identity. *)
Definition saveProfile (user : option uuid) (displayName bio : string)
    (now : timestamptz) (d : db) : result db :=
  match user with
  | None => Ok d
  | Some uid =>
      update_as uid now public_profiles
        (fun r => String.eqb (Profile.id r) uid)
        (fun r => Profile.mk (Profile.id r) (Some displayName)
                    (Profile.avatar_url r) (Some bio) (Profile.created_at r)
                    (Profile.updated_at r))
        d
  end.

(** [TasksView.addSubtask]: the insert asks for the new row back
    (.select().single()), so the row must pass the SELECT policies as well.
    The columns left out take their defaults. *)
Definition addSubtask (trim : string -> string) (user : option uuid)
    (taskId : uuid) (title : string) (gen : uuid) (now : timestamptz) (d : db)
    : result db :=
  match user with
  | None => Ok d
  | Some uid =>
      if negb (non_empty (trim title)) then Ok d
      else
        let NEW := Subtask.mk gen taskId uid (trim title) (Some false)
                     (Some 0) now now in
        if passes_using d uid public_subtasks SELECT NEW
        then insert_as uid public_subtasks NEW d
        else Error insufficient_privilege
  end.

(** The rows [TasksView.fetchSubtasks] asks for, as [uid]; they arrive
    ordered by sort_order. *)
Definition subtasks_of (uid : uuid) (taskId : uuid) (d : db) : list Subtask.row :=
  data_or_empty
    (select_as d uid public_subtasks
       (fun s => String.eqb (Subtask.task_id s) taskId)).



(** [with_children] with [task1] in progress. *)
Definition in_progress_db : db :=
  set_rows public_tasks [ set_status in_progress None task1; task2 ]
    with_children.

(** [with_children] with [task1] completed at time 5. *)
Definition completed_db : db :=
  set_rows public_tasks [ set_status completed (Some 5) task1; task2 ]
    with_children.

(** The form [openEdit] shows for the completed [task1], with a new title. *)
Definition retitle_form : Form.t :=
  Form.mk "Write the report" "" completed medium "" "c1" "" false.

(** [with_children] with a task of [u2] filed under the category of [u1]. *)
Definition shared_category_db : db :=
  set_rows public_tasks
    [ task1;
      Task.mk "t4" "u2" (Some "c1") "Book flight" None completed high None
        (Some 30) (Some []) (Some true) (Some 0) 27 31 ]
    with_children.

(** The references between the tables of schema public hold: every subtask,
    reminder and notification with a task_id references a stored task, every
    task with a category_id a stored category. *)
Definition refs_ok (d : db) : Prop :=
  (forall s, In s (subtasks d) ->
     has_key Task.id (tasks d) (Subtask.task_id s) = true)
  /\ (forall r, In r (reminders d) ->
        has_key Task.id (tasks d) (Reminder.task_id r) = true)
  /\ (forall n k, In n (notifications d) -> Notification.task_id n = Some k ->
        has_key Task.id (tasks d) k = true)
  /\ (forall x c, In x (tasks d) -> Task.category_id x = Some c ->
        has_key Category.id (categories d) c = true).



(** The form state of [CategoriesView]. *)
Module CategoryForm.
Record t := mk {
  name : string;
  color : string;
  icon : string
}.
End CategoryForm.

(** [CategoriesView.save]: [editing] is the category the dialog was opened
    on.  The component does not look at the response. *)
Definition saveCategory (trim : string -> string) (user : option uuid)
    (editing : option Category.row) (form : CategoryForm.t) (gen : uuid)
    (now : timestamptz) (d : db) : result db :=
  match user with
  | None => Ok d
  | Some uid =>
      if negb (non_empty (trim (CategoryForm.name form))) then Ok d
      else
        match editing with
        | Some e =>
            update_as uid now public_categories
              (fun r => String.eqb (Category.id r) (Category.id e))
              (fun r => Category.mk (Category.id r) (Category.user_id r)
                          (trim (CategoryForm.name form))
                          (CategoryForm.color form)
                          (Some (CategoryForm.icon form))
                          (Category.created_at r) (Category.updated_at r))
              d
        | None =>
            insert_as uid public_categories
              (Category.mk gen uid (trim (CategoryForm.name form))
                 (CategoryForm.color form) (Some (CategoryForm.icon form))
                 now now)
              d
        end
  end.

(** [TasksView.toggleSubtask]: [subtask] is the copy the component holds. *)
Definition toggleSubtask (uid : uuid) (subtask : Subtask.row)
    (now : timestamptz) (d : db) : result db :=
  update_as uid now public_subtasks
    (fun r => String.eqb (Subtask.id r) (Subtask.id subtask))
    (fun r => Subtask.mk (Subtask.id r) (Subtask.task_id r) (Subtask.user_id r)
                (Subtask.title r) (Some (js_not (Subtask.is_completed subtask)))
                (Subtask.sort_order r) (Subtask.created_at r)
                (Subtask.updated_at r))
    d.

(** The form state of [RemindersView]. *)
Module ReminderForm.
Record t := mk {
  task_id : string;
  remind_at : string;
  message : string
}.
End ReminderForm.

(** [RemindersView.save].  [date_of] is new Date(text): no value for a
    text that is no date, and then toISOString() throws before a statement
    is sent.  The columns left out take their defaults. *)
Definition saveReminder (date_of : string -> option timestamptz)
    (user : option uuid) (form : ReminderForm.t) (gen : uuid)
    (now : timestamptz) (d : db) : result db :=
  match user with
  | None => Ok d
  | Some uid =>
      if negb (non_empty (ReminderForm.task_id form))
         || negb (non_empty (ReminderForm.remind_at form))
      then Ok d
      else
        match date_of (ReminderForm.remind_at form) with
        | None => Ok d
        | Some at_ =>
            insert_as uid public_reminders
              (Reminder.mk gen (ReminderForm.task_id form) uid at_ (Some false)
                 (or_null (ReminderForm.message form)) now)
              d
        end
  end.

(** [RemindersView.deleteReminder]. *)
Definition deleteReminder (uid : uuid) (id : uuid) (now : timestamptz) (d : db)
    : result db :=
  delete_as uid now public_reminders (fun r => String.eqb (Reminder.id r) id) d.

(** Every write the components send: [user] is the signed-in identity the
    component holds, [uid] the identity of the session. *)
Inductive client_write :=
| TaskWrite (w : task_write)
| DeleteTask (uid : uuid) (id : uuid)
| ToggleSubtask (uid : uuid) (subtask : Subtask.row)
| AddSubtask (user : option uuid) (taskId : uuid) (title : string) (gen : uuid)
| SaveCategory (user : option uuid) (editing : option Category.row)
               (form : CategoryForm.t) (gen : uuid)
| DeleteCategory (uid : uuid) (id : uuid)
| SaveProfile (user : option uuid) (displayName bio : string)
| SaveReminder (user : option uuid) (form : ReminderForm.t) (gen : uuid)
| DeleteReminder (uid : uuid) (id : uuid)
| PromoteToAdmin (uid : uuid) (userId : uuid) (gen : uuid).

Section ClientWrites.

Variable trim : string -> string.
Variable timestamptz_in : string -> option timestamptz.
Variable date_of : string -> option timestamptz.

Definition run_client (w : client_write) (now : timestamptz) (d : db)
    : result db :=
  match w with
  | TaskWrite w' => run_task_write trim timestamptz_in w' now d
  | DeleteTask uid id => deleteTask uid id now d
  | ToggleSubtask uid s => toggleSubtask uid s now d
  | AddSubtask u taskId title gen =>
      addSubtask trim u taskId title gen now d
  | SaveCategory u editing form gen =>
      saveCategory trim u editing form gen now d
  | DeleteCategory uid id => deleteCategory uid id now d
  | SaveProfile u displayName bio => saveProfile u displayName bio now d
  | SaveReminder u form gen => saveReminder date_of u form gen now d
  | DeleteReminder uid id => deleteReminder uid id now d
  | PromoteToAdmin uid userId gen => promoteToAdmin uid userId gen now d
  end.

(** A sequence of writes, each with the time of its statement. *)
Definition run_client_all (ws : list (client_write * timestamptz)) (d : db)
    : db :=
  fold_left (fun d' w => after d' (run_client (fst w) (snd w) d')) ws d.

End ClientWrites.

(** No stored reminder is marked as sent. *)
Definition never_sent (d : db) : Prop :=
  forall r, In r (reminders d) -> Reminder.is_sent r = Some false.

(** What no write of the client changes: auth.users, analytics, the
    notifications but for a task_id that is cleared, and the reminders but
    for rows that go or that come with is_sent = false. *)
Definition client_frame (d d' : db) : Prop :=
  auth_users d' = auth_users d
  /\ analytics d' = analytics d
  /\ map (Notification.set_task_id None) (notifications d')
     = map (Notification.set_task_id None) (notifications d)
  /\ (forall n', In n' (notifications d') ->
        In n' (notifications d) \/ Notification.task_id n' = None)
  /\ (forall r, In r (reminders d') ->
        In r (reminders d) \/ Reminder.is_sent r = Some false).

(** Every stored identity has a profile and holds the role user. *)
Definition bootstrapped (d : db) : Prop :=
  forall u, In u (auth_users d) ->
    has_key Profile.id (profiles d) (AuthUser.id u) = true
    /\ has_role d (AuthUser.id u) user = true.

(** ** The analytics view

    The counters and the two pie charts [AnalyticsView] computes from the
    tasks it has fetched. *)

Definition task_priority_eqb (a b : task_priority) : bool :=
  match a, b with
  | low, low | medium, medium | high, high | urgent, urgent => true
  | _, _ => false
  end.

Definition count_status (st : task_status) (tasks : list Task.row) : nat :=
  List.length (filter (fun x => task_status_eqb (Task.status x) st) tasks).

Definition count_priority (p : task_priority) (tasks : list Task.row) : nat :=
  List.length (filter (fun x => task_priority_eqb (Task.priority x) p) tasks).

(** An entry of a pie chart. *)
Module Slice.
Record t := mk {
  name : string;
  value : nat;
  color : string
}.
End Slice.

Definition PRIORITY_COLORS (p : task_priority) : string :=
  match p with
  | urgent => "#ef4444"
  | high => "#f97316"
  | medium => "#eab308"
  | low => "#22c55e"
  end.

Definition priority_name (p : task_priority) : string :=
  match p with
  | urgent => "urgent"
  | high => "high"
  | medium => "medium"
  | low => "low"
  end.

Definition priorityData (tasks : list Task.row) : list Slice.t :=
  filter (fun s => Nat.ltb 0 (Slice.value s))
    (map (fun p => Slice.mk (priority_name p) (count_priority p tasks)
                     (PRIORITY_COLORS p))
         [ urgent; high; medium; low ]).

Definition statusData (tasks : list Task.row) : list Slice.t :=
  filter (fun s => Nat.ltb 0 (Slice.value s))
    [ Slice.mk "Pending" (count_status pending tasks) "#f9a8d4";
      Slice.mk "In Progress" (count_status in_progress tasks) "#67e8f9";
      Slice.mk "Completed" (count_status completed tasks) "#86efac";
      Slice.mk "Cancelled" (count_status cancelled tasks) "#d1d5db" ].

(** The sum of the values of a chart. *)
Definition chart_total (ss : list Slice.t) : nat :=
  fold_right (fun s n => (Slice.value s + n)%nat) 0%nat ss.

(** ** Reads of the client *)

(** The counter of the bell in [AppLayout]: the notifications of the
    signed-in identity with is_read = false ([count || 0]). *)
Definition notifCount (uid : uuid) (d : db) : nat :=
  List.length
    (data_or_empty
       (select_as d uid public_notifications
          (fun n => String.eqb (Notification.user_id n) uid
                    && match Notification.is_read n with
                       | Some false => true
                       | _ => false
                       end))).

Section RemindersView.

(** The order in which the tasks arrive (ORDER BY title). *)
Variable order_by_title : list Task.row -> list Task.row.

(** The tasks [RemindersView.fetch] keeps: those of the signed-in identity
    that are not completed. *)
Definition reminder_tasks (uid : uuid) (d : db) : list Task.row :=
  order_by_title
    (data_or_empty
       (select_as d uid public_tasks
          (fun x => String.eqb (Task.user_id x) uid
                    && negb (task_status_eqb (Task.status x) completed)))).

End RemindersView.

(** [taskTitle]: tasks.find(t => t.id === id)?.title || "Unknown task". *)
Definition taskTitle (tasks : list Task.row) (id : uuid) : string :=
  match find (fun x => String.eqb (Task.id x) id) tasks with
  | Some x => if non_empty (Task.title x) then Task.title x else "Unknown task"
  | None => "Unknown task"
  end.

(** * Properties *)

(** ** Helper lemmas *)

Lemma app_role_eqb_eq (a b : app_role) : app_role_eqb a b = true <-> a = b.
Proof. destruct a, b; simpl; split; congruence. Qed.

Lemma filter_none {A : Type} (f : A -> bool) (l : list A) :
  (forall x, In x l -> f x = false) -> filter f l = [].
Proof.
  induction l as [|a l IH]; intros H; simpl; [reflexivity|].
  rewrite (H a (or_introl eq_refl)). apply IH. intros x Hx. apply H. now right.
Qed.

Lemma filter_all {A : Type} (f : A -> bool) (l : list A) :
  (forall x, In x l -> f x = true) -> filter f l = l.
Proof.
  induction l as [|a l IH]; intros H; simpl; [reflexivity|].
  rewrite (H a (or_introl eq_refl)). f_equal. apply IH. intros x Hx. apply H. now right.
Qed.

Lemma map_unchanged {A : Type} (f : A -> A) (l : list A) :
  (forall x, In x l -> f x = x) -> map f l = l.
Proof.
  induction l as [|a l IH]; intros H; simpl; [reflexivity|].
  rewrite (H a (or_introl eq_refl)). f_equal. apply IH. intros x Hx. apply H. now right.
Qed.

Lemma set_rows_same (t : table) (d : db) : set_rows t (rows t d) d = d.
Proof. destruct t, d; reflexivity. Qed.

Lemma rows_set_rows (t : table) (l : list (row t)) (d : db) :
  rows t (set_rows t l d) = l.
Proof. destruct t; reflexivity. Qed.

Lemma has_role_true (d : db) (u : uuid) (r : app_role) :
  has_role d u r = true <->
  exists x, In x (user_roles d) /\ UserRole.user_id x = u /\ UserRole.role x = r.
Proof.
  unfold has_role. rewrite existsb_exists. split.
  - intros [x [Hin Hx]]. apply andb_true_iff in Hx as [Hu Hr].
    exists x. repeat split;
      [assumption | now apply String.eqb_eq | now apply app_role_eqb_eq].
  - intros [x [Hin [Hu Hr]]]. exists x. split; [assumption|].
    apply andb_true_iff. split; [now apply String.eqb_eq | now apply app_role_eqb_eq].
Qed.

(** The policies in closed form: what [uid] may do with a row it does not own. *)
Lemma passes_using_foreign (d : db) (uid : uuid) (t : table) (c : command)
    (r : row t) :
  uid <> owner t r ->
  passes_using d uid t c r =
  has_role d uid admin
  && match t, c with
     | public_user_roles, _ => true
     | (public_categories | public_tasks | public_analytics), SELECT => true
     | _, _ => false
     end.
Proof.
  intros Hne. apply String.eqb_neq in Hne.
  destruct t, c; cbn in *; rewrite ?Hne; cbn;
    destruct (has_role d uid admin); reflexivity.
Qed.

Lemma passes_check_foreign (d : db) (uid : uuid) (t : table) (c : command)
    (r : row t) :
  uid <> owner t r ->
  passes_check d uid t c r =
  has_role d uid admin
  && match t, c with
     | public_user_roles, _ => true
     | (public_categories | public_tasks | public_analytics), SELECT => true
     | _, _ => false
     end.
Proof.
  intros Hne. apply String.eqb_neq in Hne.
  destruct t, c; cbn in *; rewrite ?Hne; cbn;
    destruct (has_role d uid admin); reflexivity.
Qed.

Lemma grants_admin_read_tables (t : table) :
  grants_admin_read t =
  match t with
  | public_categories | public_tasks | public_analytics => true
  | _ => false
  end.
Proof. destruct t; reflexivity. Qed.

(** ** Row-level policies *)

(** C1, as stated, fails on user_roles: the policy "Admins can manage all
    roles" is FOR ALL, so the admin [a] passes the policies for UPDATE and
    DELETE on the role row of [u] and for the INSERT of a role row for [u],
    and a DELETE by [a] removes that row. *)
Lemma admin_writes_foreign_role_row :
  "a" <> owner public_user_roles (UserRole.mk "r2" "u" user 2)
  /\ In (UserRole.mk "r2" "u" user 2) (rows public_user_roles two_identities)
  /\ grants_admin_read public_user_roles = false
  /\ passes_using two_identities "a" public_user_roles SELECT
       (UserRole.mk "r2" "u" user 2) = true
  /\ passes_using two_identities "a" public_user_roles UPDATE
       (UserRole.mk "r2" "u" user 2) = true
  /\ passes_using two_identities "a" public_user_roles DELETE
       (UserRole.mk "r2" "u" user 2) = true
  /\ passes_check two_identities "a" public_user_roles INSERT
       (UserRole.mk "r4" "u" admin 4) = true
  /\ delete_as "a" 5 public_user_roles
       (fun r => String.eqb (UserRole.id r) "r2") two_identities
     = Ok (set_rows public_user_roles
             [ UserRole.mk "r1" "a" user 1; UserRole.mk "r3" "a" admin 3 ]
             two_identities).
Proof.
  repeat split; try reflexivity.
  - discriminate.
  - simpl. tauto.
Qed.

(** C1 (amended): for a row [R] of any table and an identity [I] that is not
    its owner, the policies let [I] select [R] only if [I] is an admin and
    the table has an admin read policy or is user_roles, and let [I] update
    or delete [R], or insert or write back a row owned like [R], only if [I]
    is an admin and the table is user_roles.  So on profiles, categories,
    tasks, subtasks, reminders, notifications and analytics nobody but the
    owner writes, and the admin read policies give read access only. *)
Theorem foreign_row_access (d : db) (t : table) (R : row t) (I : uuid) :
  I <> owner t R ->
  (passes_using d I t SELECT R = true <->
     has_role d I admin = true
     /\ (grants_admin_read t = true \/ t = public_user_roles))
  /\ (passes_using d I t UPDATE R = true <->
        has_role d I admin = true /\ t = public_user_roles)
  /\ (passes_using d I t DELETE R = true <->
        has_role d I admin = true /\ t = public_user_roles)
  /\ (passes_check d I t INSERT R = true <->
        has_role d I admin = true /\ t = public_user_roles)
  /\ (passes_check d I t UPDATE R = true <->
        has_role d I admin = true /\ t = public_user_roles).
Proof.
  intros Hne.
  rewrite (passes_using_foreign d I t SELECT R Hne),
    (passes_using_foreign d I t UPDATE R Hne),
    (passes_using_foreign d I t DELETE R Hne),
    (passes_check_foreign d I t INSERT R Hne),
    (passes_check_foreign d I t UPDATE R Hne).
  rewrite grants_admin_read_tables.
  destruct (has_role d I admin); destruct t; cbn;
    repeat split; intros; try discriminate; try tauto;
    repeat match goal with
           | H : _ /\ _ |- _ => destruct H
           | H : _ \/ _ |- _ => destruct H
           end; try discriminate; try reflexivity; auto.
Qed.

Lemma foreign_row_access_witness :
  "a" <> owner public_tasks task_of_u
  /\ (passes_using two_identities "a" public_tasks SELECT task_of_u = true <->
        has_role two_identities "a" admin = true
        /\ (grants_admin_read public_tasks = true
            \/ public_tasks = public_user_roles))
  /\ (passes_using two_identities "a" public_tasks UPDATE task_of_u = true <->
        has_role two_identities "a" admin = true
        /\ public_tasks = public_user_roles)
  /\ (passes_using two_identities "a" public_tasks DELETE task_of_u = true <->
        has_role two_identities "a" admin = true
        /\ public_tasks = public_user_roles).
Proof.
  assert (H : "a" <> owner public_tasks task_of_u) by discriminate.
  split; [exact H|].
  destruct (foreign_row_access two_identities public_tasks task_of_u "a" H)
    as [Hs [Hu [Hd _]]].
  split; [exact Hs|]. split; [exact Hu | exact Hd].
Defined.

(** ** The role check *)

(** C3: has_role(u, r) is true exactly when user_roles holds a row with
    user_id = u and role = r.  The rows it looks at are the stored ones, not
    the ones the policies of user_roles show to the caller: an identity that
    is no admin gets no row of another identity [u] from its own SELECT, and
    has_role answers about [u] all the same.  (A call returns a boolean and no
    database: it writes nothing.) *)
Theorem has_role_exact (d : db) (u : uuid) (r : app_role) :
  (has_role d u r = true <->
     exists x, In x (user_roles d)
               /\ UserRole.user_id x = u /\ UserRole.role x = r)
  /\ (forall caller,
        caller <> u -> has_role d caller admin = false ->
        select_as d caller public_user_roles
          (fun x => String.eqb (UserRole.user_id x) u
                    && app_role_eqb (UserRole.role x) r)
        = Ok []).
Proof.
  split; [apply has_role_true|].
  intros caller Hne Hadm. unfold select_as. f_equal.
  apply filter_none. intros x _.
  destruct (String.eqb (UserRole.user_id x) u) eqn:Hu;
    [|now rewrite andb_false_r].
  apply String.eqb_eq in Hu.
  rewrite (passes_using_foreign d caller public_user_roles SELECT x), Hadm;
    [reflexivity | simpl; congruence].
Qed.

Lemma has_role_exact_witness :
  has_role two_identities "a" admin = true
  /\ select_as two_identities "u" public_user_roles
       (fun x => String.eqb (UserRole.user_id x) "a"
                 && app_role_eqb (UserRole.role x) admin)
     = Ok [].
Proof.
  split.
  - apply (proj1 (has_role_exact two_identities "a" admin)).
    exists (UserRole.mk "r3" "a" admin 3). simpl. tauto.
  - apply (proj2 (has_role_exact two_identities "a" admin) "u");
      [discriminate | reflexivity].
Defined.

(** C10: an identity [I] without the admin role passes no policy of
    user_roles for INSERT, UPDATE or DELETE, whatever the row; the one policy
    it can pass is the SELECT of its own rows.  Its INSERT is refused, its
    UPDATE and DELETE find no row, and [promoteToAdmin] is refused, for any
    target identity, [I] included. *)
Theorem non_admin_cannot_write_roles (d : db) (I : uuid) :
  has_role d I admin = false ->
  (forall R : UserRole.row,
     passes_check d I public_user_roles INSERT R = false
     /\ passes_using d I public_user_roles UPDATE R = false
     /\ passes_check d I public_user_roles UPDATE R = false
     /\ passes_using d I public_user_roles DELETE R = false
     /\ (passes_using d I public_user_roles SELECT R = true <->
           UserRole.user_id R = I)
     /\ insert_as I public_user_roles R d = Error insufficient_privilege)
  /\ (forall now wh set,
        after d (update_as I now public_user_roles wh set d) = d)
  /\ (forall now wh, delete_as I now public_user_roles wh d = Ok d)
  /\ (forall u gen now,
        promoteToAdmin I u gen now d = Error insufficient_privilege).
Proof.
  intros Hadm.
  assert (Hchk : forall c R, c <> SELECT ->
            passes_check d I public_user_roles c R = false).
  { intros c R Hc. unfold passes_check. cbn. rewrite Hadm.
    destruct c; try reflexivity. congruence. }
  assert (Huse : forall c R, c <> SELECT ->
            passes_using d I public_user_roles c R = false).
  { intros c R Hc. unfold passes_using. cbn. rewrite Hadm.
    destruct c; try reflexivity. congruence. }
  repeat split.
  - apply Hchk; discriminate.
  - apply Huse; discriminate.
  - apply Hchk; discriminate.
  - apply Huse; discriminate.
  - unfold passes_using. cbn. rewrite Hadm, !orb_false_r.
    intros H. apply String.eqb_eq in H. congruence.
  - intros H. unfold passes_using. cbn. rewrite Hadm, !orb_false_r.
    apply String.eqb_eq. congruence.
  - unfold insert_as. rewrite Hchk; [reflexivity | discriminate].
  - intros now wh set. unfold update_as. cbv zeta.
    assert (Hhit : forall r, targets d I public_user_roles UPDATE wh r = false).
    { intros r. unfold targets. rewrite (Huse UPDATE); [|discriminate].
      apply andb_false_r. }
    rewrite (map_unchanged _ (rows public_user_roles d))
      by (intros x _; cbv beta; rewrite Hhit; reflexivity).
    rewrite set_rows_same.
    destruct (forallb _ _); [|reflexivity].
    destruct (first_conflict _ _); [reflexivity|].
    destruct (COALESCE _); reflexivity.
  - intros now wh. unfold delete_as. cbv zeta.
    assert (Hhit : forall r, targets d I public_user_roles DELETE wh r = false).
    { intros r. unfold targets. rewrite (Huse DELETE); [|discriminate].
      apply andb_false_r. }
    rewrite (filter_all (fun r => negb (targets d I public_user_roles DELETE wh r)))
      by (intros x _; cbv beta; rewrite Hhit; reflexivity).
    rewrite set_rows_same. reflexivity.
  - intros u gen now. unfold promoteToAdmin, upsert_user_role.
    rewrite Hchk; [reflexivity | discriminate].
Qed.

Lemma non_admin_cannot_write_roles_witness :
  has_role two_identities "u" admin = false
  /\ insert_as "u" public_user_roles (UserRole.mk "r4" "u" admin 4) two_identities
     = Error insufficient_privilege
  /\ promoteToAdmin "u" "u" "r4" 4 two_identities = Error insufficient_privilege.
Proof.
  split; [reflexivity|].
  pose proof (non_admin_cannot_write_roles two_identities "u" eq_refl)
    as [HR [_ [_ Hp]]].
  split.
  - apply (HR (UserRole.mk "r4" "u" admin 4)).
  - apply Hp.
Defined.

(** ** Reads of rows the policies exclude *)

Lemma passes_using_ext (d d' : db) (uid : uuid) (t : table) (c : command)
    (r : row t) :
  has_role d' uid admin = has_role d uid admin ->
  passes_using d' uid t c r = passes_using d uid t c r.
Proof.
  intros H. unfold passes_using. destruct t, c; cbn; rewrite ?H; reflexivity.
Qed.

Lemma has_role_without_row (d : db) (t : table) (I : uuid) (R : row t)
    (pre post : list (row t)) :
  has_role d I admin = false ->
  rows t d = pre ++ R :: post ->
  has_role (set_rows t (pre ++ post) d) I admin = has_role d I admin.
Proof.
  intros Hadm Hrows.
  destruct t; try reflexivity.
  rewrite Hadm. unfold has_role in *. cbn in *.
  rewrite Hrows in Hadm. rewrite existsb_app in *. cbn in Hadm.
  apply orb_false_iff in Hadm as [Hpre Hpost].
  apply orb_false_iff in Hpost as [_ Hpost].
  now rewrite Hpre, Hpost.
Qed.

(** C8: a SELECT never fails.  For an identity [I] that is no admin and a
    stored row [R] that the SELECT policies of [I] exclude, every SELECT of
    [I] returns what it would return if [R] were not stored, [R] is not in
    the result, and a SELECT whose condition picks out [R] alone returns no
    row.  In particular a category of [u1] is in the result of [u1]'s SELECT
    of all categories and in no result of a SELECT by another identity [u2]
    that is no admin; a SELECT of [u2] for that category alone is empty. *)
Theorem excluded_row_reads_as_absent :
  (forall (d : db) (t : table) (I : uuid) (R : row t)
          (pre post : list (row t)) (wh : row t -> bool),
     has_role d I admin = false ->
     rows t d = pre ++ R :: post ->
     passes_using d I t SELECT R = false ->
     select_as d I t wh = select_as (set_rows t (pre ++ post) d) I t wh
     /\ (exists l, select_as d I t wh = Ok l /\ ~ In R l)
     /\ ((forall x, In x (rows t d) -> wh x = true -> x = R) ->
         select_as d I t wh = Ok []))
  /\ (forall (d : db) (u1 u2 : uuid) (c : Category.row),
        In c (categories d) ->
        Category.user_id c = u1 ->
        u2 <> u1 ->
        has_role d u2 admin = false ->
        (exists l, select_as d u1 public_categories (fun _ => true) = Ok l
                   /\ In c l)
        /\ (forall wh, exists l,
              select_as d u2 public_categories wh = Ok l /\ ~ In c l)
        /\ select_as d u2 public_categories
             (fun x => String.eqb (Category.id x) (Category.id c)
                       && String.eqb (Category.user_id x) u1)
           = Ok []).
Proof.
  split.
  - intros d t I R pre post wh Hadm Hrows Hhid.
    pose proof (has_role_without_row d t I R pre post Hadm Hrows) as Hrole.
    repeat split.
    + unfold select_as. f_equal. rewrite rows_set_rows, Hrows.
      rewrite !filter_app. cbn. rewrite Hhid. cbn.
      f_equal; apply filter_ext; intros a;
        now rewrite (passes_using_ext d _ I t SELECT a Hrole).
    + eexists. split; [reflexivity|].
      intros Hin. apply filter_In in Hin as [_ Hx].
      rewrite Hhid in Hx. discriminate.
    + intros Honly. unfold select_as. f_equal. apply filter_none.
      intros x Hx. destruct (wh x) eqn:Hw; [|apply andb_false_r].
      rewrite (Honly x Hx Hw), Hhid. reflexivity.
  - intros d u1 u2 c Hin Hown Hne Hadm.
    assert (Hhid : forall x : Category.row, Category.user_id x = u1 ->
              passes_using d u2 public_categories SELECT x = false).
    { intros x Hx.
      rewrite (passes_using_foreign d u2 public_categories SELECT x), Hadm;
        [reflexivity | simpl; congruence]. }
    repeat split.
    + eexists. split; [reflexivity|].
      apply filter_In. split; [exact Hin|].
      unfold passes_using. cbn. rewrite <- Hown, String.eqb_refl. reflexivity.
    + intros wh. eexists. split; [reflexivity|].
      intros Hc. apply filter_In in Hc as [_ Hx].
      rewrite (Hhid c Hown) in Hx. discriminate.
    + unfold select_as. f_equal. apply filter_none. intros x _.
      destruct (String.eqb (Category.user_id x) u1) eqn:Hu;
        [|now rewrite !andb_false_r].
      apply String.eqb_eq in Hu. now rewrite (Hhid x Hu).
Qed.

Lemma excluded_row_reads_as_absent_witness :
  select_as one_category "u1" public_categories (fun _ => true)
    = Ok [work_category]
  /\ select_as one_category "u2" public_categories (fun _ => true)
     = select_as (set_rows public_categories [] one_category) "u2"
         public_categories (fun _ => true)
  /\ select_as one_category "u2" public_categories
       (fun x => String.eqb (Category.id x) "c1"
                 && String.eqb (Category.user_id x) "u1")
     = Ok [].
Proof.
  split; [reflexivity|]. split.
  - exact (proj1 (proj1 excluded_row_reads_as_absent one_category
                     public_categories "u2" work_category [] [] (fun _ => true)
                     eq_refl eq_refl eq_refl)).
  - refine (proj2 (proj2 (proj2 excluded_row_reads_as_absent one_category
                            "u1" "u2" work_category _ eq_refl _ eq_refl))).
    + simpl. auto.
    + discriminate.
Defined.

(** ** Unique days of analytics *)

(** C7: once analytics holds a row for (user_id, date), the insert of
    another row with that pair fails with a unique violation, and the
    database is as before; the violated constraint is the UNIQUE (user_id,
    date) one when the new id is not taken.  The same holds for the INSERT of
    the owner under the policies; the INSERT of anybody else fails as well. *)
Theorem second_analytics_row_refused (d : db) (r0 r : Analytics.row) :
  In r0 (analytics d) ->
  Analytics.user_id r0 = Analytics.user_id r ->
  Analytics.date r0 = Analytics.date r ->
  (exists c, insert_row public_analytics r d = Error (unique_violation c))
  /\ after d (insert_row public_analytics r d) = d
  /\ (has_key Analytics.id (analytics d) (Analytics.id r) = false ->
      insert_row public_analytics r d
      = Error (unique_violation "analytics_user_id_date_key"))
  /\ (exists c, insert_as (Analytics.user_id r) public_analytics r d
                = Error (unique_violation c))
  /\ (forall I, exists e, insert_as I public_analytics r d = Error e).
Proof.
  intros Hin Hu Hd.
  assert (Htaken : unique_key_taken public_analytics r (analytics d)
                   = Some "analytics_user_id_date_key").
  { cbn. replace (existsb _ (analytics d)) with true; [reflexivity|].
    symmetry. apply existsb_exists. exists r0. split; [exact Hin|].
    rewrite Hu, Hd, String.eqb_refl, Z.eqb_refl. reflexivity. }
  assert (Hrow : exists c, insert_row public_analytics r d
                           = Error (unique_violation c)).
  { unfold insert_row, unique_conflict. cbn [rows pkey].
    destruct (has_key _ _ _); [eexists; reflexivity|].
    rewrite Htaken. eexists; reflexivity. }
  repeat split.
  - exact Hrow.
  - destruct Hrow as [c ->]. reflexivity.
  - intros Hfresh. unfold insert_row, unique_conflict. cbn [rows pkey row].
    rewrite Hfresh, Htaken. reflexivity.
  - unfold insert_as, passes_check. cbn.
    rewrite String.eqb_refl. cbn. exact Hrow.
  - intros I. unfold insert_as. destruct (passes_check _ _ _ _ _).
    + destruct Hrow as [c Hc]. eexists. exact Hc.
    + eexists. reflexivity.
Qed.

Lemma second_analytics_row_refused_witness :
  insert_row public_analytics
    (Analytics.mk "a2" "u1" 20500 (Some 3) (Some 2) (Some 0) (Some 0) (Some 0) 6)
    one_day
  = Error (unique_violation "analytics_user_id_date_key").
Proof.
  pose proof
    (second_analytics_row_refused one_day
       (Analytics.mk "a1" "u1" 20500 (Some 1) (Some 0) (Some 0) (Some 0)
          (Some 0) 5)
       (Analytics.mk "a2" "u1" 20500 (Some 3) (Some 2) (Some 0) (Some 0)
          (Some 0) 6)
       (or_introl eq_refl) eq_refl eq_refl) as H.
  destruct H as [_ [_ [Hkey _]]].
  apply Hkey. reflexivity.
Defined.

(** ** Deleting a task *)

Lemma existsb_single_key (f : uuid -> bool) (ks : list uuid) (k : uuid) :
  ks <> [] -> (forall x, In x ks -> x = k) -> existsb f ks = f k.
Proof.
  intros Hne Hall. destruct ks as [|a ks]; [congruence|].
  destruct (f k) eqn:Hk.
  - apply existsb_exists. exists a. split; [now left|].
    now rewrite (Hall a (or_introl eq_refl)).
  - apply not_true_is_false. intros H. apply existsb_exists in H as [x [Hx Hfx]].
    rewrite (Hall x Hx) in Hfx. congruence.
Qed.

(** C6: when a DELETE on tasks works on task [T] (the policies let only its
    owner do that), the statement succeeds and afterwards [T] is gone, no
    subtask and no reminder references [T] and those left were stored before,
    and every notification is still there: one that referenced [T] with
    task_id set to NULL and no other column changed, and none references [T].
    When the statement names the id of [T] alone, as [deleteTask] does, the
    subtasks and reminders left are exactly those that did not reference [T]
    and the notifications not referencing [T] are untouched.  No other table
    changes. *)
Theorem delete_task_cascades (d : db) (uid : uuid) (now : timestamptz)
    (wh : Task.row -> bool) (T : Task.row) :
  In T (tasks d) ->
  targets d uid public_tasks DELETE wh T = true ->
  let nulled := fun n : Notification.row =>
    Notification.mk (Notification.id n) (Notification.user_id n)
      (Notification.title n) (Notification.body n) (Notification.type n)
      (Notification.is_read n) None (Notification.created_at n) in
  exists d',
    delete_as uid now public_tasks wh d = Ok d'
    /\ ~ In T (tasks d')
    /\ (forall x, In x (tasks d') -> In x (tasks d))
    /\ (forall s, In s (subtasks d') ->
          In s (subtasks d) /\ Subtask.task_id s <> Task.id T)
    /\ (forall r, In r (reminders d') ->
          In r (reminders d) /\ Reminder.task_id r <> Task.id T)
    /\ List.length (notifications d') = List.length (notifications d)
    /\ (forall n, In n (notifications d) ->
          Notification.task_id n = Some (Task.id T) ->
          In (nulled n) (notifications d'))
    /\ (forall n', In n' (notifications d') ->
          Notification.task_id n' <> Some (Task.id T)
          /\ exists n, In n (notifications d) /\ (n' = n \/ n' = nulled n))
    /\ ((forall x, In x (tasks d) -> wh x = true -> Task.id x = Task.id T) ->
        subtasks d'
        = filter (fun s => negb (String.eqb (Subtask.task_id s) (Task.id T)))
                 (subtasks d)
        /\ reminders d'
           = filter (fun r => negb (String.eqb (Reminder.task_id r) (Task.id T)))
                    (reminders d)
        /\ notifications d'
           = map (fun n => if null_eqb (Notification.task_id n) (Task.id T)
                           then nulled n else n)
                 (notifications d))
    /\ auth_users d' = auth_users d /\ profiles d' = profiles d
    /\ user_roles d' = user_roles d /\ categories d' = categories d
    /\ analytics d' = analytics d.
Proof.
  intros Hin HhitT nulled.
  unfold delete_as. cbv zeta.
  set (hit := targets d uid public_tasks DELETE wh) in *.
  set (ks := map (pkey public_tasks) (filter hit (rows public_tasks d))).
  assert (Hk : In (Task.id T) ks).
  { unfold ks. apply in_map_iff. exists T. split; [reflexivity|].
    apply filter_In. split; assumption. }
  assert (Href : forall f : uuid -> bool,
            f (Task.id T) = true -> existsb f ks = true).
  { intros f Hf. apply existsb_exists. exists (Task.id T). now split. }
  eexists. split; [reflexivity|].
  cbn [on_delete set_rows rows tasks subtasks reminders notifications
       auth_users profiles user_roles categories analytics].
  split; [|split; [|split; [|split; [|split; [|split; [|split; [|split]]]]]]].
  - intros HT. apply filter_In in HT as [_ HT]. rewrite HhitT in HT. discriminate.
  - intros x Hx. apply filter_In in Hx. tauto.
  - intros s Hs. apply filter_In in Hs as [Hs Hno]. split; [exact Hs|].
    intros Heq. apply negb_true_iff in Hno.
    refine (eq_true_false_abs _ (Href (String.eqb (Subtask.task_id s)) _) Hno).
    now apply String.eqb_eq.
  - intros r Hr. apply filter_In in Hr as [Hr Hno]. split; [exact Hr|].
    intros Heq. apply negb_true_iff in Hno.
    refine (eq_true_false_abs _ (Href (String.eqb (Reminder.task_id r)) _) Hno).
    now apply String.eqb_eq.
  - apply List.length_map.
  - intros n Hn Hn_ref.
    apply in_map_iff. exists n. split; [|exact Hn].
    replace (existsb (null_eqb (Notification.task_id n)) ks) with true;
      [reflexivity|].
    symmetry. apply Href. rewrite Hn_ref. cbn. apply String.eqb_refl.
  - intros n' Hn'. apply in_map_iff in Hn' as [n [Hn' Hn]].
    destruct (existsb (null_eqb (Notification.task_id n)) ks) eqn:Hex.
    + subst n'. split; [discriminate|]. exists n. split; [exact Hn | now right].
    + subst n'. split; [|exists n; split; [exact Hn | now left]].
      intros Heq.
      refine (eq_true_false_abs _ (Href (null_eqb (Notification.task_id n)) _) Hex).
      rewrite Heq. cbn. apply String.eqb_refl.
  - intros Honly.
    assert (Hks : forall x, In x ks -> x = Task.id T).
    { intros x Hx. unfold ks in Hx. apply in_map_iff in Hx as [y [<- Hy]].
      apply filter_In in Hy as [Hy Hhit]. apply (Honly y Hy).
      unfold hit, targets in Hhit.
      apply andb_true_iff in Hhit as [Hhit _].
      now apply andb_true_iff in Hhit as [Hhit _]. }
    assert (Hne : ks <> []) by (intros Hnil; rewrite Hnil in Hk; destruct Hk).
    split; [|split].
    + apply filter_ext. intros s. f_equal.
      apply (existsb_single_key (String.eqb (Subtask.task_id s)) ks (Task.id T)
               Hne Hks).
    + apply filter_ext. intros r. f_equal.
      apply (existsb_single_key (String.eqb (Reminder.task_id r)) ks (Task.id T)
               Hne Hks).
    + apply map_ext. intros n.
      rewrite (existsb_single_key (null_eqb (Notification.task_id n)) ks
                 (Task.id T) Hne Hks).
      reflexivity.
  - repeat split.
Qed.

Lemma delete_task_cascades_witness :
  exists d',
    deleteTask "u1" "t1" 50 with_children = Ok d'
    /\ ~ In task1 (tasks d')
    /\ subtasks d'
       = [ Subtask.mk "s2" "t2" "u1" "Find number" (Some false) (Some 0) 23 23 ]
    /\ reminders d' = []
    /\ notifications d'
       = [ Notification.mk "n1" "u1" "Due soon" None (Some "reminder")
             (Some false) None 25;
           Notification.mk "n2" "u1" "Welcome" None (Some "info") (Some true)
             None 26 ].
Proof.
  destruct (delete_task_cascades with_children "u1" 50
              (fun r => String.eqb (Task.id r) "t1") task1
              (or_introl eq_refl) eq_refl)
    as [d' [H1 [H2 [_ [_ [_ [_ [_ [_ [H3 _]]]]]]]]]].
  exists d'. split; [exact H1|]. split; [exact H2|].
  apply H3. intros x _ Hx. apply String.eqb_eq in Hx. exact Hx.
Defined.

(** ** The timestamp trigger *)

Lemma update_as_ok (uid : uuid) (now : timestamptz) (t : table)
    (wh : row t -> bool) (set : row t -> row t) (d d' : db) :
  update_as uid now t wh set d = Ok d' ->
  d' = set_rows t
         (map (fun r => if targets d uid t UPDATE wh r
                        then updated_row now t set r else r) (rows t d)) d.
Proof.
  unfold update_as. cbv zeta.
  destruct (forallb _ _); [|discriminate].
  destruct (first_conflict _ _); [discriminate|].
  destruct (COALESCE _); [discriminate|].
  intros H. now injection H as <-.
Qed.

(** C4, as stated, fails in its last part: after the insert above, an update
    at time 30 succeeds and leaves updated_at = 30, less than the 1000 that
    was stored. *)
Lemma update_can_lower_updated_at :
  exists d1 d2,
    insert_as "u1" public_tasks task_from_the_future one_category = Ok d1
    /\ update_as "u1" 30 public_tasks
         (fun r => String.eqb (Task.id r) "t3") (fun r => r) d1 = Ok d2
    /\ tasks d1 = [ task_from_the_future ]
    /\ tasks d2 = [ Task.set_updated_at 30 task_from_the_future ]
    /\ Task.updated_at (Task.set_updated_at 30 task_from_the_future)
       < Task.updated_at task_from_the_future.
Proof.
  do 2 eexists. repeat split.
Qed.

(** C4 (amended): on profiles, categories, tasks and subtasks the row an
    UPDATE writes has updated_at = now(), whatever the SET list [set] put
    there, and after a successful UPDATE the table holds exactly such rows in
    place of the rows the statement worked on.  For a task whose updated_at
    is not later than the time of the update, updated_at does not decrease. *)
Theorem update_stamps_updated_at (now : timestamptz) :
  (forall (t : table) (set : row t -> row t) (r : row t),
     has_updated_at_trigger t = true ->
     updated_at t (updated_row now t set r) = Some now)
  /\ (forall (t : table) uid wh set d d',
        update_as uid now t wh set d = Ok d' ->
        rows t d'
        = map (fun r => if targets d uid t UPDATE wh r
                        then updated_row now t set r else r) (rows t d))
  /\ (forall (set : Task.row -> Task.row) (r : Task.row),
        Task.updated_at r <= now ->
        Task.updated_at r <= Task.updated_at (updated_row now public_tasks set r)).
Proof.
  repeat split.
  - intros t set r Ht. destruct t; try discriminate; reflexivity.
  - intros t uid wh set d d' H. apply update_as_ok in H. subst d'.
    apply rows_set_rows.
  - intros set r H. exact H.
Qed.

Lemma update_stamps_updated_at_witness :
  updated_at public_tasks
    (updated_row 30 public_tasks (Task.set_updated_at 5) task1) = Some 30
  /\ rows public_tasks
       (after with_children
          (update_as "u1" 30 public_tasks
             (fun r => String.eqb (Task.id r) "t1") (Task.set_updated_at 5)
             with_children))
     = [ Task.set_updated_at 30 task1; task2 ]
  /\ Task.updated_at task1
     <= Task.updated_at (updated_row 30 public_tasks (Task.set_updated_at 5) task1).
Proof.
  split; [|split].
  - exact (proj1 (update_stamps_updated_at 30) public_tasks
             (Task.set_updated_at 5) task1 eq_refl).
  - exact (proj1 (proj2 (update_stamps_updated_at 30)) public_tasks "u1"
             (fun r => String.eqb (Task.id r) "t1") (Task.set_updated_at 5)
             with_children _ eq_refl).
  - apply (proj2 (proj2 (update_stamps_updated_at 30))). simpl. lia.
Defined.

(** ** The bootstrap trigger *)

Lemma has_key_false {R : Type} (key : R -> uuid) (l : list R) (k : uuid) :
  (forall x, In x l -> key x <> k) -> has_key key l k = false.
Proof.
  intros H. unfold has_key. apply not_true_is_false. intros Hex.
  apply existsb_exists in Hex as [x [Hx Hk]].
  apply String.eqb_eq in Hk. exact (H x Hx Hk).
Qed.

Lemma has_key_app {R : Type} (key : R -> uuid) (l1 l2 : list R) (k : uuid) :
  has_key key (l1 ++ l2) k = has_key key l1 k || has_key key l2 k.
Proof. unfold has_key. apply existsb_app. Qed.

Lemma split_part_local (l rest : string) :
  no_at_sign l -> split_part (String.append l (String "@" rest)) "@" 1 = l.
Proof.
  unfold split_part. simpl.
  induction l as [|a l IH]; intros Hno; simpl.
  - reflexivity.
  - assert (Ha : Ascii.eqb a "@" = false).
    { apply Ascii.eqb_neq. apply Hno. simpl. now left. }
    rewrite Ha.
    assert (Hl : no_at_sign l) by (intros b Hb; apply Hno; simpl; now right).
    specialize (IH Hl).
    destruct (split_on "@" (String.append l (String "@" rest))) as [|f fs]; simpl in *.
    + destruct l; [reflexivity | discriminate IH].
    + now rewrite IH.
Qed.

Lemma filter_none_length {A : Type} (f : A -> bool) (l : list A) :
  (forall x, In x l -> f x = false) -> List.length (filter f l) = 0%nat.
Proof. intros H. now rewrite filter_none. Qed.

(** C2: creating an identity [I] that is not stored yet, in a database
    whose profiles and role rows reference stored identities, with [gen] not
    taken as an id of user_roles, succeeds.  The trigger adds one profile with
    id = I, whose display_name is the first that is not NULL of the members
    display_name and full_name of the metadata and the part of the email
    before the at sign, and one role row (I, user); afterwards these are the
    only profile and the only role row of [I], and the other tables are as
    before. *)
Theorem bootstrap_inserts_profile_and_role (d : db) (NEW : AuthUser.row)
    (now : timestamptz) (gen : uuid) :
  has_key AuthUser.id (auth_users d) (AuthUser.id NEW) = false ->
  refers_to_users d ->
  has_key UserRole.id (user_roles d) gen = false ->
  let meta := AuthUser.raw_user_meta_data NEW in
  let display_name :=
    match json_get_text meta "display_name" with
    | Some v => Some v
    | None =>
        match json_get_text meta "full_name" with
        | Some v => Some v
        | None => option_map (fun e => split_part e "@" 1) (AuthUser.email NEW)
        end
    end in
  exists d',
    create_identity NEW now gen d = Ok d'
    /\ auth_users d' = auth_users d ++ [NEW]
    /\ profiles d'
       = profiles d
         ++ [ Profile.mk (AuthUser.id NEW) display_name
                (json_get_text meta "avatar_url") None now now ]
    /\ user_roles d'
       = user_roles d ++ [ UserRole.mk gen (AuthUser.id NEW) user now ]
    /\ List.length (filter (fun p => String.eqb (Profile.id p) (AuthUser.id NEW))
                      (profiles d')) = 1%nat
    /\ List.length (filter (fun r => String.eqb (UserRole.user_id r) (AuthUser.id NEW))
                      (user_roles d')) = 1%nat
    /\ categories d' = categories d /\ tasks d' = tasks d
    /\ subtasks d' = subtasks d /\ reminders d' = reminders d
    /\ notifications d' = notifications d /\ analytics d' = analytics d
    /\ (forall l rest, AuthUser.email NEW = Some (String.append l (String "@" rest)) ->
          no_at_sign l ->
          option_map (fun e => split_part e "@" 1) (AuthUser.email NEW) = Some l).
Proof.
  intros Hnew [Hprof Hrole] Hgen meta display_name.
  assert (Hp : forall p, In p (profiles d) -> Profile.id p <> AuthUser.id NEW).
  { intros p Hp Heq. apply Hprof in Hp. rewrite Heq in Hp. congruence. }
  assert (Hr : forall r, In r (user_roles d) ->
                 UserRole.user_id r <> AuthUser.id NEW).
  { intros r Hr Heq. apply Hrole in Hr. rewrite Heq in Hr. congruence. }
  assert (Hself : has_key AuthUser.id (auth_users d ++ [NEW]) (AuthUser.id NEW)
                  = true).
  { rewrite has_key_app. cbn. now rewrite String.eqb_refl, orb_true_r. }
  unfold create_identity. rewrite Hnew.
  unfold handle_new_user, insert_row, unique_conflict, references_user,
    set_auth_users.
  cbn [rows pkey row profiles user_roles auth_users set_rows
       unique_key_taken fk_violation Profile.id
       UserRole.id UserRole.user_id UserRole.role].
  rewrite (has_key_false Profile.id (profiles d) (AuthUser.id NEW) Hp).
  unfold references_user. cbn [auth_users]. rewrite Hself. cbn [bind].
  cbn [rows pkey row profiles user_roles auth_users set_rows
       unique_key_taken fk_violation Profile.id
       UserRole.id UserRole.user_id UserRole.role].
  rewrite Hgen.
  replace (existsb _ (user_roles d)) with false.
  2:{ symmetry. apply not_true_is_false. intros Hex.
      apply existsb_exists in Hex as [x [Hx Hk]].
      apply andb_true_iff in Hk as [Hk _]. apply String.eqb_eq in Hk.
      exact (Hr x Hx Hk). }
  unfold references_user. cbn [auth_users]. rewrite Hself.
  eexists. split; [reflexivity|].
  cbn [auth_users profiles user_roles categories tasks subtasks reminders
       notifications analytics].
  repeat split.
  - unfold display_name, meta. cbn [COALESCE].
    destruct (json_get_text _ "display_name"); [reflexivity|].
    destruct (json_get_text _ "full_name"); [reflexivity|].
    destruct (option_map _ _); reflexivity.
  - rewrite filter_app, List.length_app. cbn. rewrite String.eqb_refl. cbn.
    rewrite filter_none_length; [reflexivity|].
    intros x Hx. apply String.eqb_neq. now apply Hp.
  - rewrite filter_app, List.length_app. cbn. rewrite String.eqb_refl. cbn.
    rewrite filter_none_length; [reflexivity|].
    intros x Hx. apply String.eqb_neq. now apply Hr.
  - intros l rest -> Hno. cbn. now rewrite split_part_local.
Qed.

Lemma two_identities_refer_to_users : refers_to_users two_identities.
Proof.
  split; intros x Hx; simpl in Hx;
    repeat (destruct Hx as [<-|Hx]; [reflexivity|]); destruct Hx.
Defined.

Lemma bootstrap_inserts_profile_and_role_witness :
  exists d',
    create_identity nina 40 "r9" two_identities = Ok d'
    /\ auth_users d' = auth_users two_identities ++ [nina]
    /\ profiles d'
       = profiles two_identities
         ++ [ Profile.mk "n" (Some "Nina R") None None 40 40 ]
    /\ user_roles d'
       = user_roles two_identities ++ [ UserRole.mk "r9" "n" user 40 ].
Proof.
  destruct (bootstrap_inserts_profile_and_role two_identities nina 40 "r9"
              eq_refl two_identities_refer_to_users eq_refl)
    as [d' [H1 [H2 [H3 [H4 _]]]]].
  exists d'. repeat split; assumption.
Defined.

(** ** completed_at and status *)

Lemma insert_as_ok (uid : uuid) (t : table) (r : row t) (d d' : db) :
  insert_as uid t r d = Ok d' -> d' = set_rows t (rows t d ++ [r]) d.
Proof.
  unfold insert_as, insert_row.
  destruct (passes_check _ _ _ _ _); [|discriminate].
  destruct (unique_conflict _ _ _); [discriminate|].
  destruct (fk_violation _ _ _); [discriminate|].
  intros H. now injection H as <-.
Qed.

Lemma update_tasks_rows (uid : uuid) (now : timestamptz)
    (wh : Task.row -> bool) (set : Task.row -> Task.row) (d : db) (x : Task.row) :
  In x (tasks (after d (update_as uid now public_tasks wh set d))) ->
  In x (tasks d)
  \/ exists r, In r (tasks d) /\ x = Task.set_updated_at now (set r).
Proof.
  destruct (update_as uid now public_tasks wh set d) as [d'|e] eqn:H;
    cbn [after]; [|tauto].
  apply update_as_ok in H. subst d'. cbn [set_rows tasks rows].
  intros Hx. apply in_map_iff in Hx as [r [Hr Hin]].
  destruct (targets _ _ _ _ _ r).
  - right. exists r. split; [exact Hin | now rewrite <- Hr].
  - left. now subst x.
Qed.

(** C5: after a task write of the client ([saveTask], [toggleStar],
    [toggleStatus]), whether it succeeded or was refused, every stored task
    either has the status and the completed_at of a task stored before, or
    was written with a status by this write: with status completed and
    completed_at the client time of the write, or with another status and
    completed_at NULL.  Hence, if completed_at was set exactly on the
    completed tasks before the write, it is so after it. *)
Theorem task_writes_keep_completed_at (trim : string -> string)
    (timestamptz_in : string -> option timestamptz)
    (w : task_write) (now : timestamptz) (d : db) :
  let d' := after d (run_task_write trim timestamptz_in w now d) in
  (forall x, In x (tasks d') ->
     (exists x0, In x0 (tasks d)
                 /\ Task.status x = Task.status x0
                 /\ Task.completed_at x = Task.completed_at x0)
     \/ (exists c, write_time w = Some c
                   /\ ((Task.status x = completed /\ Task.completed_at x = Some c)
                       \/ (Task.status x <> completed
                           /\ Task.completed_at x = None))))
  /\ (tasks_consistent d -> tasks_consistent d').
Proof.
  intros d'.
  assert (Hrows : forall x, In x (tasks d') ->
     (exists x0, In x0 (tasks d)
                 /\ Task.status x = Task.status x0
                 /\ Task.completed_at x = Task.completed_at x0)
     \/ (exists c, write_time w = Some c
                   /\ ((Task.status x = completed /\ Task.completed_at x = Some c)
                       \/ (Task.status x <> completed
                           /\ Task.completed_at x = None)))).
  { assert (Hold : forall x, In x (tasks d) ->
              exists x0, In x0 (tasks d)
                         /\ Task.status x = Task.status x0
                         /\ Task.completed_at x = Task.completed_at x0)
      by (intros x Hx; exists x; auto).
    subst d'. destruct w as [u e f c g | u k | u k c]; cbn [run_task_write].
    - (* saveTask *)
      unfold saveTask.
      destruct u as [uid|]; [|cbn [after]; intros x Hx; left; auto].
      destruct (negb (non_empty (trim (Form.title f))));
        [cbn [after]; intros x Hx; left; auto|].
      destruct (due_date_in timestamptz_in (payload_of trim f c)) as [due|err];
        cbn [bind]; [|cbn [after]; intros x Hx; left; auto].
      assert (Hnew : forall st : task_status,
                st = Form.status f ->
                (st = completed
                 /\ (if task_status_eqb st completed then Some c else None)
                    = Some c)
                \/ (st <> completed
                    /\ (if task_status_eqb st completed then Some c else None)
                       = None)).
      { intros st _. destruct st; cbn; [right|right|left|right];
          split; congruence. }
      destruct e as [et|].
      + intros x Hx. apply update_tasks_rows in Hx as [Hx | [r [Hr ->]]];
          [left; auto|].
        right. exists c. split; [reflexivity|]. cbn. now apply Hnew.
      + destruct (insert_as uid public_tasks _ d) as [d'|err] eqn:H;
          cbn [after]; [|intros x Hx; left; auto].
        apply insert_as_ok in H. subst d'. cbn [set_rows tasks rows].
        intros x Hx. apply in_app_or in Hx as [Hx | [<- | []]]; [left; auto|].
        right. exists c. split; [reflexivity|]. cbn. now apply Hnew.
    - (* toggleStar *)
      unfold toggleStar. intros x Hx.
      apply update_tasks_rows in Hx as [Hx | [r [Hr ->]]]; [left; auto|].
      left. exists r. cbn. auto.
    - (* toggleStatus *)
      unfold toggleStatus. intros x Hx.
      apply update_tasks_rows in Hx as [Hx | [r [Hr ->]]]; [left; auto|].
      right. exists c. split; [reflexivity|]. cbn.
      destruct (task_status_eqb (Task.status k) completed); cbn;
        [right | left]; split; congruence. }
  split; [exact Hrows|].
  intros Hcons x Hx. unfold completed_at_consistent.
  destruct (Hrows x Hx) as [[x0 [Hx0 [Hs Hc]]] | [c [_ [[Hs Hc] | [Hs Hc]]]]].
  - rewrite Hs, Hc. now apply Hcons.
  - rewrite Hs, Hc. split; congruence.
  - rewrite Hc. split; congruence.
Qed.

Lemma with_children_consistent : tasks_consistent with_children.
Proof.
  intros x Hx. simpl in Hx.
  destruct Hx as [<-|[<-|[]]]; split; simpl; congruence.
Defined.

Lemma task_writes_keep_completed_at_witness :
  tasks (after with_children
           (toggleStatus "u1" task1 60 61 with_children))
  = [ Task.mk "t1" "u1" (Some "c1") "Write report" None completed medium
        None (Some 60) (Some []) (Some false) (Some 0) 20 61;
      task2 ]
  /\ tasks_consistent
       (after with_children (toggleStatus "u1" task1 60 61 with_children)).
Proof.
  split; [reflexivity|].
  exact (proj2 (task_writes_keep_completed_at (fun s => s) (fun _ => None)
                  (ToggleStatus "u1" task1 60) 61 with_children)
               with_children_consistent).
Defined.

(** ** Promotion to admin *)

Lemma has_role_app (d : db) (l : list UserRole.row) (v : uuid) (r : app_role) :
  has_role (set_rows public_user_roles (user_roles d ++ l) d) v r
  = has_role d v r
    || existsb (fun x => String.eqb (UserRole.user_id x) v
                         && app_role_eqb (UserRole.role x) r) l.
Proof. unfold has_role. cbn. apply existsb_app. Qed.

Lemma insert_row_ok (t : table) (r : row t) (d d' : db) :
  insert_row t r d = Ok d' -> d' = set_rows t (rows t d ++ [r]) d.
Proof.
  unfold insert_row.
  destruct (unique_conflict _ _ _); [discriminate|].
  destruct (fk_violation _ _ _); [discriminate|].
  intros H. now injection H as <-.
Qed.

(** C9, as stated, fails for identities it quantifies over.  Promoting [a],
    who holds admin already, is refused by UNIQUE (user_id, role) and inserts
    no row.  Promoting [u] as [u], who holds no admin, is refused by the
    policies.  And once the admin [a] has deleted the row (u, user),
    promoting [u] succeeds but leaves [u] with admin alone:
    has_role(u, user) is false afterwards. *)
Lemma promotion_refused_or_single_role :
  promoteToAdmin "a" "a" "r4" 70 two_identities
  = Error (unique_violation "user_roles_user_id_role_key")
  /\ promoteToAdmin "u" "u" "r4" 70 two_identities
     = Error insufficient_privilege
  /\ exists d1 d2,
       delete_as "a" 50 public_user_roles
         (fun r => String.eqb (UserRole.id r) "r2") two_identities = Ok d1
       /\ promoteToAdmin "a" "u" "r4" 70 d1 = Ok d2
       /\ user_roles d2
          = [ UserRole.mk "r1" "a" user 1;
              UserRole.mk "r3" "a" admin 3;
              UserRole.mk "r4" "u" admin 70 ]
       /\ has_role d2 "u" admin = true
       /\ has_role d2 "u" user = false.
Proof.
  split; [reflexivity|]. split; [reflexivity|].
  do 2 eexists. repeat split.
Qed.

(** C9 (amended): with a generated id that is not taken, [promoteToAdmin]
    leaves every stored role row in place, whoever calls it and whether it
    succeeds or is refused, so every role an identity had it still has.  When
    the caller is an admin and [u] is a stored identity that is no admin yet,
    it succeeds and the role rows afterwards are the old ones, unchanged and
    in the old order, followed by the new row (u, admin); no other table
    changes; has_role(u, admin) holds, and has_role(u, user) holds if it held
    before.  In every other case it is refused and nothing is inserted: with
    insufficient privilege when the caller is no admin, with a violation of
    UNIQUE (user_id, role) when [u] holds admin already, with a violation of
    the foreign key to auth.users when [u] is not a stored identity. *)
Theorem promotion_is_additive (d : db) (caller u gen : uuid)
    (now : timestamptz) :
  has_key UserRole.id (user_roles d) gen = false ->
  (forall x, In x (user_roles d) ->
     In x (user_roles (after d (promoteToAdmin caller u gen now d))))
  /\ (forall v r, has_role d v r = true ->
        has_role (after d (promoteToAdmin caller u gen now d)) v r = true)
  /\ (has_role d caller admin = true ->
      has_role d u admin = false ->
      has_key AuthUser.id (auth_users d) u = true ->
      exists d',
        promoteToAdmin caller u gen now d = Ok d'
        /\ d' = set_rows public_user_roles
                  (user_roles d ++ [ UserRole.mk gen u admin now ]) d
        /\ user_roles d' = user_roles d ++ [ UserRole.mk gen u admin now ]
        /\ has_role d' u admin = true
        /\ (has_role d u user = true ->
            has_role d' u user = true /\ has_role d' u admin = true))
  /\ (has_role d caller admin = false ->
      promoteToAdmin caller u gen now d = Error insufficient_privilege)
  /\ (has_role d caller admin = true ->
      has_role d u admin = true ->
      promoteToAdmin caller u gen now d
      = Error (unique_violation "user_roles_user_id_role_key"))
  /\ (has_role d caller admin = true ->
      has_role d u admin = false ->
      has_key AuthUser.id (auth_users d) u = false ->
      promoteToAdmin caller u gen now d
      = Error (foreign_key_violation "user_roles_user_id_fkey")).
Proof.
  intros Hgen.
  assert (Hkeep : forall v r, has_role d v r = true ->
            has_role (set_rows public_user_roles
                        (user_roles d ++ [ UserRole.mk gen u admin now ]) d) v r
            = true)
    by (intros v r H; now rewrite has_role_app, H).
  assert (Hcases : after d (promoteToAdmin caller u gen now d) = d
                   \/ after d (promoteToAdmin caller u gen now d)
                      = set_rows public_user_roles
                          (user_roles d ++ [ UserRole.mk gen u admin now ]) d).
  { unfold promoteToAdmin, upsert_user_role.
    destruct (passes_check _ _ _ _ _); [|now left].
    cbn [UserRole.id]. rewrite Hgen.
    destruct (insert_row public_user_roles _ d) as [d'|e] eqn:H; [|now left].
    right. apply insert_row_ok in H. exact H. }
  assert (Hadmin : has_role d caller admin = true ->
            promoteToAdmin caller u gen now d
            = insert_row public_user_roles (UserRole.mk gen u admin now) d).
  { intros Hadm. unfold promoteToAdmin, upsert_user_role.
    replace (passes_check d caller public_user_roles INSERT
               (UserRole.mk gen u admin now)) with true
      by (unfold passes_check; cbn; now rewrite Hadm).
    cbn [UserRole.id]. now rewrite Hgen. }
  split; [|split; [|split; [|split; [|split]]]].
  - intros x Hx. destruct Hcases as [-> | ->]; [exact Hx|].
    cbn. apply in_or_app. now left.
  - intros v r H. destruct Hcases as [-> | ->]; [exact H | now apply Hkeep].
  - intros Hadm Hnot Hid.
    assert (Hrun : promoteToAdmin caller u gen now d
                   = Ok (set_rows public_user_roles
                           (user_roles d ++ [ UserRole.mk gen u admin now ]) d)).
    { unfold promoteToAdmin, upsert_user_role.
      replace (passes_check d caller public_user_roles INSERT
                 (UserRole.mk gen u admin now)) with true
        by (unfold passes_check; cbn; now rewrite Hadm).
      cbn [UserRole.id]. rewrite Hgen.
      unfold insert_row, unique_conflict.
      cbn [rows pkey row unique_key_taken fk_violation
           UserRole.id UserRole.user_id UserRole.role].
      rewrite Hgen. unfold has_role in Hnot. rewrite Hnot.
      unfold references_user. rewrite Hid. reflexivity. }
    assert (Hnow : has_role (set_rows public_user_roles
                     (user_roles d ++ [ UserRole.mk gen u admin now ]) d) u admin
                   = true).
    { rewrite has_role_app. cbn. rewrite String.eqb_refl. cbn. apply orb_true_r. }
    eexists. split; [exact Hrun|].
    split; [reflexivity|]. split; [reflexivity|]. split; [exact Hnow|].
    intros Hu. split; [now apply Hkeep | exact Hnow].
  - intros Hno. unfold promoteToAdmin, upsert_user_role.
    replace (passes_check d caller public_user_roles INSERT
               (UserRole.mk gen u admin now)) with false; [reflexivity|].
    unfold passes_check. cbn. now rewrite Hno.
  - intros Hadm Hu. rewrite (Hadmin Hadm).
    unfold insert_row, unique_conflict.
    cbn [rows pkey row unique_key_taken UserRole.id UserRole.user_id
         UserRole.role].
    rewrite Hgen. unfold has_role in Hu. now rewrite Hu.
  - intros Hadm Hnot Hid. rewrite (Hadmin Hadm).
    unfold insert_row, unique_conflict.
    cbn [rows pkey row unique_key_taken fk_violation
         UserRole.id UserRole.user_id UserRole.role].
    rewrite Hgen. unfold has_role in Hnot. rewrite Hnot.
    unfold references_user. now rewrite Hid.
Qed.

Lemma promotion_is_additive_witness :
  exists d',
    promoteToAdmin "a" "u" "r4" 70 two_identities = Ok d'
    /\ user_roles d'
       = [ UserRole.mk "r1" "a" user 1;
           UserRole.mk "r2" "u" user 2;
           UserRole.mk "r3" "a" admin 3;
           UserRole.mk "r4" "u" admin 70 ]
    /\ has_role d' "u" user = true
    /\ has_role d' "u" admin = true.
Proof.
  destruct (proj1 (proj2 (proj2 (promotion_is_additive two_identities
                                   "a" "u" "r4" 70 eq_refl)))
              eq_refl eq_refl eq_refl)
    as [d' [H1 [_ [H2 [_ H3]]]]].
  exists d'. split; [exact H1|]. split; [exact H2|]. exact (H3 eq_refl).
Defined.

(** * Further properties of the schema and the client *)

(** ** No admin without an admin *)

Lemma user_roles_set_rows (t : table) (l : list (row t)) (d : db) :
  t <> public_user_roles -> user_roles (set_rows t l d) = user_roles d.
Proof. destruct t; intros H; try reflexivity. congruence. Qed.

Lemma user_roles_on_delete (now : timestamptz) (t : table) (ks : list uuid)
    (d : db) :
  user_roles (on_delete now t ks d) = user_roles d.
Proof. destruct t; reflexivity. Qed.

Lemma rows_on_delete (now : timestamptz) (t : table) (ks : list uuid) (d : db) :
  rows t (on_delete now t ks d) = rows t d.
Proof. destruct t; reflexivity. Qed.

Lemma on_delete_nil (now : timestamptz) (t : table) (d : db) :
  on_delete now t [] d = d.
Proof.
  destruct t; try reflexivity; cbn;
    rewrite ?filter_all by reflexivity;
    rewrite ?map_unchanged by reflexivity; now destruct d.
Qed.

Lemma no_admin_has_role (d : db) :
  no_admin d <-> forall u, has_role d u admin = false.
Proof.
  split.
  - intros H u. apply not_true_is_false. intros Hr.
    apply has_role_true in Hr as [x [Hx [_ Hrole]]]. exact (H x Hx Hrole).
  - intros H r Hr Hrole.
    assert (Ht : has_role d (UserRole.user_id r) admin = true)
      by (apply has_role_true; exists r; auto).
    rewrite H in Ht. discriminate.
Qed.

Lemma create_identity_roles (NEW : AuthUser.row) (now : timestamptz)
    (gen : uuid) (d d' : db) :
  create_identity NEW now gen d = Ok d' ->
  user_roles d' = user_roles d ++ [ UserRole.mk gen (AuthUser.id NEW) user now ].
Proof.
  unfold create_identity, handle_new_user.
  destruct (has_key _ _ _); [discriminate|].
  destruct (insert_row public_profiles _ _) as [d1|e] eqn:H1; [|discriminate].
  cbn [bind]. intros H2.
  apply insert_row_ok in H1. apply insert_row_ok in H2. subst d' d1.
  reflexivity.
Qed.

Lemma unwritable_roles_update (d : db) (uid : uuid) (now : timestamptz)
    (wh : UserRole.row -> bool) (set : UserRole.row -> UserRole.row) :
  has_role d uid admin = false ->
  after d (update_as uid now public_user_roles wh set d) = d.
Proof.
  intros Hadm. unfold update_as. cbv zeta.
  assert (Hhit : forall r, targets d uid public_user_roles UPDATE wh r = false).
  { intros r. unfold targets, passes_using. cbn. rewrite Hadm.
    now rewrite !orb_false_r, andb_false_r. }
  rewrite (map_unchanged _ (rows public_user_roles d))
    by (intros x _; cbv beta; rewrite Hhit; reflexivity).
  rewrite set_rows_same.
  destruct (forallb _ _); [|reflexivity].
  destruct (first_conflict _ _); [reflexivity|].
  destruct (COALESCE _); reflexivity.
Qed.

Lemma unwritable_roles_delete (d : db) (uid : uuid) (now : timestamptz)
    (wh : UserRole.row -> bool) :
  has_role d uid admin = false ->
  delete_as uid now public_user_roles wh d = Ok d.
Proof.
  intros Hadm. unfold delete_as. cbv zeta.
  assert (Hhit : forall r, targets d uid public_user_roles DELETE wh r = false).
  { intros r. unfold targets, passes_using. cbn. rewrite Hadm.
    now rewrite !orb_false_r, andb_false_r. }
  rewrite (filter_all (fun r => negb (targets d uid public_user_roles DELETE wh r)))
    by (intros x _; cbv beta; rewrite Hhit; reflexivity).
  rewrite set_rows_same. reflexivity.
Qed.

Lemma no_admin_step (s : statement) (d : db) :
  no_admin d -> no_admin (after d (run s d)).
Proof.
  intros Hno.
  pose proof (proj1 (no_admin_has_role d) Hno) as Hrole.
  destruct s as [uid t r | uid now t wh set | uid now t wh | uid ex | NEW now gen];
    cbn [run].
  - destruct (insert_as uid t r d) as [d'|e] eqn:H; cbn [after]; [|exact Hno].
    destruct t;
      try (apply insert_as_ok in H; subst d'; exact Hno).
    unfold insert_as, passes_check in H. cbn in H. rewrite Hrole in H.
    discriminate.
  - destruct t;
      try (destruct (update_as uid now _ wh set d) as [d'|e] eqn:H;
           cbn [after]; [|exact Hno];
           apply update_as_ok in H; subst d'; exact Hno).
    now rewrite unwritable_roles_update by apply Hrole.
  - destruct t; try exact Hno.
    now rewrite unwritable_roles_delete by apply Hrole.
  - unfold upsert_user_role, passes_check. cbn. rewrite Hrole. exact Hno.
  - destruct (create_identity NEW now gen d) as [d'|e] eqn:H; cbn [after];
      [|exact Hno].
    apply create_identity_roles in H. intros r Hr. rewrite H in Hr.
    apply in_app_or in Hr as [Hr | [<- | []]]; [now apply Hno | discriminate].
Qed.

(** X1: in a database where no role row grants admin, no sequence of
    statements produces one, whoever sends them: inserts, updates, deletes
    and upserts under the policies, on any table, and creations of
    identities.  So has_role(u, admin) stays false for every identity. *)
Theorem no_admin_is_stable (ss : list statement) (d : db) :
  no_admin d ->
  no_admin (run_all ss d)
  /\ (forall u, has_role (run_all ss d) u admin = false).
Proof.
  intros Hno.
  assert (H : no_admin (run_all ss d)).
  { revert d Hno. induction ss as [|s ss IH]; intros d Hno; cbn; [exact Hno|].
    apply IH. now apply no_admin_step. }
  split; [exact H | now apply no_admin_has_role].
Qed.

Lemma one_category_no_admin : no_admin one_category.
Proof.
  intros r Hr. simpl in Hr.
  destruct Hr as [<-|[<-|[]]]; discriminate.
Defined.

Lemma no_admin_is_stable_witness :
  has_role
    (run_all
       [ UpsertUserRole "u1" (UserRole.mk "r8" "u1" admin 5);
         InsertAs "u2" public_user_roles (UserRole.mk "r9" "u2" admin 6);
         UpdateAs "u1" 7 public_user_roles (fun _ => true)
           (fun r => UserRole.mk (UserRole.id r) (UserRole.user_id r) admin
                       (UserRole.created_at r));
         CreateIdentity nina 8 "r7" ]
       one_category)
    "u1" admin
  = false.
Proof.
  apply (proj2 (no_admin_is_stable
                  [ UpsertUserRole "u1" (UserRole.mk "r8" "u1" admin 5);
                    InsertAs "u2" public_user_roles
                      (UserRole.mk "r9" "u2" admin 6);
                    UpdateAs "u1" 7 public_user_roles (fun _ => true)
                      (fun r => UserRole.mk (UserRole.id r) (UserRole.user_id r)
                                  admin (UserRole.created_at r));
                    CreateIdentity nina 8 "r7" ]
                  one_category one_category_no_admin)).
Defined.

(** ** Writes reach the rows of the sender only *)

Lemma foreign_row_not_targeted (d : db) (uid : uuid) (t : table) (c : command)
    (wh : row t -> bool) (r : row t) :
  c <> SELECT ->
  (t = public_user_roles -> has_role d uid admin = false) ->
  owner t r <> uid ->
  targets d uid t c wh r = false.
Proof.
  intros Hc Hadm Hne. unfold targets.
  rewrite (passes_using_foreign d uid t c r) by congruence.
  destruct (has_role d uid admin) eqn:Hr; cbn; [|apply andb_false_r].
  destruct t, c; cbn; try apply andb_false_r; try congruence.
  all: specialize (Hadm eq_refl); discriminate.
Qed.

(** X2: on every table an UPDATE or a DELETE of an identity leaves the rows
    of that table that it does not own as they are: after an UPDATE each of
    them is at its old position, after a DELETE each of them is still stored
    (on user_roles this needs that the identity is no admin).  The role
    admin makes no difference on the other tables. *)
Theorem foreign_rows_stay (d : db) (uid : uuid) (now : timestamptz) (t : table) :
  (t = public_user_roles -> has_role d uid admin = false) ->
  (forall wh set i r,
     nth_error (rows t d) i = Some r -> owner t r <> uid ->
     nth_error (rows t (after d (update_as uid now t wh set d))) i = Some r)
  /\ (forall wh r,
        In r (rows t d) -> owner t r <> uid ->
        In r (rows t (after d (delete_as uid now t wh d)))).
Proof.
  intros Hadm. split.
  - intros wh set i r Hi Hne.
    destruct (update_as uid now t wh set d) as [d'|e] eqn:H; cbn [after];
      [|exact Hi].
    apply update_as_ok in H. subst d'. rewrite rows_set_rows.
    rewrite nth_error_map, Hi. cbn.
    rewrite foreign_row_not_targeted; [reflexivity | discriminate | | ]; assumption.
  - intros wh r Hin Hne. unfold delete_as. cbv zeta. cbn [after].
    rewrite rows_on_delete, rows_set_rows.
    apply filter_In. split; [exact Hin|].
    rewrite foreign_row_not_targeted; [reflexivity | discriminate | | ]; assumption.
Qed.

Lemma foreign_rows_stay_witness :
  has_role with_task_of_u "a" admin = true
  /\ nth_error
       (rows public_tasks
          (after with_task_of_u
             (update_as "a" 9 public_tasks (fun _ => true)
                (set_status cancelled None) with_task_of_u))) 0
     = Some task_of_u
  /\ In task_of_u
       (rows public_tasks
          (after with_task_of_u
             (delete_as "a" 9 public_tasks (fun _ => true) with_task_of_u))).
Proof.
  split; [reflexivity|].
  assert (Hadm : public_tasks = public_user_roles ->
                 has_role with_task_of_u "a" admin = false) by discriminate.
  assert (Hne : owner public_tasks task_of_u <> "a") by discriminate.
  destruct (foreign_rows_stay with_task_of_u "a" 9 public_tasks Hadm)
    as [Hupd Hdel].
  split.
  - exact (Hupd (fun _ => true) (set_status cancelled None) 0%nat task_of_u
             eq_refl Hne).
  - apply (Hdel (fun _ => true) task_of_u); [simpl; auto | exact Hne].
Defined.

(** ** The delete button of the admin panel *)

(** X3: [deleteTask] for an id whose tasks all belong to other identities
    changes nothing and reports no error, also when the caller is an admin,
    who can read those tasks: the admin policy on tasks is for SELECT only.
    ([AdminView] then drops the task from its list and says "Task
    deleted".) *)
Theorem deleteTask_of_others_is_noop (d : db) (uid id : uuid)
    (now : timestamptz) :
  (forall x, In x (tasks d) -> Task.id x = id -> Task.user_id x <> uid) ->
  deleteTask uid id now d = Ok d.
Proof.
  intros Hothers. unfold deleteTask, delete_as. cbv zeta.
  assert (Hhit : forall x, In x (rows public_tasks d) ->
            targets d uid public_tasks DELETE
              (fun r => String.eqb (Task.id r) id) x = false).
  { intros x Hx. unfold targets.
    destruct (String.eqb (Task.id x) id) eqn:Hid; [|reflexivity].
    apply String.eqb_eq in Hid. cbn [andb].
    replace (passes_using d uid public_tasks DELETE x) with false;
      [apply andb_false_r|].
    unfold passes_using. cbn. rewrite orb_false_r. symmetry.
    apply String.eqb_neq. intros Heq. exact (Hothers x Hx Hid (eq_sym Heq)). }
  rewrite (filter_none _ (rows public_tasks d)) by exact Hhit.
  rewrite (filter_all _ (rows public_tasks d))
    by (intros x Hx; cbv beta; now rewrite Hhit).
  cbn [map]. rewrite on_delete_nil, set_rows_same. reflexivity.
Qed.

Lemma deleteTask_of_others_is_noop_witness :
  select_as with_task_of_u "a" public_tasks (fun _ => true) = Ok [ task_of_u ]
  /\ deleteTask "a" "t9" 9 with_task_of_u = Ok with_task_of_u.
Proof.
  split; [reflexivity|].
  apply deleteTask_of_others_is_noop.
  intros x Hx _. simpl in Hx. destruct Hx as [<-|[]]. discriminate.
Defined.

(** ** The admin panel *)

Lemma unique_pkey (t : table) (l : list (row t)) (k : uuid) :
  first_conflict t l = None ->
  (List.length (filter (fun x => String.eqb (pkey t x) k) l) <= 1)%nat.
Proof.
  induction l as [|r l IH]; cbn [first_conflict filter]; intros H; [cbn; lia|].
  destruct (unique_conflict t r l) eqn:Hu; [discriminate|].
  specialize (IH H).
  destruct (String.eqb (pkey t r) k) eqn:Hk; [|exact IH].
  apply String.eqb_eq in Hk. subst k.
  unfold unique_conflict in Hu.
  destruct (has_key (pkey t) l (pkey t r)) eqn:Hkey; [discriminate|].
  rewrite filter_none; [cbn; lia|].
  intros x Hx. apply not_true_is_false. intros Hx'.
  unfold has_key in Hkey.
  assert (existsb (fun y => String.eqb (pkey t y) (pkey t r)) l = true)
    by (apply existsb_exists; exists x; auto).
  congruence.
Qed.

Lemma select_own_profiles (d : db) (uid : uuid) :
  data_or_empty (select_as d uid public_profiles (fun _ => true))
  = filter (fun p => String.eqb (Profile.id p) uid) (profiles d).
Proof.
  unfold select_as, data_or_empty. cbn [rows]. apply filter_ext. intros p.
  unfold passes_using. cbn. rewrite orb_false_r, andb_true_r.
  apply String.eqb_sym.
Qed.

(** X4: whoever opens the admin panel, an admin included, the list of
    users [fetchData] builds holds the profile of the signed-in identity
    and no other (the one SELECT policy of profiles is the owner's): its
    length is the number of stored profiles with that id, at most one when
    the primary key holds.  So the Promote button, which is rendered for
    listed users other than the signed-in one, is rendered for nobody. *)
Theorem admin_panel_lists_caller_only
    (order_profiles : list Profile.row -> list Profile.row)
    (arrival_roles : list UserRole.row -> list UserRole.row)
    (order_tasks : list Task.row -> list Task.row)
    (uid : uuid) (d : db) :
  (forall l, Permutation (order_profiles l) l) ->
  let users := fst (fetchData order_profiles arrival_roles order_tasks uid d) in
  (forall u, In u users ->
     Profile.id (UserWithRole.profile u) = uid
     /\ In (UserWithRole.profile u) (profiles d)
     /\ promote_button_shown uid u = false)
  /\ totalUsers users
     = List.length (filter (fun p => String.eqb (Profile.id p) uid) (profiles d))
  /\ (first_conflict public_profiles (profiles d) = None ->
      (totalUsers users <= 1)%nat).
Proof.
  intros Hperm users.
  assert (Hlen : totalUsers users
                 = List.length (filter (fun p => String.eqb (Profile.id p) uid)
                                       (profiles d))).
  { unfold totalUsers, users, fetchData. cbn [fst].
    rewrite List.length_map, select_own_profiles.
    apply Permutation_length, Hperm. }
  split; [|split].
  - intros u Hu. unfold users, fetchData in Hu. cbn [fst] in Hu.
    apply in_map_iff in Hu as [p [<- Hp]].
    apply (Permutation_in _ (Hperm _)) in Hp.
    rewrite select_own_profiles in Hp. apply filter_In in Hp as [Hp Hid].
    cbn [UserWithRole.profile]. repeat split.
    + now apply String.eqb_eq.
    + exact Hp.
    + unfold promote_button_shown. cbn [UserWithRole.profile].
      rewrite Hid. apply andb_false_r.
  - exact Hlen.
  - intros Hpk. rewrite Hlen.
    apply (unique_pkey public_profiles (profiles d) uid Hpk).
Qed.

Lemma admin_panel_lists_caller_only_witness :
  fst (fetchData (fun l => l) (fun l => l) (fun l => l) "a" with_task_of_u)
  = [ UserWithRole.mk (Profile.mk "a" (Some "a") None None 1 1) admin 0 ]
  /\ (totalUsers
        (fst (fetchData (fun l => l) (fun l => l) (fun l => l) "a"
                with_task_of_u)) <= 1)%nat.
Proof.
  split; [reflexivity|].
  apply (proj2 (proj2 (admin_panel_lists_caller_only
                         (fun l => l) (fun l => l) (fun l => l) "a"
                         with_task_of_u (fun l => Permutation_refl l)))).
  reflexivity.
Defined.

Lemma roleMap_get_some (roles : list UserRole.row) (acc : js_object app_role)
    (k : uuid) (v : app_role) :
  obj_get k (fold_left (fun m r => obj_set (UserRole.user_id r) (UserRole.role r) m)
                       roles acc) = Some v ->
  (exists r, In r roles /\ UserRole.user_id r = k /\ UserRole.role r = v)
  \/ obj_get k acc = Some v.
Proof.
  revert acc. induction roles as [|r roles IH]; intros acc H; cbn in H;
    [now right|].
  apply IH in H as [[x [Hx Hkv]] | H].
  - left. exists x. split; [now right | exact Hkv].
  - cbn in H. destruct (String.eqb (UserRole.user_id r) k) eqn:Hk.
    + left. exists r. apply String.eqb_eq in Hk. injection H as <-.
      repeat split; auto. now left.
    + now right.
Qed.

Lemma roleMap_keeps_keys (roles : list UserRole.row) (acc : js_object app_role)
    (k : uuid) :
  obj_get k acc <> None ->
  obj_get k (fold_left (fun m r => obj_set (UserRole.user_id r) (UserRole.role r) m)
                       roles acc) <> None.
Proof.
  revert acc. induction roles as [|r roles IH]; intros acc H; cbn; [exact H|].
  apply IH. cbn. destruct (String.eqb (UserRole.user_id r) k);
    [discriminate | exact H].
Qed.

Lemma roleMap_get_none (roles : list UserRole.row) (acc : js_object app_role)
    (k : uuid) :
  obj_get k (fold_left (fun m r => obj_set (UserRole.user_id r) (UserRole.role r) m)
                       roles acc) = None ->
  forall r, In r roles -> UserRole.user_id r <> k.
Proof.
  revert acc. induction roles as [|r roles IH]; intros acc H x Hx; [destruct Hx|].
  cbn in H. destruct Hx as [<- | Hx]; [|exact (IH _ H x Hx)].
  intros Hk. revert H. apply roleMap_keeps_keys. cbn.
  apply String.eqb_eq in Hk. rewrite Hk. discriminate.
Qed.

Lemma own_roles_visible (d : db) (uid : uuid) (r : UserRole.row) :
  In r (user_roles d) -> UserRole.user_id r = uid ->
  In r (data_or_empty (select_as d uid public_user_roles (fun _ => true))).
Proof.
  intros Hr Hu. unfold select_as, data_or_empty. apply filter_In.
  split; [exact Hr|]. unfold passes_using. cbn.
  now rewrite <- Hu, String.eqb_refl.
Qed.

Lemma visible_roles_stored (d : db) (uid : uuid) (r : UserRole.row) :
  In r (data_or_empty (select_as d uid public_user_roles (fun _ => true))) ->
  In r (user_roles d).
Proof.
  unfold select_as, data_or_empty. intros H. now apply filter_In in H.
Qed.

(** X5: the role the admin panel shows for a listed user is a role that
    identity holds: admin only if it holds admin; user if it holds user, or
    if it has no role row at all (the default of the panel).  When all its
    role rows carry one role, that role is shown; when it holds both, the
    row that arrives last decides. *)
Theorem displayed_role_is_held
    (order_profiles : list Profile.row -> list Profile.row)
    (arrival_roles : list UserRole.row -> list UserRole.row)
    (order_tasks : list Task.row -> list Task.row)
    (uid : uuid) (d : db) :
  (forall l, Permutation (order_profiles l) l) ->
  (forall l, Permutation (arrival_roles l) l) ->
  forall u,
    In u (fst (fetchData order_profiles arrival_roles order_tasks uid d)) ->
    (UserWithRole.role u = admin -> has_role d uid admin = true)
    /\ (UserWithRole.role u = user ->
        has_role d uid user = true \/ forall r, has_role d uid r = false)
    /\ (forall r0,
          (exists x, In x (user_roles d) /\ UserRole.user_id x = uid) ->
          (forall x, In x (user_roles d) -> UserRole.user_id x = uid ->
                     UserRole.role x = r0) ->
          UserWithRole.role u = r0).
Proof.
  intros Hprof Hroles u Hu.
  unfold fetchData in Hu. cbn [fst] in Hu.
  apply in_map_iff in Hu as [p [<- Hp]].
  apply (Permutation_in _ (Hprof _)) in Hp.
  rewrite select_own_profiles in Hp. apply filter_In in Hp as [_ Hid].
  apply String.eqb_eq in Hid. cbn [UserWithRole.role]. rewrite Hid.
  set (visible := data_or_empty
                    (select_as d uid public_user_roles (fun _ => true))).
  destruct (obj_get uid _) as [v|] eqn:Hget; cbn [or_default].
  - apply roleMap_get_some in Hget as [[r [Hr [Hk Hv]]] | Hget];
      [|discriminate].
    apply (Permutation_in _ (Hroles _)) in Hr.
    apply visible_roles_stored in Hr.
    assert (Hheld : has_role d uid v = true)
      by (apply has_role_true; exists r; auto).
    repeat split.
    + intros ->. exact Hheld.
    + intros ->. now left.
    + intros r0 _ Hall. rewrite <- Hv. now apply Hall.
  - pose proof (roleMap_get_none _ _ _ Hget) as Hnone.
    assert (Hno : forall x, In x (user_roles d) -> UserRole.user_id x <> uid).
    { intros x Hx Hxu. apply (Hnone x); [|exact Hxu].
      apply (Permutation_in _ (Permutation_sym (Hroles _))).
      now apply own_roles_visible. }
    repeat split.
    + discriminate.
    + intros _. right. intros r. apply not_true_is_false. intros Hr.
      apply has_role_true in Hr as [x [Hx [Hxu _]]]. exact (Hno x Hx Hxu).
    + intros r0 [x [Hx Hxu]] _. exfalso. exact (Hno x Hx Hxu).
Qed.

Lemma displayed_role_is_held_witness :
  has_role with_task_of_u "u" user = true
  \/ forall r, has_role with_task_of_u "u" r = false.
Proof.
  apply (displayed_role_is_held (fun l => l) (fun l => l) (fun l => l) "u"
           with_task_of_u (fun l => Permutation_refl l)
           (fun l => Permutation_refl l)
           (UserWithRole.mk (Profile.mk "u" (Some "u") None None 2 2) user 1)).
  - simpl. now left.
  - reflexivity.
Defined.

(** ** Updates of own rows succeed *)

Lemma COALESCE_none {A : Type} (l : list (option A)) :
  (forall x, In x l -> x = None) -> COALESCE l = None.
Proof.
  induction l as [|a l IH]; intros H; [reflexivity|].
  rewrite (H a (or_introl eq_refl)). cbn. apply IH. intros x Hx. apply H. now right.
Qed.

Lemma update_as_succeeds (uid : uuid) (now : timestamptz) (t : table)
    (wh : row t -> bool) (set : row t -> row t) (d : db) :
  let hit := targets d uid t UPDATE wh in
  let l' := map (fun r => if hit r then updated_row now t set r else r) (rows t d) in
  (forall r, In r (rows t d) -> hit r = true ->
     passes_check d uid t UPDATE (updated_row now t set r) = true) ->
  first_conflict t l' = None ->
  (forall r, In r (rows t d) -> hit r = true ->
     update_fk_violation t r (updated_row now t set r) (set_rows t l' d) = None) ->
  update_as uid now t wh set d = Ok (set_rows t l' d).
Proof.
  intros hit l' Hchk Hconf Hfk. unfold update_as. cbv zeta.
  fold hit. fold l'.
  replace (forallb _ (rows t d)) with true.
  2:{ symmetry. apply forallb_forall. intros r Hr.
      destruct (hit r) eqn:Hh; [|reflexivity]. cbn. now apply Hchk. }
  rewrite Hconf.
  rewrite COALESCE_none; [reflexivity|].
  intros x Hx. apply in_map_iff in Hx as [r [<- Hr]].
  destruct (hit r) eqn:Hh; [now apply Hfk | reflexivity].
Qed.

Lemma targets_own (d : db) (uid : uuid) (t : table) (c : command)
    (wh : row t -> bool) (r : row t) :
  c = UPDATE \/ c = DELETE ->
  t = public_tasks \/ t = public_categories \/ t = public_subtasks
  \/ t = public_reminders \/ t = public_analytics ->
  targets d uid t c wh r = wh r && String.eqb (owner t r) uid.
Proof.
  intros Hc Ht. unfold targets, passes_using.
  rewrite (String.eqb_sym (owner t r) uid).
  destruct Hc as [-> | ->];
    destruct Ht as [-> | [-> | [-> | [-> | ->]]]]; cbn;
    destruct (wh r), (String.eqb uid _), (has_role d uid admin); reflexivity.
Qed.

Lemma has_key_map {R : Type} (key : R -> uuid) (l : list R) (k : uuid) :
  has_key key l k = existsb (fun i => String.eqb i k) (map key l).
Proof.
  unfold has_key. induction l as [|a l IH]; cbn; [reflexivity|]. now rewrite IH.
Qed.

Lemma first_conflict_by_id (t : table) (l l' : list (row t)) :
  t = public_tasks \/ t = public_profiles \/ t = public_categories
  \/ t = public_subtasks ->
  map (pkey t) l = map (pkey t) l' ->
  first_conflict t l = first_conflict t l'.
Proof.
  intros Ht. revert l'.
  induction l as [|a l IH]; intros [|b l'] H; try discriminate; [reflexivity|].
  cbn in H. injection H as Hab Hl.
  cbn [first_conflict]. unfold unique_conflict.
  rewrite (has_key_map (pkey t) l), (has_key_map (pkey t) l'), Hab, Hl.
  rewrite (IH l' Hl).
  destruct Ht as [-> | [-> | [-> | ->]]]; reflexivity.
Qed.

Lemma fk_tasks_frame (r r' : Task.row) (l : list Task.row) (d : db) :
  Task.user_id r' = Task.user_id r ->
  Task.category_id r' = Task.category_id r ->
  fk_violation public_tasks r' (set_rows public_tasks l d)
  = fk_violation public_tasks r d.
Proof. intros Hu Hc. cbn. unfold references_user. cbn. now rewrite Hu, Hc. Qed.

Lemma table_ok_fk (t : table) (d : db) (r : row t) :
  table_ok t d = true -> In r (rows t d) -> fk_violation t r d = None.
Proof.
  unfold table_ok. intros H Hr. apply andb_true_iff in H as [_ H].
  rewrite forallb_forall in H. specialize (H r Hr).
  now destruct (fk_violation t r d).
Qed.

Lemma table_ok_unique (t : table) (d : db) :
  table_ok t d = true -> first_conflict t (rows t d) = None.
Proof.
  unfold table_ok. intros H. apply andb_true_iff in H as [H _].
  now destruct (first_conflict t (rows t d)).
Qed.

(** An update of the tasks with id [k] by [uid] that keeps id, owner and
    category: it succeeds on a well-formed table, rewrites the tasks of
    [uid] with that id, and leaves the table well-formed. *)
Lemma update_own_task (uid : uuid) (now : timestamptz) (k : uuid)
    (set : Task.row -> Task.row) (d : db) :
  table_ok public_tasks d = true ->
  (forall r, Task.id (set r) = Task.id r
             /\ Task.user_id (set r) = Task.user_id r
             /\ Task.category_id (set r) = Task.category_id r) ->
  let d' := set_rows public_tasks
              (map (fun r => if String.eqb (Task.id r) k
                                && String.eqb (Task.user_id r) uid
                             then Task.set_updated_at now (set r) else r)
                   (tasks d)) d in
  update_as uid now public_tasks (fun r => String.eqb (Task.id r) k) set d
  = Ok d'
  /\ table_ok public_tasks d' = true.
Proof.
  intros Hok Hset d'.
  assert (Hmap : map (fun r => if targets d uid public_tasks UPDATE
                                    (fun r => String.eqb (Task.id r) k) r
                               then updated_row now public_tasks set r else r)
                     (rows public_tasks d)
                 = tasks d').
  { cbn [d' set_rows tasks rows]. apply map_ext. intros r.
    rewrite (targets_own d uid public_tasks UPDATE) by auto. reflexivity. }
  assert (Hids : map (pkey public_tasks) (tasks d')
                 = map (pkey public_tasks) (tasks d)).
  { cbn [d' set_rows tasks]. rewrite map_map. apply map_ext. intros r.
    destruct (_ && _); [|reflexivity]. cbn. apply Hset. }
  assert (Hfk : forall r, In r (tasks d) ->
            fk_violation public_tasks (Task.set_updated_at now (set r)) d'
            = None).
  { intros r Hr. unfold d'. rewrite (fk_tasks_frame r); [|apply Hset..].
    now apply (table_ok_fk public_tasks d r). }
  split.
  - rewrite (update_as_succeeds uid now public_tasks); rewrite ?Hmap.
    + reflexivity.
    + intros r Hr Hhit.
      rewrite (targets_own d uid public_tasks UPDATE) in Hhit by auto.
      apply andb_true_iff in Hhit as [_ Hown]. apply String.eqb_eq in Hown.
      unfold passes_check. cbn.
      destruct (Hset r) as [_ [-> _]]. cbn in Hown.
      now rewrite Hown, String.eqb_refl.
    + rewrite (first_conflict_by_id public_tasks (tasks d') (tasks d))
        by auto.
      now apply (table_ok_unique public_tasks d).
    + intros r Hr _. unfold update_fk_violation. cbn [COALESCE].
      replace (set_rows public_tasks (tasks d') d) with d'
        by (unfold d'; now destruct d).
      unfold updated_row. cbn [update_updated_at_column].
      rewrite (Hfk r Hr). cbn [pkey Task.set_updated_at Task.id].
      destruct (Hset r) as [-> _]. now rewrite String.eqb_refl.
  - unfold table_ok. cbn [rows].
    rewrite (first_conflict_by_id public_tasks (tasks d') (tasks d)) by auto.
    pose proof (table_ok_unique public_tasks d Hok) as Hu.
    cbn [rows] in Hu. rewrite Hu. cbn [no_violation andb].
    apply forallb_forall. intros r' Hr'.
    cbn [d' set_rows tasks] in Hr'. apply in_map_iff in Hr' as [r [<- Hr]].
    destruct (String.eqb (Task.id r) k && String.eqb (Task.user_id r) uid).
    + now rewrite (Hfk r Hr).
    + replace (fk_violation public_tasks r d')
        with (fk_violation public_tasks r d)
        by (symmetry; now apply fk_tasks_frame).
      now rewrite (table_ok_fk public_tasks d r).
Qed.

(** ** The check box and the star of a task *)

(** X6: on a well-formed tasks table, the owner's [toggleStatus] on a task
    that is not completed succeeds and completes it, with completed_at the
    client time; a second [toggleStatus], on the completed copy, succeeds
    and leaves the task pending with completed_at NULL, whatever its status
    was at the start: a task that was in_progress or cancelled does not get
    that status back.  Apart from updated_at no other column and no other
    task changes. *)
Theorem toggleStatus_twice_ends_pending (uid : uuid) (x : Task.row)
    (c1 n1 c2 n2 : timestamptz) (d : db) :
  table_ok public_tasks d = true ->
  In x (tasks d) ->
  Task.user_id x = uid ->
  Task.status x <> completed ->
  let x1 := Task.set_updated_at n1 (set_status completed (Some c1) x) in
  exists d1 d2,
    toggleStatus uid x c1 n1 d = Ok d1
    /\ In x1 (tasks d1)
    /\ toggleStatus uid x1 c2 n2 d1 = Ok d2
    /\ In (Task.set_updated_at n2 (set_status pending None x)) (tasks d2)
    /\ d2 = set_rows public_tasks
              (map (fun r => if String.eqb (Task.id r) (Task.id x)
                                && String.eqb (Task.user_id r) uid
                             then Task.set_updated_at n2
                                    (set_status pending None r)
                             else r)
                   (tasks d)) d.
Proof.
  intros Hok Hin Hown Hst x1.
  assert (Hnot : task_status_eqb (Task.status x) completed = false)
    by (destruct (Task.status x); try reflexivity; congruence).
  assert (Hkeep : forall st done r,
            Task.id (set_status st done r) = Task.id r
            /\ Task.user_id (set_status st done r) = Task.user_id r
            /\ Task.category_id (set_status st done r) = Task.category_id r)
    by (intros; repeat split).
  assert (Hx : String.eqb (Task.id x) (Task.id x)
               && String.eqb (Task.user_id x) uid = true)
    by (rewrite Hown, !String.eqb_refl; reflexivity).
  destruct (update_own_task uid n1 (Task.id x)
              (set_status completed (Some c1)) d Hok (Hkeep _ _))
    as [Hrun1 Hok1].
  destruct (update_own_task uid n2 (Task.id x1) (set_status pending None) _
              Hok1 (Hkeep _ _)) as [Hrun2 _].
  do 2 eexists.
  split; [unfold toggleStatus; rewrite Hnot; cbn [task_status_eqb]; exact Hrun1|].
  split.
  { cbn [set_rows tasks]. apply in_map_iff. exists x. now rewrite Hx. }
  split; [unfold toggleStatus; cbn [x1 Task.status Task.set_updated_at set_status
                                    task_status_eqb]; exact Hrun2|].
  assert (Hmap : forall r,
            (fun r => if String.eqb (Task.id r) (Task.id x1)
                         && String.eqb (Task.user_id r) uid
                      then Task.set_updated_at n2 (set_status pending None r)
                      else r)
              (if String.eqb (Task.id r) (Task.id x)
                  && String.eqb (Task.user_id r) uid
               then Task.set_updated_at n1 (set_status completed (Some c1) r)
               else r)
            = if String.eqb (Task.id r) (Task.id x)
                 && String.eqb (Task.user_id r) uid
              then Task.set_updated_at n2 (set_status pending None r)
              else r).
  { intros r. cbn [x1 Task.id Task.set_updated_at set_status].
    destruct (String.eqb (Task.id r) (Task.id x)
              && String.eqb (Task.user_id r) uid) eqn:Hr.
    - cbn [Task.id Task.user_id Task.set_updated_at set_status]. rewrite Hr.
      reflexivity.
    - now rewrite Hr. }
  split.
  - cbn [set_rows tasks]. rewrite map_map. apply in_map_iff. exists x.
    split; [|exact Hin]. rewrite Hmap, Hx. reflexivity.
  - cbn [set_rows tasks auth_users profiles user_roles categories subtasks
         reminders notifications analytics].
    rewrite map_map. f_equal. apply map_ext. exact Hmap.
Qed.

Lemma toggleStatus_twice_ends_pending_witness :
  exists d1 d2,
    toggleStatus "u1" (set_status in_progress None task1) 60 61 in_progress_db
    = Ok d1
    /\ toggleStatus "u1"
         (Task.set_updated_at 61
            (set_status completed (Some 60) (set_status in_progress None task1)))
         70 71 d1
       = Ok d2
    /\ In (Task.set_updated_at 71 task1) (tasks d2).
Proof.
  destruct (toggleStatus_twice_ends_pending "u1"
              (set_status in_progress None task1) 60 61 70 71 in_progress_db
              eq_refl (or_introl eq_refl) eq_refl)
    as [d1 [d2 [H1 [_ [H2 [H3 _]]]]]]; [discriminate|].
  exists d1, d2. split; [exact H1|]. split; [exact H2 | exact H3].
Defined.

(** X7: on a well-formed tasks table, the owner's [toggleStar] on a task
    with is_starred = b succeeds and stores the opposite; a second one, on
    the new copy, succeeds and stores b again: the task is as at the start
    except for updated_at, and no other task changes. *)
Theorem toggleStar_twice_restores (uid : uuid) (x : Task.row) (b : bool)
    (n1 n2 : timestamptz) (d : db) :
  table_ok public_tasks d = true ->
  In x (tasks d) ->
  Task.user_id x = uid ->
  Task.is_starred x = Some b ->
  let x1 := Task.set_updated_at n1 (set_is_starred (negb b) x) in
  exists d1 d2,
    toggleStar uid x n1 d = Ok d1
    /\ In x1 (tasks d1)
    /\ toggleStar uid x1 n2 d1 = Ok d2
    /\ In (Task.set_updated_at n2 x) (tasks d2)
    /\ d2 = set_rows public_tasks
              (map (fun r => if String.eqb (Task.id r) (Task.id x)
                                && String.eqb (Task.user_id r) uid
                             then Task.set_updated_at n2 (set_is_starred b r)
                             else r)
                   (tasks d)) d.
Proof.
  intros Hok Hin Hown Hb.
  assert (Hsame : set_is_starred b x = x)
    by (clear - Hb; destruct x; cbn in Hb; subst; reflexivity).
  intros x1.
  assert (Hkeep : forall v r,
            Task.id (set_is_starred v r) = Task.id r
            /\ Task.user_id (set_is_starred v r) = Task.user_id r
            /\ Task.category_id (set_is_starred v r) = Task.category_id r)
    by (intros; repeat split).
  assert (Hx : String.eqb (Task.id x) (Task.id x)
               && String.eqb (Task.user_id x) uid = true)
    by (rewrite Hown, !String.eqb_refl; reflexivity).
  assert (Hj1 : js_not (Task.is_starred x) = negb b)
    by (rewrite Hb; now destruct b).
  assert (Hj2 : js_not (Task.is_starred x1) = b) by (cbn; now destruct b).
  destruct (update_own_task uid n1 (Task.id x) (set_is_starred (negb b)) d
              Hok (Hkeep _)) as [Hrun1 Hok1].
  destruct (update_own_task uid n2 (Task.id x1) (set_is_starred b) _
              Hok1 (Hkeep _)) as [Hrun2 _].
  do 2 eexists.
  split; [unfold toggleStar; rewrite Hj1; exact Hrun1|].
  split.
  { cbn [set_rows tasks]. apply in_map_iff. exists x. now rewrite Hx. }
  split; [unfold toggleStar; rewrite Hj2; exact Hrun2|].
  assert (Hmap : forall r,
            (fun r => if String.eqb (Task.id r) (Task.id x1)
                         && String.eqb (Task.user_id r) uid
                      then Task.set_updated_at n2 (set_is_starred b r)
                      else r)
              (if String.eqb (Task.id r) (Task.id x)
                  && String.eqb (Task.user_id r) uid
               then Task.set_updated_at n1 (set_is_starred (negb b) r)
               else r)
            = if String.eqb (Task.id r) (Task.id x)
                 && String.eqb (Task.user_id r) uid
              then Task.set_updated_at n2 (set_is_starred b r)
              else r).
  { intros r. cbn [x1 Task.id Task.set_updated_at set_is_starred].
    destruct (String.eqb (Task.id r) (Task.id x)
              && String.eqb (Task.user_id r) uid) eqn:Hr.
    - cbn [Task.id Task.user_id Task.set_updated_at set_is_starred]. rewrite Hr.
      reflexivity.
    - now rewrite Hr. }
  split.
  - cbn [set_rows tasks]. rewrite map_map. apply in_map_iff. exists x.
    split; [|exact Hin]. rewrite Hmap, Hx, Hsame. reflexivity.
  - cbn [set_rows tasks auth_users profiles user_roles categories subtasks
         reminders notifications analytics].
    rewrite map_map. f_equal. apply map_ext. exact Hmap.
Qed.

Lemma toggleStar_twice_restores_witness :
  exists d1 d2,
    toggleStar "u1" task1 61 with_children = Ok d1
    /\ toggleStar "u1" (Task.set_updated_at 61 (set_is_starred true task1)) 71 d1
       = Ok d2
    /\ tasks d2 = [ Task.set_updated_at 71 task1; task2 ].
Proof.
  destruct (toggleStar_twice_restores "u1" task1 false 61 71 with_children
              eq_refl (or_introl eq_refl) eq_refl eq_refl)
    as [d1 [d2 [H1 [_ [H2 [_ H3]]]]]].
  exists d1, d2. split; [exact H1|]. split; [exact H2|]. now rewrite H3.
Defined.

(** ** Saving an edited task *)

(** X8: when [saveTask] for an edited task succeeds, the tasks of the
    signed-in identity with the id of the edited one carry the columns of the
    payload, and the others are untouched.  In particular completed_at is
    the client time of this save when the form says completed, also for a
    task that had been completed before (its earlier completed_at is
    lost), and NULL otherwise. *)
Theorem saveTask_edit_overwrites (trim : string -> string)
    (timestamptz_in : string -> option timestamptz)
    (uid : uuid) (x : Task.row) (form : Form.t)
    (client_now now : timestamptz) (gen : uuid) (d d' : db) :
  non_empty (trim (Form.title form)) = true ->
  saveTask trim timestamptz_in (Some uid) (Some x) form client_now now gen d
  = Ok d' ->
  exists due,
    due_date_in timestamptz_in (payload_of trim form client_now) = Ok due
    /\ tasks d'
       = map (fun r => if String.eqb (Task.id r) (Task.id x)
                          && String.eqb (Task.user_id r) uid
                       then Task.set_updated_at now
                              (set_payload (payload_of trim form client_now)
                                 due r)
                       else r)
             (tasks d)
    /\ (forall r', In r' (tasks d') ->
          Task.id r' = Task.id x -> Task.user_id r' = uid ->
          Task.status r' = Form.status form
          /\ Task.completed_at r'
             = (if task_status_eqb (Form.status form) completed
                then Some client_now else None)
          /\ Task.updated_at r' = now).
Proof.
  intros Htitle Hrun. unfold saveTask in Hrun. rewrite Htitle in Hrun.
  cbn [negb] in Hrun.
  destruct (due_date_in timestamptz_in (payload_of trim form client_now))
    as [due|e] eqn:Hdue; [|discriminate].
  cbn [bind] in Hrun. apply update_as_ok in Hrun.
  exists due. split; [reflexivity|].
  assert (Htasks : tasks d'
       = map (fun r => if String.eqb (Task.id r) (Task.id x)
                          && String.eqb (Task.user_id r) uid
                       then Task.set_updated_at now
                              (set_payload (payload_of trim form client_now)
                                 due r)
                       else r)
             (tasks d)).
  { subst d'. cbn [set_rows tasks rows]. apply map_ext. intros r.
    rewrite (targets_own d uid public_tasks UPDATE) by auto. reflexivity. }
  split; [exact Htasks|].
  intros r' Hr' Hid Hu. rewrite Htasks in Hr'.
  apply in_map_iff in Hr' as [r [Hr _]].
  destruct (String.eqb (Task.id r) (Task.id x)
            && String.eqb (Task.user_id r) uid) eqn:Hown.
  - subst r'. repeat split.
  - subst r'. rewrite Hid, Hu, !String.eqb_refl in Hown. discriminate.
Qed.

Lemma saveTask_edit_overwrites_witness :
  exists d',
    saveTask (fun s => s) (fun _ => None) (Some "u1")
      (Some (set_status completed (Some 5) task1)) retitle_form 60 61 "g"
      completed_db
    = Ok d'
    /\ tasks d'
       = [ Task.mk "t1" "u1" (Some "c1") "Write the report" None completed
             medium None (Some 60) (Some []) (Some false) (Some 0) 20 61;
           task2 ].
Proof.
  eexists. split; [reflexivity|].
  destruct (saveTask_edit_overwrites (fun s => s) (fun _ => None) "u1"
              (set_status completed (Some 5) task1) retitle_form 60 61 "g"
              completed_db _ eq_refl eq_refl)
    as [due [Hdue [Htasks _]]].
  injection Hdue as <-. exact Htasks.
Defined.

(** ** Deleting a category *)

(** X9: when the owner deletes category [c] with [deleteCategory], the
    statement succeeds, [c] is gone, and every task is kept: a task filed
    under [c], whoever owns it, gets category_id NULL and updated_at = now(),
    the others are untouched.  Status and completed_at of no task change, so
    completed_at stays set exactly on the completed tasks.  No other table
    changes. *)
Theorem deleteCategory_unfiles_tasks (d : db) (uid : uuid) (now : timestamptz)
    (c : Category.row) :
  In c (categories d) ->
  Category.user_id c = uid ->
  exists d',
    deleteCategory uid (Category.id c) now d = Ok d'
    /\ ~ In c (categories d')
    /\ (forall y, In y (categories d') -> In y (categories d))
    /\ tasks d'
       = map (fun x => if null_eqb (Task.category_id x) (Category.id c)
                       then Task.set_updated_at now (Task.set_category_id None x)
                       else x)
             (tasks d)
    /\ (tasks_consistent d -> tasks_consistent d')
    /\ auth_users d' = auth_users d /\ profiles d' = profiles d
    /\ user_roles d' = user_roles d /\ subtasks d' = subtasks d
    /\ reminders d' = reminders d /\ notifications d' = notifications d
    /\ analytics d' = analytics d.
Proof.
  intros Hin Hown. unfold deleteCategory, delete_as. cbv zeta.
  set (wh := fun r : Category.row => String.eqb (Category.id r) (Category.id c)).
  set (hit := targets d uid public_categories DELETE wh).
  set (ks := map (pkey public_categories) (filter hit (rows public_categories d))).
  assert (HhitC : hit c = true).
  { unfold hit. rewrite (targets_own d uid public_categories DELETE) by auto.
    unfold wh. cbn. now rewrite Hown, !String.eqb_refl. }
  assert (Hk : In (Category.id c) ks).
  { unfold ks. apply in_map_iff. exists c. split; [reflexivity|].
    apply filter_In. split; assumption. }
  assert (Hks : forall x, In x ks -> x = Category.id c).
  { intros x Hx. unfold ks in Hx. apply in_map_iff in Hx as [y [<- Hy]].
    apply filter_In in Hy as [_ Hy]. unfold hit, targets, wh in Hy.
    apply andb_true_iff in Hy as [Hy _]. apply andb_true_iff in Hy as [Hy _].
    now apply String.eqb_eq in Hy. }
  assert (Hne : ks <> []) by (intros Hnil; rewrite Hnil in Hk; destruct Hk).
  assert (Htasks :
            map (fun x => if existsb (null_eqb (Task.category_id x)) ks
                          then update_updated_at_column now public_tasks
                                 (Task.set_category_id None x)
                          else x) (tasks d)
            = map (fun x => if null_eqb (Task.category_id x) (Category.id c)
                            then Task.set_updated_at now
                                   (Task.set_category_id None x)
                            else x) (tasks d)).
  { apply map_ext. intros x.
    rewrite (existsb_single_key (null_eqb (Task.category_id x)) ks
               (Category.id c) Hne Hks).
    reflexivity. }
  eexists. split; [reflexivity|].
  cbn [on_delete set_rows rows tasks subtasks reminders notifications
       auth_users profiles user_roles categories analytics].
  split; [|split; [|split; [|split]]].
  - intros HT. apply filter_In in HT as [_ HT]. apply negb_true_iff in HT.
    exact (eq_true_false_abs _ HhitC HT).
  - intros y Hy. apply filter_In in Hy. tauto.
  - exact Htasks.
  - intros Hcons x' Hx'.
    assert (Hx'' : In x' (map (fun x => if null_eqb (Task.category_id x)
                                             (Category.id c)
                                      then Task.set_updated_at now
                                             (Task.set_category_id None x)
                                      else x) (tasks d)))
      by (rewrite <- Htasks; exact Hx').
    apply in_map_iff in Hx'' as [x [<- Hx]]. specialize (Hcons x Hx).
    destruct (null_eqb _ _); exact Hcons.
  - repeat split.
Qed.

Lemma deleteCategory_unfiles_tasks_witness :
  exists d',
    deleteCategory "u1" "c1" 80 shared_category_db = Ok d'
    /\ categories d' = []
    /\ tasks d'
       = [ Task.mk "t1" "u1" None "Write report" None pending medium None None
             (Some []) (Some false) (Some 0) 20 80;
           Task.mk "t4" "u2" None "Book flight" None completed high None
             (Some 30) (Some []) (Some true) (Some 0) 27 80 ].
Proof.
  destruct (deleteCategory_unfiles_tasks shared_category_db "u1" 80
              work_category (or_introl eq_refl) eq_refl)
    as [d' [H1 [_ [_ [H2 _]]]]].
  exists d'. split; [exact H1|].
  split; [|exact H2].
  unfold deleteCategory in H1. vm_compute in H1. injection H1 as <-. reflexivity.
Defined.

(** ** Subtasks under any task *)

(** X10: [addSubtask] does not look at the owner of the task: for any
    stored task [T], a signed-in identity that is stored, with a title that
    is not blank and a generated id that is not taken, gets its subtask
    stored under [T].  It reads it back itself; the owner of [T], if
    another identity, does not see it; and it goes when the owner deletes
    [T]. *)
Theorem addSubtask_under_any_task (trim : string -> string) (uid : uuid)
    (T : Task.row) (title : string) (gen : uuid) (now : timestamptz) (d : db) :
  In T (tasks d) ->
  has_key AuthUser.id (auth_users d) uid = true ->
  has_key Subtask.id (subtasks d) gen = false ->
  non_empty (trim title) = true ->
  let s := Subtask.mk gen (Task.id T) uid (trim title) (Some false) (Some 0)
             now now in
  exists d',
    addSubtask trim (Some uid) (Task.id T) title gen now d = Ok d'
    /\ d' = set_rows public_subtasks (subtasks d ++ [s]) d
    /\ In s (subtasks_of uid (Task.id T) d')
    /\ (Task.user_id T <> uid ->
        ~ In s (subtasks_of (Task.user_id T) (Task.id T) d'))
    /\ (forall now',
          ~ In s (subtasks
                    (after d' (deleteTask (Task.user_id T) (Task.id T) now' d')))).
Proof.
  intros HT Hu Hgen Htitle s.
  assert (Hrun : addSubtask trim (Some uid) (Task.id T) title gen now d
                 = Ok (set_rows public_subtasks (subtasks d ++ [s]) d)).
  { unfold addSubtask. rewrite Htitle. cbn [negb]. fold s.
    replace (passes_using d uid public_subtasks SELECT s) with true
      by (unfold passes_using; cbn; now rewrite String.eqb_refl).
    unfold insert_as.
    replace (passes_check d uid public_subtasks INSERT s) with true
      by (unfold passes_check; cbn; now rewrite String.eqb_refl).
    unfold insert_row, unique_conflict.
    cbn [rows pkey row unique_key_taken fk_violation s Subtask.id
         Subtask.task_id Subtask.user_id].
    rewrite Hgen. unfold references_task, references_user. rewrite Hu.
    replace (has_key Task.id (tasks d) (Task.id T)) with true; [reflexivity|].
    symmetry. apply existsb_exists. exists T. split; [exact HT|].
    apply String.eqb_refl. }
  eexists. split; [exact Hrun|]. split; [reflexivity|].
  split; [|split].
  - unfold subtasks_of, select_as, data_or_empty. apply filter_In.
    cbn [rows set_rows subtasks]. split; [apply in_or_app; right; now left|].
    unfold passes_using. cbn. now rewrite !String.eqb_refl.
  - intros Hne Hin. unfold subtasks_of, select_as, data_or_empty in Hin.
    apply filter_In in Hin as [_ Hin]. unfold passes_using in Hin. cbn in Hin.
    apply String.eqb_neq in Hne. rewrite Hne in Hin. discriminate.
  - intros now' Hin. unfold deleteTask, delete_as in Hin. cbv zeta in Hin.
    cbn [after on_delete set_rows rows tasks subtasks reminders notifications]
      in Hin.
    apply filter_In in Hin as [_ Hin]. apply negb_true_iff in Hin.
    refine (eq_true_false_abs _ _ Hin).
    apply existsb_exists. exists (Task.id T). split; [|apply String.eqb_refl].
    apply in_map_iff. exists T. split; [reflexivity|].
    apply filter_In. split; [exact HT|].
    rewrite (targets_own _ (Task.user_id T) public_tasks DELETE) by auto.
    cbn. now rewrite !String.eqb_refl.
Qed.

Lemma addSubtask_under_any_task_witness :
  exists d',
    addSubtask (fun s => s) (Some "u2") "t1" "Spy" "s9" 90 with_children = Ok d'
    /\ In (Subtask.mk "s9" "t1" "u2" "Spy" (Some false) (Some 0) 90 90)
          (subtasks d')
    /\ subtasks_of "u1" "t1" d'
       = [ Subtask.mk "s1" "t1" "u1" "Outline" (Some false) (Some 0) 22 22 ].
Proof.
  destruct (addSubtask_under_any_task (fun s => s) "u2" task1 "Spy" "s9" 90
              with_children (or_introl eq_refl) eq_refl eq_refl eq_refl)
    as [d' [H1 [H2 _]]].
  exists d'. split; [exact H1|]. rewrite H2. split; [|reflexivity].
  simpl. auto.
Defined.

(** ** Saving the profile *)

(** X11: on a well-formed profiles table [saveProfile] cannot fail.  It
    rewrites the profile of the signed-in identity: display_name and bio
    become the two texts of the form, never NULL, also when a text is empty;
    updated_at becomes now(); id, avatar_url and created_at stay.  Every
    other profile and every other table is untouched. *)
Theorem saveProfile_rewrites_own_profile (uid : uuid) (displayName bio : string)
    (now : timestamptz) (d : db) :
  table_ok public_profiles d = true ->
  saveProfile (Some uid) displayName bio now d
  = Ok (set_rows public_profiles
          (map (fun r => if String.eqb (Profile.id r) uid
                         then Profile.mk (Profile.id r) (Some displayName)
                                (Profile.avatar_url r) (Some bio)
                                (Profile.created_at r) now
                         else r)
               (profiles d)) d).
Proof.
  intros Hok. unfold saveProfile.
  pose (wh := fun r : Profile.row => String.eqb (Profile.id r) uid).
  pose (set := fun r : Profile.row =>
                 Profile.mk (Profile.id r) (Some displayName)
                   (Profile.avatar_url r) (Some bio) (Profile.created_at r)
                   (Profile.updated_at r)).
  change (update_as uid now public_profiles wh set d
          = Ok (set_rows public_profiles
                  (map (fun r => if String.eqb (Profile.id r) uid
                                 then Profile.mk (Profile.id r) (Some displayName)
                                        (Profile.avatar_url r) (Some bio)
                                        (Profile.created_at r) now
                                 else r)
                       (profiles d)) d)).
  assert (Hhit : forall r, targets d uid public_profiles UPDATE wh r = wh r).
  { intros r. unfold targets, passes_using, wh. cbn.
    rewrite (String.eqb_sym uid). now destruct (String.eqb (Profile.id r) uid). }
  assert (Hmap : map (fun r => if targets d uid public_profiles UPDATE wh r
                               then updated_row now public_profiles set r
                               else r) (rows public_profiles d)
                 = map (fun r => if String.eqb (Profile.id r) uid
                                 then Profile.mk (Profile.id r) (Some displayName)
                                        (Profile.avatar_url r) (Some bio)
                                        (Profile.created_at r) now
                                 else r) (profiles d)).
  { apply map_ext. intros r. rewrite Hhit. reflexivity. }
  rewrite (update_as_succeeds uid now public_profiles wh set d).
  - now rewrite Hmap.
  - intros r _ Hr. rewrite Hhit in Hr. unfold wh in Hr.
    unfold passes_check. cbn. rewrite (String.eqb_sym uid), Hr. reflexivity.
  - rewrite Hmap.
    rewrite (first_conflict_by_id public_profiles _ (profiles d)
               (or_intror (or_introl eq_refl))).
    + exact (table_ok_unique public_profiles d Hok).
    + rewrite map_map. apply map_ext. intros r.
      now destruct (String.eqb (Profile.id r) uid).
  - intros r Hr _. unfold update_fk_violation. cbn [COALESCE].
    pose proof (table_ok_fk public_profiles d r Hok Hr) as Hfk.
    cbn in Hfk |- *. unfold references_user, has_key in *. cbn.
    destruct (existsb _ (auth_users d)); [|discriminate].
    now destruct (String.eqb (Profile.id r) (Profile.id r)).
Qed.

Lemma saveProfile_rewrites_own_profile_witness :
  saveProfile (Some "u") "" "Likes lists" 9 two_identities
  = Ok (set_rows public_profiles
          [ Profile.mk "a" (Some "a") None None 1 1;
            Profile.mk "u" (Some "") None (Some "Likes lists") 2 9 ]
          two_identities).
Proof.
  exact (saveProfile_rewrites_own_profile "u" "" "Likes lists" 9 two_identities
           eq_refl).
Defined.

(** ** Deletes keep the references *)

Lemma has_key_survives {R : Type} (key : R -> uuid) (f : R -> bool)
    (l : list R) (k : uuid) :
  has_key key l k = true ->
  (forall y, In y l -> key y = k -> f y = true) ->
  has_key key (filter f l) k = true.
Proof.
  unfold has_key. intros H Hf. apply existsb_exists in H as [y [Hy Hk]].
  apply existsb_exists. exists y. split; [|exact Hk].
  apply filter_In. split; [exact Hy|]. apply Hf; [exact Hy|].
  now apply String.eqb_eq.
Qed.

Lemma not_among_deleted {R : Type} (key : R -> uuid) (hit : R -> bool)
    (l : list R) (v : uuid) :
  existsb (String.eqb v) (map key (filter hit l)) = false ->
  forall y, In y l -> key y = v -> negb (hit y) = true.
Proof.
  intros H y Hy Hk. apply negb_true_iff. apply not_true_is_false. intros Hh.
  assert (existsb (String.eqb v) (map key (filter hit l)) = true).
  { apply existsb_exists. exists (key y). split.
    - apply in_map. apply filter_In. now split.
    - rewrite Hk. apply String.eqb_refl. }
  congruence.
Qed.

Lemma has_key_same_ids {R : Type} (key : R -> uuid) (f : R -> R) (l : list R)
    (k : uuid) :
  (forall x, key (f x) = key x) ->
  has_key key (map f l) k = has_key key l k.
Proof.
  intros H. rewrite !has_key_map, map_map. f_equal. apply map_ext. exact H.
Qed.

(** X12: when every subtask, reminder and notification with a task_id
    references a stored task and every task with a category_id a stored
    category, the same holds after any DELETE on any table, whoever sends it
    and whatever its condition: ON DELETE CASCADE removes the subtasks and
    reminders of a deleted task, ON DELETE SET NULL clears the references of
    notifications and tasks. *)
Theorem deletes_keep_references (d : db) (uid : uuid) (now : timestamptz)
    (t : table) (wh : row t -> bool) :
  refs_ok d -> refs_ok (after d (delete_as uid now t wh d)).
Proof.
  intros [Hsub [Hrem [Hnot Hcat]]].
  unfold delete_as. cbv zeta. cbn [after].
  destruct t;
    cbn [on_delete set_rows rows tasks subtasks reminders notifications
         categories];
    unfold refs_ok;
    cbn [tasks subtasks reminders notifications categories];
    try (repeat split; assumption).
  - (* categories *)
    set (hit := targets d uid public_categories DELETE wh).
    set (ks := map (pkey public_categories) (filter hit (categories d))).
    set (f := fun x : Task.row =>
                if existsb (null_eqb (Task.category_id x)) ks
                then update_updated_at_column now public_tasks
                       (Task.set_category_id None x)
                else x).
    assert (Hid : forall x, Task.id (f x) = Task.id x)
      by (intros x; unfold f; now destruct (existsb _ ks)).
    repeat split.
    + intros s Hs. rewrite (has_key_same_ids Task.id f _ _ Hid). now apply Hsub.
    + intros r Hr. rewrite (has_key_same_ids Task.id f _ _ Hid). now apply Hrem.
    + intros n k Hn Hk. rewrite (has_key_same_ids Task.id f _ _ Hid).
      now apply (Hnot n).
    + intros x' c Hx' Hc. apply in_map_iff in Hx' as [x [<- Hx]].
      unfold f in Hc.
      destruct (existsb (null_eqb (Task.category_id x)) ks) eqn:Hex;
        [discriminate|].
      apply has_key_survives; [now apply (Hcat x)|].
      apply (not_among_deleted Category.id hit (categories d) c).
      rewrite Hc in Hex. exact Hex.
  - (* tasks *)
    set (hit := targets d uid public_tasks DELETE wh).
    set (ks := map (pkey public_tasks) (filter hit (tasks d))).
    repeat split.
    + intros s Hs. apply filter_In in Hs as [Hs Hno].
      apply negb_true_iff in Hno.
      apply has_key_survives; [now apply Hsub|].
      now apply (not_among_deleted Task.id hit (tasks d) (Subtask.task_id s)).
    + intros r Hr. apply filter_In in Hr as [Hr Hno].
      apply negb_true_iff in Hno.
      apply has_key_survives; [now apply Hrem|].
      now apply (not_among_deleted Task.id hit (tasks d) (Reminder.task_id r)).
    + intros n' k Hn' Hk. apply in_map_iff in Hn' as [n [Heq Hn]].
      destruct (existsb (null_eqb (Notification.task_id n)) ks) eqn:Hex;
        subst n'; [discriminate|].
      apply has_key_survives; [now apply (Hnot n)|].
      apply (not_among_deleted Task.id hit (tasks d) k).
      rewrite Hk in Hex. exact Hex.
    + intros x c Hx Hc. apply filter_In in Hx as [Hx _]. now apply (Hcat x).
  - (* subtasks *)
    repeat split; try assumption.
    intros s Hs. apply filter_In in Hs as [Hs _]. now apply Hsub.
  - (* reminders *)
    repeat split; try assumption.
    intros r Hr. apply filter_In in Hr as [Hr _]. now apply Hrem.
  - (* notifications *)
    repeat split; try assumption.
    intros n k Hn Hk. apply filter_In in Hn as [Hn _]. now apply (Hnot n).
Qed.

Lemma with_children_refs_ok : refs_ok with_children.
Proof.
  repeat split.
  - intros s Hs. simpl in Hs. destruct Hs as [<-|[<-|[]]]; reflexivity.
  - intros r Hr. simpl in Hr. destruct Hr as [<-|[]]; reflexivity.
  - intros n k Hn Hk. simpl in Hn.
    destruct Hn as [<-|[<-|[]]]; simpl in Hk; [|discriminate].
    injection Hk as <-. reflexivity.
  - intros x c Hx Hc. simpl in Hx.
    destruct Hx as [<-|[<-|[]]]; simpl in Hc; [|discriminate].
    injection Hc as <-. reflexivity.
Defined.

Lemma deletes_keep_references_witness :
  refs_ok (after with_children (deleteTask "u1" "t1" 50 with_children)).
Proof.
  exact (deletes_keep_references with_children "u1" 50 public_tasks
           (fun r => String.eqb (Task.id r) "t1") with_children_refs_ok).
Defined.

(** ** What the client never writes *)

Lemma client_frame_refl (d : db) : client_frame d d.
Proof. repeat split; auto. Qed.

Lemma client_frame_set_rows (t : table) (l : list (row t)) (d : db) :
  t = public_profiles \/ t = public_user_roles \/ t = public_categories
  \/ t = public_tasks \/ t = public_subtasks ->
  client_frame d (set_rows t l d).
Proof.
  intros [-> | [-> | [-> | [-> | ->]]]]; repeat split; auto.
Qed.

Lemma insert_as_cases (uid : uuid) (t : table) (r : row t) (d : db) :
  after d (insert_as uid t r d) = d
  \/ after d (insert_as uid t r d) = set_rows t (rows t d ++ [r]) d.
Proof.
  destruct (insert_as uid t r d) as [d'|e] eqn:H; cbn [after]; [|now left].
  right. exact (insert_as_ok uid t r d d' H).
Qed.

Lemma update_as_cases (uid : uuid) (now : timestamptz) (t : table)
    (wh : row t -> bool) (set : row t -> row t) (d : db) :
  exists l, after d (update_as uid now t wh set d) = set_rows t l d.
Proof.
  destruct (update_as uid now t wh set d) as [d'|e] eqn:H; cbn [after].
  - eexists. exact (update_as_ok uid now t wh set d d' H).
  - exists (rows t d). now rewrite set_rows_same.
Qed.

Lemma client_frame_update (uid : uuid) (now : timestamptz) (t : table)
    (wh : row t -> bool) (set : row t -> row t) (d : db) :
  t = public_profiles \/ t = public_user_roles \/ t = public_categories
  \/ t = public_tasks \/ t = public_subtasks ->
  client_frame d (after d (update_as uid now t wh set d)).
Proof.
  intros Ht. destruct (update_as_cases uid now t wh set d) as [l ->].
  now apply client_frame_set_rows.
Qed.

Lemma client_frame_insert (uid : uuid) (t : table) (r : row t) (d : db) :
  t = public_profiles \/ t = public_user_roles \/ t = public_categories
  \/ t = public_tasks \/ t = public_subtasks ->
  client_frame d (after d (insert_as uid t r d)).
Proof.
  intros Ht. destruct (insert_as_cases uid t r d) as [-> | ->];
    [apply client_frame_refl | now apply client_frame_set_rows].
Qed.

Lemma set_task_id_none_twice (n : Notification.row) :
  Notification.set_task_id None (Notification.set_task_id None n)
  = Notification.set_task_id None n.
Proof. reflexivity. Qed.

Lemma client_frame_delete (uid : uuid) (now : timestamptz) (t : table)
    (wh : row t -> bool) (d : db) :
  t = public_tasks \/ t = public_categories \/ t = public_reminders ->
  client_frame d (after d (delete_as uid now t wh d)).
Proof.
  unfold delete_as. cbv zeta. cbn [after].
  intros [-> | [-> | ->]];
    cbn [on_delete set_rows rows tasks subtasks reminders notifications
         categories];
    unfold client_frame;
    cbn [auth_users analytics notifications reminders];
    repeat split; auto.
  - rewrite map_map. apply map_ext. intros n.
    now destruct (existsb (null_eqb (Notification.task_id n)) _).
  - intros n' Hn'. apply in_map_iff in Hn' as [n [<- Hn]].
    destruct (existsb (null_eqb (Notification.task_id n)) _);
      [now right | now left].
  - intros r Hr. apply filter_In in Hr. tauto.
  - intros r Hr. apply filter_In in Hr. tauto.
Qed.

Lemma client_frame_step (trim : string -> string)
    (timestamptz_in date_of : string -> option timestamptz)
    (w : client_write) (now : timestamptz) (d : db) :
  client_frame d (after d (run_client trim timestamptz_in date_of w now d)).
Proof.
  destruct w as [w | uid id | uid s | usr taskId title gen
                 | usr editing form gen | uid id | usr dn bio
                 | usr form gen | uid id | uid userId gen];
    cbn [run_client].
  - destruct w as [u e f c g | u k | u k c]; cbn [run_task_write].
    + unfold saveTask. destruct u as [uid|]; [|apply client_frame_refl].
      destruct (negb _); [apply client_frame_refl|].
      destruct (due_date_in _ _) as [due|err]; cbn [bind];
        [|apply client_frame_refl].
      destruct e; [apply client_frame_update | apply client_frame_insert];
        auto 6.
    + unfold toggleStar. apply client_frame_update; auto 6.
    + unfold toggleStatus. apply client_frame_update; auto 6.
  - unfold deleteTask. apply client_frame_delete; auto.
  - unfold toggleSubtask. apply client_frame_update; auto 6.
  - unfold addSubtask. destruct usr as [uid|]; [|apply client_frame_refl].
    destruct (negb _); [apply client_frame_refl|].
    destruct (passes_using _ _ _ _ _); [|apply client_frame_refl].
    apply client_frame_insert; auto 6.
  - unfold saveCategory. destruct usr as [uid|]; [|apply client_frame_refl].
    destruct (negb _); [apply client_frame_refl|].
    destruct editing; [apply client_frame_update | apply client_frame_insert];
      auto 6.
  - unfold deleteCategory. apply client_frame_delete; auto.
  - unfold saveProfile. destruct usr as [uid|]; [|apply client_frame_refl].
    apply client_frame_update; auto 6.
  - unfold saveReminder. destruct usr as [uid|]; [|apply client_frame_refl].
    destruct (_ || _); [apply client_frame_refl|].
    destruct (date_of _) as [at_|]; [|apply client_frame_refl].
    destruct (insert_as_cases uid public_reminders
                (Reminder.mk gen (ReminderForm.task_id form) uid at_
                   (Some false) (or_null (ReminderForm.message form)) now) d)
      as [-> | ->]; [apply client_frame_refl|].
    repeat split; auto.
    intros r Hr. cbn in Hr. apply in_app_or in Hr as [Hr | [<- | []]];
      [now left | now right].
  - unfold deleteReminder. apply client_frame_delete; auto.
  - unfold promoteToAdmin, upsert_user_role.
    destruct (passes_check _ _ _ _ _); [|apply client_frame_refl].
    destruct (has_key _ _ _).
    + destruct (forallb _ _); [|apply client_frame_refl].
      destruct (first_conflict _ _); [apply client_frame_refl|].
      destruct (fk_violation _ _ _); [apply client_frame_refl|].
      cbn [after]. apply client_frame_set_rows; auto.
    + destruct (insert_row _ _ _) as [d'|e] eqn:H; cbn [after];
        [|apply client_frame_refl].
      apply insert_row_ok in H. subst d'. apply client_frame_set_rows; auto.
Qed.

(** X13: no write of the components ([saveTask], [toggleStar],
    [toggleStatus], both [deleteTask], [toggleSubtask], [addSubtask],
    [CategoriesView.save], [deleteCategory], [saveProfile],
    [RemindersView.save], [deleteReminder], [promoteToAdmin]) changes the
    table analytics or auth.users, and none creates, removes or edits a
    notification: the notifications afterwards are the old ones, in the old
    order, some with task_id cleared by the deletion of their task. *)
Theorem client_leaves_analytics_and_notifications (trim : string -> string)
    (timestamptz_in date_of : string -> option timestamptz)
    (w : client_write) (now : timestamptz) (d : db) :
  let d' := after d (run_client trim timestamptz_in date_of w now d) in
  analytics d' = analytics d
  /\ auth_users d' = auth_users d
  /\ map (Notification.set_task_id None) (notifications d')
     = map (Notification.set_task_id None) (notifications d)
  /\ (forall n', In n' (notifications d') ->
        In n' (notifications d) \/ Notification.task_id n' = None).
Proof.
  destruct (client_frame_step trim timestamptz_in date_of w now d)
    as [H1 [H2 [H3 [H4 _]]]].
  cbv zeta. auto.
Qed.

Lemma client_frame_never_sent (d d' : db) :
  client_frame d d' -> never_sent d -> never_sent d'.
Proof.
  intros [_ [_ [_ [_ H]]]] Hno r Hr. destruct (H r Hr) as [Hold | Hnew];
    [now apply Hno | exact Hnew].
Qed.

(** X14: no write of the components marks a reminder as sent: when no
    stored reminder has is_sent other than false (as in a database without
    reminders), that is still so after any sequence of writes of the
    components.  [RemindersView.save] stores reminders with is_sent = false
    and nothing updates the column. *)
Theorem client_never_sends_reminders (trim : string -> string)
    (timestamptz_in date_of : string -> option timestamptz)
    (ws : list (client_write * timestamptz)) (d : db) :
  never_sent d ->
  never_sent (run_client_all trim timestamptz_in date_of ws d).
Proof.
  revert d. induction ws as [|[w now] ws IH]; intros d Hno; cbn; [exact Hno|].
  apply IH. eapply client_frame_never_sent; [|exact Hno].
  apply client_frame_step.
Qed.

Lemma with_children_never_sent : never_sent with_children.
Proof.
  intros r Hr. simpl in Hr. destruct Hr as [<-|[]]. reflexivity.
Defined.

Lemma client_never_sends_reminders_witness :
  never_sent
    (run_client_all (fun s => s) (fun _ => None) (fun _ => Some 500)
       [ (SaveReminder (Some "u1") (ReminderForm.mk "t2" "tomorrow" "") "m2", 91);
         (TaskWrite (ToggleStatus "u1" task1 92), 93);
         (DeleteTask "u1" "t1", 94) ]
       with_children)
  /\ reminders
       (run_client_all (fun s => s) (fun _ => None) (fun _ => Some 500)
          [ (SaveReminder (Some "u1") (ReminderForm.mk "t2" "tomorrow" "") "m2",
             91);
            (TaskWrite (ToggleStatus "u1" task1 92), 93);
            (DeleteTask "u1" "t1", 94) ]
          with_children)
     = [ Reminder.mk "m2" "t2" "u1" 500 (Some false) None 91 ].
Proof.
  split; [|reflexivity].
  apply client_never_sends_reminders. exact with_children_never_sent.
Defined.

(** ** Profiles stay *)

Lemma create_identity_ok (NEW : AuthUser.row) (now : timestamptz) (gen : uuid)
    (d d' : db) :
  create_identity NEW now gen d = Ok d' ->
  exists p,
    Profile.id p = AuthUser.id NEW
    /\ d' = set_rows public_user_roles
              (user_roles d ++ [ UserRole.mk gen (AuthUser.id NEW) user now ])
              (set_rows public_profiles (profiles d ++ [p])
                 (set_auth_users (auth_users d ++ [NEW]) d)).
Proof.
  unfold create_identity, handle_new_user.
  destruct (has_key _ _ _); [discriminate|].
  destruct (insert_row public_profiles _ _) as [d1|e] eqn:H1; [|discriminate].
  cbn [bind]. intros H2.
  apply insert_row_ok in H1. apply insert_row_ok in H2. subst d' d1.
  eexists. split; [|reflexivity]. reflexivity.
Qed.

Lemma update_keeps_profile_ids (uid : uuid) (now : timestamptz)
    (wh : Profile.row -> bool) (set : Profile.row -> Profile.row) (d : db) :
  map Profile.id (profiles (after d (update_as uid now public_profiles wh set d)))
  = map Profile.id (profiles d).
Proof.
  destruct (update_as uid now public_profiles wh set d) as [d'|e] eqn:H;
    cbn [after]; [|reflexivity].
  pose proof (update_as_ok _ _ _ _ _ _ _ H) as Hd'.
  unfold update_as in H. cbv zeta in H.
  destruct (forallb _ (rows public_profiles d)) eqn:Hall; [|discriminate].
  rewrite forallb_forall in Hall.
  subst d'. cbn [set_rows profiles rows]. rewrite map_map.
  apply map_ext_in. intros r Hr. specialize (Hall r Hr).
  destruct (targets d uid public_profiles UPDATE wh r) eqn:Hhit;
    [|reflexivity].
  cbn [negb orb] in Hall.
  unfold targets in Hhit. apply andb_true_iff in Hhit as [_ Hupd].
  unfold passes_using in Hupd. unfold passes_check in Hall.
  cbn in Hupd, Hall. rewrite orb_false_r in Hupd, Hall.
  apply String.eqb_eq in Hupd, Hall. cbn. congruence.
Qed.

Lemma profile_ids_step (s : statement) (d : db) :
  exists l, map Profile.id (profiles (after d (run s d)))
            = map Profile.id (profiles d) ++ l.
Proof.
  destruct s as [uid t r | uid now t wh set | uid now t wh | uid ex | NEW now gen];
    cbn [run].
  - destruct (insert_as_cases uid t r d) as [-> | ->].
    + exists []. now rewrite app_nil_r.
    + destruct t; try (exists []; now rewrite app_nil_r).
      exists [Profile.id r]. cbn. now rewrite map_app.
  - destruct t;
      try (destruct (update_as_cases uid now _ wh set d) as [l ->];
           exists []; now rewrite app_nil_r).
    exists []. rewrite app_nil_r. apply update_keeps_profile_ids.
  - exists []. rewrite app_nil_r. unfold delete_as. cbv zeta. cbn [after].
    destruct t; try reflexivity.
    cbn [on_delete set_rows rows profiles]. f_equal.
    apply filter_all. intros x _. unfold targets, passes_using. cbn.
    now rewrite andb_false_r.
  - exists []. rewrite app_nil_r. unfold upsert_user_role.
    destruct (passes_check _ _ _ _ _); [|reflexivity].
    destruct (has_key _ _ _).
    + destruct (forallb _ _); [|reflexivity].
      destruct (first_conflict _ _); [reflexivity|].
      destruct (fk_violation _ _ _); reflexivity.
    + destruct (insert_row _ _ _) as [d'|e] eqn:H; [|reflexivity].
      apply insert_row_ok in H. now subst d'.
  - destruct (create_identity NEW now gen d) as [d'|e] eqn:H; cbn [after].
    + apply create_identity_ok in H as [p [Hp ->]].
      exists [Profile.id p]. cbn. now rewrite map_app.
    + exists []. now rewrite app_nil_r.
Qed.

(** X15: no sequence of statements removes a profile or changes the id of
    one, whoever sends them: the ids of the profiles afterwards are the old
    ones, in the old order, followed by those of profiles that were added.
    (profiles has no policy for DELETE, and the policy for UPDATE checks the
    new row against the identity that owned the old one.) *)
Theorem profiles_are_permanent (ss : list statement) (d : db) :
  exists l, map Profile.id (profiles (run_all ss d))
            = map Profile.id (profiles d) ++ l.
Proof.
  revert d. induction ss as [|s ss IH]; intros d; cbn.
  - exists []. now rewrite app_nil_r.
  - destruct (IH (after d (run s d))) as [l2 H2].
    destruct (profile_ids_step s d) as [l1 H1].
    exists (l1 ++ l2). unfold run_all in H2. rewrite H2, H1.
    now rewrite app_assoc.
Qed.

(** ** Identities keep their profile and their role *)

Lemma has_key_prefix {R : Type} (key : R -> uuid) (l l' : list R)
    (extra : list uuid) (k : uuid) :
  map key l' = map key l ++ extra ->
  has_key key l k = true -> has_key key l' k = true.
Proof.
  intros H Hk. rewrite has_key_map in *. rewrite H, existsb_app.
  apply orb_true_iff. left. exact Hk.
Qed.

Lemma roles_step (s : statement) (d : db) :
  no_admin d ->
  exists l, user_roles (after d (run s d)) = user_roles d ++ l.
Proof.
  intros Hno.
  pose proof (proj1 (no_admin_has_role d) Hno) as Hrole.
  destruct s as [uid t r | uid now t wh set | uid now t wh | uid ex | NEW now gen];
    cbn [run].
  - destruct (insert_as uid t r d) as [d'|e] eqn:H; cbn [after];
      [|exists []; now rewrite app_nil_r].
    destruct t;
      try (apply insert_as_ok in H; subst d'; exists []; now rewrite app_nil_r).
    unfold insert_as, passes_check in H. cbn in H. rewrite Hrole in H.
    discriminate.
  - exists []. rewrite app_nil_r.
    destruct t;
      try (destruct (update_as_cases uid now _ wh set d) as [l ->];
           reflexivity).
    now rewrite unwritable_roles_update by apply Hrole.
  - exists []. rewrite app_nil_r.
    destruct t; try reflexivity.
    now rewrite unwritable_roles_delete by apply Hrole.
  - exists []. rewrite app_nil_r.
    unfold upsert_user_role, passes_check. cbn. now rewrite Hrole.
  - destruct (create_identity NEW now gen d) as [d'|e] eqn:H; cbn [after];
      [|exists []; now rewrite app_nil_r].
    apply create_identity_roles in H. eexists. exact H.
Qed.

Lemma has_role_prefix (d d' : db) (l : list UserRole.row) (u : uuid)
    (r : app_role) :
  user_roles d' = user_roles d ++ l ->
  has_role d u r = true -> has_role d' u r = true.
Proof.
  intros H Hr. unfold has_role in *. now rewrite H, existsb_app, Hr.
Qed.

Lemma bootstrapped_step (s : statement) (d : db) :
  no_admin d -> bootstrapped d -> bootstrapped (after d (run s d)).
Proof.
  intros Hno Hb.
  destruct (profile_ids_step s d) as [lp Hp].
  destruct (roles_step s d Hno) as [lr Hr].
  assert (Hold : forall u, In u (auth_users d) ->
            has_key Profile.id (profiles (after d (run s d))) (AuthUser.id u)
            = true
            /\ has_role (after d (run s d)) (AuthUser.id u) user = true).
  { intros u Hu. destruct (Hb u Hu) as [H1 H2]. split.
    - exact (has_key_prefix Profile.id _ _ lp _ Hp H1).
    - exact (has_role_prefix d _ lr _ _ Hr H2). }
  destruct s as [uid t r | uid now t wh set | uid now t wh | uid ex | NEW now gen].
  - intros u Hu. apply Hold. cbn [run] in Hu.
    destruct (insert_as_cases uid t r d) as [E | E]; rewrite E in Hu;
      [exact Hu | now destruct t].
  - intros u Hu. apply Hold. cbn [run] in Hu.
    destruct (update_as_cases uid now t wh set d) as [l E]. rewrite E in Hu.
    now destruct t.
  - intros u Hu. apply Hold. cbn [run after] in Hu.
    unfold delete_as in Hu. cbv zeta in Hu. now destruct t.
  - intros u Hu. apply Hold. cbn [run] in Hu.
    unfold upsert_user_role in Hu.
    destruct (passes_check _ _ _ _ _); [|exact Hu].
    destruct (has_key _ _ _).
    + destruct (forallb _ _); [|exact Hu].
      destruct (first_conflict _ _); [exact Hu|].
      destruct (fk_violation _ _ _); exact Hu.
    + destruct (insert_row _ _ _) as [d'|e] eqn:H; [|exact Hu].
      apply insert_row_ok in H. now subst d'.
  - cbn [run] in *.
    destruct (create_identity NEW now gen d) as [d'|e] eqn:H; cbn [after] in *;
      [|exact Hb].
    apply create_identity_ok in H as [p [Hpid Hd']].
    intros u Hu. rewrite Hd' in Hu. cbn in Hu.
    apply in_app_or in Hu as [Hu | [<- | []]]; [now apply Hold|].
    rewrite Hd'. split.
    + cbn [set_rows profiles]. rewrite has_key_app. cbn.
      rewrite Hpid, String.eqb_refl. now rewrite orb_true_r.
    + unfold has_role. cbn. rewrite existsb_app. cbn.
      rewrite String.eqb_refl. now rewrite orb_true_r.
Qed.

(** X16: as long as no role row grants admin, every identity keeps what
    the bootstrap gave it: if every stored identity has a profile and holds
    the role user, this is still so after any sequence of statements, whoever
    sends them, identities created on the way included. *)
Theorem identities_keep_profile_and_role (ss : list statement) (d : db) :
  no_admin d -> bootstrapped d -> bootstrapped (run_all ss d).
Proof.
  revert d. induction ss as [|s ss IH]; intros d Hno Hb; cbn; [exact Hb|].
  apply IH; [now apply no_admin_step | now apply bootstrapped_step].
Qed.

Lemma one_category_bootstrapped : bootstrapped one_category.
Proof.
  intros u Hu. simpl in Hu. destruct Hu as [<-|[<-|[]]]; split; reflexivity.
Defined.

Lemma identities_keep_profile_and_role_witness :
  bootstrapped
    (run_all
       [ DeleteAs "u2" 5 public_profiles (fun _ => true);
         DeleteAs "u1" 6 public_user_roles (fun _ => true);
         CreateIdentity nina 8 "r7";
         UpdateAs "n" 9 public_profiles (fun _ => true)
           (fun p => Profile.mk "u1" None None None 0 0) ]
       one_category).
Proof.
  apply identities_keep_profile_and_role;
    [exact one_category_no_admin | exact one_category_bootstrapped].
Defined.

(** ** The pie charts *)

Lemma chart_total_positive (ss : list Slice.t) :
  chart_total (filter (fun s => Nat.ltb 0 (Slice.value s)) ss) = chart_total ss.
Proof.
  unfold chart_total.
  induction ss as [|s ss IH]; [reflexivity|]. cbn [filter].
  destruct (Nat.ltb 0 (Slice.value s)) eqn:H; cbn [fold_right]; rewrite IH;
    [reflexivity|].
  apply Nat.ltb_ge in H. lia.
Qed.

Lemma statuses_partition (tasks : list Task.row) :
  (count_status pending tasks + count_status in_progress tasks
   + count_status completed tasks + count_status cancelled tasks)%nat
  = List.length tasks.
Proof.
  unfold count_status. induction tasks as [|x l IH]; [reflexivity|].
  cbn [filter List.length]. destruct (Task.status x); cbn; lia.
Qed.

Lemma priorities_partition (tasks : list Task.row) :
  (count_priority urgent tasks + count_priority high tasks
   + count_priority medium tasks + count_priority low tasks)%nat
  = List.length tasks.
Proof.
  unfold count_priority. induction tasks as [|x l IH]; [reflexivity|].
  cbn [filter List.length]. destruct (Task.priority x); cbn; lia.
Qed.

(** X17: both pie charts of the analytics view account for every fetched
    task once: the values of the status chart add up to the number of tasks,
    and so do those of the priority chart; a chart has no empty slice, so it
    is empty exactly when there is no task. *)
Theorem pie_charts_add_up (tasks : list Task.row) :
  chart_total (statusData tasks) = List.length tasks
  /\ chart_total (priorityData tasks) = List.length tasks
  /\ (forall s, In s (statusData tasks) \/ In s (priorityData tasks) ->
        (0 < Slice.value s)%nat)
  /\ (statusData tasks = [] <-> tasks = [])
  /\ (priorityData tasks = [] <-> tasks = []).
Proof.
  assert (Hs : chart_total (statusData tasks) = List.length tasks).
  { unfold statusData. rewrite chart_total_positive. cbn.
    rewrite <- (statuses_partition tasks). lia. }
  assert (Hp : chart_total (priorityData tasks) = List.length tasks).
  { unfold priorityData. rewrite chart_total_positive. cbn.
    rewrite <- (priorities_partition tasks). lia. }
  split; [exact Hs|]. split; [exact Hp|]. split; [|split].
  - intros s [H | H]; apply filter_In in H as [_ H]; now apply Nat.ltb_lt.
  - split; intros H.
    + rewrite H in Hs. cbn in Hs. now destruct tasks.
    + now subst tasks.
  - split; intros H.
    + rewrite H in Hp. cbn in Hp. now destruct tasks.
    + now subst tasks.
Qed.

(** ** Creating a task *)

(** X18: [saveTask] for a new task cannot fail when the signed-in
    identity is stored, the generated id is not taken, the title is not
    blank, the due date is empty or a date, and the category is none or a
    stored one, whoever owns it.  It adds one task, owned by the signed-in
    identity, with completed_at set exactly when the status is completed,
    and that identity reads the task back. *)
Theorem saveTask_creates_task (trim : string -> string)
    (timestamptz_in : string -> option timestamptz)
    (uid : uuid) (form : Form.t) (client_now now : timestamptz) (gen : uuid)
    (due : option timestamptz) (d : db) :
  has_key AuthUser.id (auth_users d) uid = true ->
  has_key Task.id (tasks d) gen = false ->
  non_empty (trim (Form.title form)) = true ->
  due_date_in timestamptz_in (payload_of trim form client_now) = Ok due ->
  Form.category_id form = ""
  \/ has_key Category.id (categories d) (Form.category_id form) = true ->
  let x := new_task (payload_of trim form client_now) due uid gen now in
  let d' := set_rows public_tasks (tasks d ++ [x]) d in
  saveTask trim timestamptz_in (Some uid) None form client_now now gen d = Ok d'
  /\ Task.user_id x = uid
  /\ completed_at_consistent x
  /\ In x (data_or_empty
             (select_as d' uid public_tasks
                (fun r => String.eqb (Task.user_id r) uid))).
Proof.
  intros Hu Hgen Htitle Hdue Hcat x d'.
  split; [|split; [|split]].
  - unfold saveTask. rewrite Htitle, Hdue. cbn [negb bind].
    fold x. unfold insert_as.
    replace (passes_check d uid public_tasks INSERT x) with true
      by (unfold passes_check; cbn; now rewrite String.eqb_refl).
    unfold insert_row, unique_conflict.
    cbn [rows pkey row unique_key_taken x new_task Task.id].
    rewrite Hgen.
    replace (fk_violation public_tasks _ d) with (@None string); [reflexivity|].
    symmetry. cbn. unfold references_user. rewrite Hu. cbn.
    unfold or_null. destruct Hcat as [-> | Hc]; [reflexivity|].
    destruct (String.eqb (Form.category_id form) ""); [reflexivity|].
    now rewrite Hc.
  - reflexivity.
  - unfold completed_at_consistent. cbn.
    destruct (Form.status form); cbn; split; congruence.
  - unfold select_as, data_or_empty. apply filter_In. split.
    + cbn [d' rows set_rows tasks]. apply in_or_app. right. now left.
    + unfold passes_using. cbn. now rewrite !String.eqb_refl.
Qed.

Lemma saveTask_creates_task_witness :
  saveTask (fun s => s) (fun _ => None) (Some "u2") None
    (Form.mk "Pack" "" completed high "" "c1" "a, b" true) 60 61 "t7"
    with_children
  = Ok (set_rows public_tasks
          [ task1; task2;
            Task.mk "t7" "u2" (Some "c1") "Pack" None completed high None
              (Some 60) (Some [ "a"; " b" ]) (Some true) (Some 0) 61 61 ]
          with_children).
Proof.
  exact (proj1 (saveTask_creates_task (fun s => s) (fun _ => None) "u2"
                  (Form.mk "Pack" "" completed high "" "c1" "a, b" true)
                  60 61 "t7" None with_children
                  eq_refl eq_refl eq_refl eq_refl (or_intror eq_refl))).
Defined.

(** ** Promoting an admin *)

(** X19: [promoteToAdmin] for an identity that holds admin already, called
    by an admin with a generated id that is not taken, is refused with a
    violation of UNIQUE (user_id, role): the upsert resolves conflicts on the
    primary key only, and the new row has a fresh one.  The role rows stay as
    they are. *)
Theorem promoteToAdmin_again_is_refused (d : db) (caller u gen : uuid)
    (now : timestamptz) :
  has_role d caller admin = true ->
  has_role d u admin = true ->
  has_key UserRole.id (user_roles d) gen = false ->
  promoteToAdmin caller u gen now d
  = Error (unique_violation "user_roles_user_id_role_key").
Proof.
  intros Hadm Hu Hgen. unfold promoteToAdmin, upsert_user_role.
  replace (passes_check d caller public_user_roles INSERT
             (UserRole.mk gen u admin now)) with true
    by (unfold passes_check; cbn; now rewrite Hadm).
  cbn [UserRole.id]. rewrite Hgen.
  unfold insert_row, unique_conflict.
  cbn [rows pkey row unique_key_taken UserRole.id UserRole.user_id
       UserRole.role].
  rewrite Hgen. unfold has_role in Hu. rewrite Hu. reflexivity.
Qed.

Lemma promoteToAdmin_again_is_refused_witness :
  promoteToAdmin "a" "a" "r4" 70 two_identities
  = Error (unique_violation "user_roles_user_id_role_key").
Proof.
  exact (promoteToAdmin_again_is_refused two_identities "a" "a" "r4" 70
           eq_refl eq_refl eq_refl).
Defined.

(** ** The bell *)

Lemma unread_count_erased (uid : uuid) (d : db) :
  notifCount uid d
  = List.length
      (filter (fun n => String.eqb (Notification.user_id n) uid
                        && match Notification.is_read n with
                           | Some false => true
                           | _ => false
                           end)
              (map (Notification.set_task_id None) (notifications d))).
Proof.
  unfold notifCount, select_as, data_or_empty. cbn [rows].
  induction (notifications d) as [|n l IH]; [reflexivity|].
  cbn [map filter].
  replace (passes_using d uid public_notifications SELECT n)
    with (String.eqb uid (Notification.user_id n))
    by (unfold passes_using; cbn; now rewrite orb_false_r).
  cbn [Notification.set_task_id Notification.user_id Notification.is_read].
  rewrite (String.eqb_sym uid).
  destruct (String.eqb (Notification.user_id n) uid); cbn [andb];
    [|exact IH].
  destruct (Notification.is_read n) as [[|]|]; cbn [List.length];
    now rewrite ?IH.
Qed.

(** X20: the counter of the bell is the same before and after any write
    of the components: nothing the client sends creates a notification,
    removes one or marks one as read. *)
Theorem client_writes_keep_notifCount (trim : string -> string)
    (timestamptz_in date_of : string -> option timestamptz)
    (w : client_write) (now : timestamptz) (uid : uuid) (d : db) :
  notifCount uid (after d (run_client trim timestamptz_in date_of w now d))
  = notifCount uid d.
Proof.
  destruct (client_frame_step trim timestamptz_in date_of w now d)
    as [_ [_ [H _]]].
  now rewrite !unread_count_erased, H.
Qed.

(** ** The label of a reminder *)

Lemma find_permuted (order : list Task.row -> list Task.row)
    (l : list Task.row) (f : Task.row -> bool) :
  (forall l, Permutation (order l) l) ->
  (find f (order l) = None <-> forall x, In x l -> f x = false)
  /\ (forall x, find f (order l) = Some x -> In x l /\ f x = true).
Proof.
  intros Hperm. split; [split|].
  - intros H x Hx. apply (find_none _ _ H).
    apply (Permutation_in _ (Permutation_sym (Hperm l))). exact Hx.
  - intros H. destruct (find f (order l)) as [x|] eqn:E; [|reflexivity].
    apply find_some in E as [Hx Hf].
    apply (Permutation_in _ (Hperm l)) in Hx. rewrite (H x Hx) in Hf.
    discriminate.
  - intros x E. apply find_some in E as [Hx Hf]. split; [|exact Hf].
    exact (Permutation_in _ (Hperm l) Hx).
Qed.

(** X21: in the list of reminders, the reminder of a task is labelled
    "Unknown task" as soon as the task is completed (or is not a task of the
    signed-in identity, or does not exist): the view fetches the tasks that
    are not completed only.  For a task of the signed-in identity that is
    not completed, has a title and is the only one with its id, the label is
    the title. *)
Theorem reminder_label (order_by_title : list Task.row -> list Task.row)
    (uid : uuid) (d : db) :
  (forall l, Permutation (order_by_title l) l) ->
  (forall k,
     (forall x, In x (tasks d) -> Task.id x = k ->
                Task.status x = completed \/ Task.user_id x <> uid) ->
     taskTitle (reminder_tasks order_by_title uid d) k = "Unknown task")
  /\ (forall x,
        In x (tasks d) -> Task.user_id x = uid ->
        Task.status x <> completed ->
        Task.title x <> "" ->
        (forall y, In y (tasks d) -> Task.id y = Task.id x -> y = x) ->
        taskTitle (reminder_tasks order_by_title uid d) (Task.id x)
        = Task.title x).
Proof.
  intros Hperm. split.
  - intros k Hall. unfold taskTitle, reminder_tasks.
    replace (find _ (order_by_title _)) with (@None Task.row); [reflexivity|].
    symmetry. apply (find_permuted order_by_title _ _ Hperm).
    intros x Hx. unfold select_as, data_or_empty in Hx.
    apply filter_In in Hx as [Hx Hsel].
    apply andb_true_iff in Hsel as [_ Hsel].
    apply andb_true_iff in Hsel as [Hown Hst].
    apply String.eqb_eq in Hown. apply negb_true_iff in Hst.
    apply not_true_is_false. intros Hid. apply String.eqb_eq in Hid.
    destruct (Hall x Hx Hid) as [Hc | Hne]; [|congruence].
    rewrite Hc in Hst. discriminate.
  - intros x Hx Hown Hst Htitle Honly. unfold taskTitle, reminder_tasks.
    set (sel := data_or_empty _).
    assert (Hsel : In x sel).
    { unfold sel, select_as, data_or_empty. apply filter_In. split; [exact Hx|].
      unfold passes_using. cbn. rewrite <- Hown, !String.eqb_refl. cbn.
      destruct (Task.status x); try reflexivity. congruence. }
    destruct (find _ (order_by_title sel)) as [y|] eqn:E.
    + apply (find_permuted order_by_title sel _ Hperm) in E as [Hy Hid].
      apply String.eqb_eq in Hid.
      assert (y = x).
      { apply Honly; [|exact Hid]. unfold sel, select_as, data_or_empty in Hy.
        now apply filter_In in Hy. }
      subst y. unfold non_empty.
      apply String.eqb_neq in Htitle. now rewrite Htitle.
    + pose proof (proj1 (proj1 (find_permuted order_by_title sel _ Hperm)) E
                    x Hsel) as Hno.
      cbv beta in Hno. now rewrite String.eqb_refl in Hno.
Qed.

Lemma reminder_label_witness :
  taskTitle (reminder_tasks (fun l => l) "u1" completed_db) "t1"
    = "Unknown task"
  /\ taskTitle (reminder_tasks (fun l => l) "u1" completed_db) "t2"
     = "Call Ann".
Proof.
  destruct (reminder_label (fun l => l) "u1" completed_db
              (fun l => Permutation_refl l)) as [H1 H2].
  split.
  - apply H1. intros x Hx Hid. simpl in Hx.
    destruct Hx as [<-|[<-|[]]]; [now left | discriminate].
  - apply (H2 task2); try discriminate; try reflexivity.
    + simpl. auto.
    + intros y Hy Hid. simpl in Hy.
      destruct Hy as [<-|[<-|[]]]; [discriminate | reflexivity].
Defined.
